(** * Efficiency scoring and ranking of the jobstats site (src/app.py)

    A shallow embedding of the scoring, aggregation, ranking and
    name-resolution code of [app.py], of its account and user views and of
    its chart endpoints, and the properties of that code.

    Python objects are modelled as follows.
    - Immutable, hashable objects are [atom]s: [None], numbers, strings,
      [datetime.date] instances and the class [datetime.date] itself (the
      object the module-level name [date] is bound to).
    - Dictionaries are mutable and shared: a [value] is an atom or a reference
      into a [store] of dictionaries, each an association list in insertion
      order.
    - Numbers are exact rationals: [int] and [float] are not told apart and
      rounding is not modelled.  Every property below is decided by lookups,
      zero tests on divisors and name resolution, never by rounding.  Python
      agrees with the rationals on these zero tests as long as no product of
      floats underflows to zero and no integer is too large for a float
      ([OverflowError]); the properties that name the exception of a
      computation with numbers are stated for numbers of moderate size, see
      [moderate].
    - Lists, tuples, sets and bytes are not among the objects passed as data
      or listed by the database: a property that says when a function
      returns, or which exception it raises, is about the objects above.
    - Python lists that the code builds and returns ([all_data_points],
      [job_data], [account_ranks], the series of a chart) are Rocq lists; so
      are the rows the database returns.
    - Dates are day numbers, and [date.today()] is a parameter [today].
    - A function is a computation in a store-passing exception monad [M]:
      it returns or raises, and leaves a store behind in both cases. *)

From Stdlib Require Import QArith Qabs ZArith String Ascii List Sorted Lia.
From stdpp Require Import base option list strings.

Local Open Scope string_scope.

(** ** Exceptions and results *)

Inductive exn : Type :=
  | NameError (name : string)
  | KeyError
  | TypeError
  | ZeroDivisionError
  | ValueError
  | IndexError
  | DanglingRef      (* a reference outside the store: no Python counterpart *)
  | FuelExhausted.   (* recursion bound of the model: no Python counterpart *)

Inductive result (A : Type) : Type :=
  | Ok (a : A)
  | Raise (e : exn).
Arguments Ok {A} a.
Arguments Raise {A} e.

(** ** Objects *)

Inductive atom : Type :=
  | ANone
  | ANum (q : Q)
  | AStr (s : string)
  | ADate (d : Z)
  | ADateClass.

Inductive value : Type :=
  | VAtom (a : atom)
  | VRef (l : nat).

Definition dict : Type := list (atom * value).
Abbreviation store := (list dict).

Definition num (q : Q) : value := VAtom (ANum q).
Definition str (s : string) : value := VAtom (AStr s).

(** Python [==] on hashable objects; it decides which dictionary entry a key
    denotes. *)
Definition atom_eqb (a b : atom) : bool :=
  match a, b with
  | ANone, ANone => true
  | ANum p, ANum q => Qeq_bool p q
  | AStr s, AStr t => String.eqb s t
  | ADate d, ADate e => Z.eqb d e
  | ADateClass, ADateClass => true
  | _, _ => false
  end.

Fixpoint dict_get (d : dict) (k : atom) : option value :=
  match d with
  | [] => None
  | (k', v) :: d' => if atom_eqb k' k then Some v else dict_get d' k
  end.

(** [d[k] = v]: an existing entry keeps its position, a new one goes last. *)
Fixpoint dict_set (d : dict) (k : atom) (v : value) : dict :=
  match d with
  | [] => [(k, v)]
  | (k', v') :: d' =>
      if atom_eqb k' k then (k', v) :: d' else (k', v') :: dict_set d' k v
  end.

Definition dict_keys (d : dict) : list atom := map fst d.

Definition dict_has (d : dict) (k : atom) : bool :=
  match dict_get d k with Some _ => true | None => false end.

(** ** The monad *)

Definition M (A : Type) : Type := store -> result A * store.

Definition ret {A} (a : A) : M A := fun s => (Ok a, s).
Definition raise {A} (e : exn) : M A := fun s => (Raise e, s).
Definition bind {A B} (m : M A) (f : A -> M B) : M B :=
  fun s => match m s with
           | (Ok a, s') => f a s'
           | (Raise e, s') => (Raise e, s')
           end.

Notation "'let!' x ':=' m 'in' k" := (bind m (fun x => k))
  (at level 10, x name, m at level 100, k at level 200).

(** [for x in xs: body(x)] over an already materialised sequence. *)
Fixpoint for_each {A} (xs : list A) (body : A -> M unit) : M unit :=
  match xs with
  | [] => ret tt
  | x :: xs' => let! _ := body x in for_each xs' body
  end.

(** [[f(x) for x in xs]] *)
Fixpoint map_M {A B} (f : A -> M B) (xs : list A) : M (list B) :=
  match xs with
  | [] => ret []
  | x :: xs' => let! y := f x in let! ys := map_M f xs' in ret (y :: ys)
  end.

(** ** Primitive operations *)

(** [{...}]: a new dictionary object. *)
Definition alloc (d : dict) : M value :=
  fun s => (Ok (VRef (List.length s)), (s ++ [d])%list).

Definition deref (l : nat) : M dict :=
  fun s => match s !! l with
           | Some d => (Ok d, s)
           | None => (Raise DanglingRef, s)
           end.

Fixpoint string_chars (s : string) : list atom :=
  match s with
  | EmptyString => []
  | String c s' => AStr (String c EmptyString) :: string_chars s'
  end.

Fixpoint is_substring (sub s : string) : bool :=
  String.prefix sub s ||
  match s with
  | EmptyString => false
  | String _ s' => is_substring sub s'
  end.

Definition Q_is_int (q : Q) : option Z :=
  if (Zpos (Qden q) =? 1)%Z then Some (Qnum q)
  else if (Qnum q mod Zpos (Qden q) =? 0)%Z then Some (Qnum q / Zpos (Qden q))%Z
  else None.

(** [v[k]] *)
Definition getitem (v k : value) : M value :=
  match v with
  | VRef l =>
      let! d := deref l in
      match k with
      | VAtom a =>
          match dict_get d a with
          | Some x => ret x
          | None => raise KeyError
          end
      | VRef _ => raise TypeError          (* unhashable key *)
      end
  | VAtom (AStr s) =>
      match k with
      | VAtom (ANum q) =>
          match Q_is_int q with
          | Some i =>
              let n := String.length s in
              let j := if (i <? 0)%Z then (i + Z.of_nat n)%Z else i in
              if ((0 <=? j) && (j <? Z.of_nat n))%Z
              then match String.get (Z.to_nat j) s with
                   | Some c => ret (str (String c EmptyString))
                   | None => raise IndexError
                   end
              else raise IndexError
          | None => raise TypeError
          end
      | _ => raise TypeError
      end
  | VAtom _ => raise TypeError             (* not subscriptable *)
  end.

(** [v[k] = x] *)
Definition setitem (v k x : value) : M unit :=
  match v with
  | VRef l =>
      match k with
      | VAtom a =>
          fun s => match s !! l with
                   | Some d => (Ok tt, <[l := dict_set d a x]> s)
                   | None => (Raise DanglingRef, s)
                   end
      | VRef _ => raise TypeError
      end
  | VAtom _ => raise TypeError             (* no item assignment *)
  end.

(** [k in v] *)
Definition contains (k v : value) : M bool :=
  match v with
  | VRef l =>
      let! d := deref l in
      match k with
      | VAtom a => ret (dict_has d a)
      | VRef _ => raise TypeError
      end
  | VAtom (AStr s) =>
      match k with
      | VAtom (AStr sub) => ret (is_substring sub s)
      | _ => raise TypeError
      end
  | VAtom _ => raise TypeError             (* not iterable *)
  end.

(** The sequence a [for] loop over [v] runs through: the keys of a dictionary
    in insertion order, the characters of a string.  The loops of this module
    never change the object they iterate over, so the sequence is taken once. *)
Definition iter (v : value) : M (list atom) :=
  match v with
  | VRef l => let! d := deref l in ret (dict_keys d)
  | VAtom (AStr s) => ret (string_chars s)
  | VAtom _ => raise TypeError
  end.

(** Truth value, as tested by [if] and [and]. *)
Definition truthy (v : value) : M bool :=
  match v with
  | VAtom ANone => ret false
  | VAtom (ANum q) => ret (negb (Qeq_bool q 0))
  | VAtom (AStr s) => ret (negb (String.eqb s ""))
  | VAtom (ADate _) => ret true
  | VAtom ADateClass => ret true
  | VRef l => let! d := deref l in ret (match d with [] => false | _ => true end)
  end.

(** [a / b], exact.  Python rounds the quotient of two floats, and raises
    [OverflowError] for an integer operand that no float holds; for the
    numbers of moderate size (see [moderate]) the zero test and the
    exception are the ones below. *)
Definition truediv (a b : value) : M value :=
  match a, b with
  | VAtom (ANum p), VAtom (ANum q) =>
      if Qeq_bool q 0 then raise ZeroDivisionError else ret (num (p / q))
  | _, _ => raise TypeError
  end.

(** [a * b] on numbers, exact.  Sequence repetition ([str * int]) is not
    modelled: the module only uses a product as a divisor, and dividing by a
    string raises [TypeError] as well.  Python's product of two floats is
    rounded, to zero when it underflows, and the product of an integer that no
    float holds with a float raises [OverflowError]; for the numbers of
    moderate size (see [moderate]) the product is zero exactly when a factor
    is. *)
Definition mul (a b : value) : M value :=
  match a, b with
  | VAtom (ANum p), VAtom (ANum q) => ret (num (p * q))
  | _, _ => raise TypeError
  end.

(** [a + b] *)
Definition add (a b : value) : M value :=
  match a, b with
  | VAtom (ANum p), VAtom (ANum q) => ret (num (p + q))
  | VAtom (AStr s), VAtom (AStr t) => ret (str (s +:+ t))
  | _, _ => raise TypeError
  end.

(** ** Module-level names *)

(** The names bound at module level by [app.py]: its imports (lines 13-22),
    its assignments (lines 25-51, [arg] being the loop variable of line 48)
    and its function definitions. *)
Definition module_names : list string :=
  [ "sys"; "time"; "ConfigParser"; "date"; "timedelta"; "SequenceMatcher";
    "pygal"; "Flask"; "render_template"; "request"; "url_for"; "redirect";
    "jobstats"; "app"; "config"; "username"; "password"; "host"; "db";
    "normalize_scores_options"; "normalize_by_score"; "ideal_score"; "arg";
    "getScore"; "normalize"; "getTop"; "getTimeframe";
    "renderAccountsBoxPlot"; "renderUsersBoxPlot"; "renderUsersLineGraph";
    "renderAccountsLineGraph"; "renderClusterLineGraph"; "renderGraph";
    "home"; "renderAccountLineGraph"; "renderAccountUsersGraph";
    "viewAccount"; "renderUserAccountLineGraph"; "viewUser" ].

(** Resolution of a global name that no function binds locally.  A name that
    the module does not bind is looked for among the builtins next; the two
    such names the modelled functions use, [statistics] and [getStats], are
    no builtins either. *)
Definition load_name (name : string) : M unit :=
  if existsb (String.eqb name) module_names then ret tt
  else raise (NameError name).

(** [statistics.mean(xs)] of the standard library on a non-empty list, for
    the case that the name were bound to that module. *)
Fixpoint sum_values (xs : list value) (acc : value) : M value :=
  match xs with
  | [] => ret acc
  | x :: xs' => let! a := add acc x in sum_values xs' a
  end.

Definition mean (xs : list value) : M value :=
  let! total := sum_values xs (num 0) in
  truediv total (num (inject_Z (Z.of_nat (List.length xs)))).

(** ** Normalization options (lines 42-51) *)

Record Config : Type := {
  normalize_by_score : bool;
  ideal_score : Q
}.

(** [s.split(' ')] *)
Fixpoint split_space (s : string) : list string :=
  match s with
  | EmptyString => [""]
  | String c s' =>
      match split_space s' with
      | [] => [String c ""]
      | w :: ws => if Ascii.eqb c " " then "" :: w :: ws else String c w :: ws
      end
  end.

(** The module-level loop over the words of [config['SCORES']['normalize']];
    [ideal] is [float(config['SCORES']['ideal score'])]. *)
Definition startup_config (normalize_scores_options : string) (ideal : Q) : Config :=
  fold_left
    (fun cfg arg =>
       if is_substring "score" arg
       then {| normalize_by_score := true; ideal_score := ideal |}
       else cfg)
    (split_space normalize_scores_options)
    {| normalize_by_score := false; ideal_score := 0 |}.

(** ** Score calculator *)

Section Scoring.

Variable cfg : Config.

(** [getScore(data, all_scores=False)], lines 54-85. *)
Definition getScore (data : value) (all_scores : bool) : M value :=
  let! memuse := getitem data (str "memuse") in
  let! memreq := getitem data (str "memreq") in
  let! score_memory := truediv memuse memreq in
  let! cputime := getitem data (str "cputime") in
  let! coresreq := getitem data (str "coresreq") in
  let! timeuse := getitem data (str "timeuse") in
  let! cpu_den := mul coresreq timeuse in
  let! score_cpu := truediv cputime cpu_den in
  let! timeuse' := getitem data (str "timeuse") in
  let! timereq := getitem data (str "timereq") in
  let! score_time := truediv timeuse' timereq in
  let! _ := load_name "statistics" in
  let! numerator := mean [score_memory; score_cpu; score_time] in
  let denominator :=
    if normalize_by_score cfg then num (ideal_score cfg) else num 1 in
  if negb all_scores then
    let! quot := truediv numerator denominator in
    mul quot (num 100)
  else
    let! quot := truediv numerator denominator in
    let! total := mul quot (num 100) in
    alloc [ (AStr "total", total); (AStr "cores", score_cpu);
            (AStr "memory", score_memory); (AStr "tlimit", score_time) ].

(** The branch of [normalize] for a single data point, lines 109-121. *)
Definition single_point (data : value) (all_scores : bool) : M value :=
  let! memuse := getitem data (str "memuse") in
  let! memreq := getitem data (str "memreq") in
  let! memory := truediv memuse memreq in
  let! timeuse := getitem data (str "timeuse") in
  let! timereq := getitem data (str "timereq") in
  let! time := truediv timeuse timereq in
  let! cputime := getitem data (str "cputime") in
  let! timeuse' := getitem data (str "timeuse") in
  let! cpureq := getitem data (str "cpureq") in
  let! cpu_den := mul timeuse' cpureq in
  let! cpu := truediv cputime cpu_den in
  let! _ := load_name "statistics" in
  let! avg := mean [memory; time; cpu] in
  let! score := truediv avg (num (ideal_score cfg)) in
  if all_scores then
    let! _ := setitem data (str "total") score in
    ret data
  else ret score.

(** The literal of lines 135-142. *)
Definition data_total_init : dict :=
  [ (AStr "memuse", num 0); (AStr "memreq", num 0);
    (AStr "timeuse", num 0); (AStr "timereq", num 0);
    (AStr "cputime", num 0); (AStr "cpureq", num 0) ].

(** The loop of lines 128-129, [self] being [normalize] itself.  The
    subscript of [data] is the module-level name [date], not the loop
    variable [day]. *)
Definition score_days (self : value -> bool -> bool -> M value)
  (data scores : value) (all_scores : bool) (days : list atom) : M unit :=
  for_each days (fun day =>
    let! _ := load_name "date" in
    let! record := getitem data (VAtom ADateClass) in
    let! score := self record all_scores false in
    setitem scores (VAtom day) score).

(** The loop of lines 144-146: [day] is what iterating over [data] yields, and
    [val] what iterating over [day] yields. *)
Definition sum_days (data_total : value) (days : list atom) : M unit :=
  for_each days (fun day =>
    let! vals := iter (VAtom day) in
    for_each vals (fun val =>
      let! old := getitem data_total (VAtom val) in
      let! inc := getitem (VAtom day) (VAtom val) in
      let! new := add old inc in
      setitem data_total (VAtom val) new)).

(** The body of [normalize(data, all_scores=False, by_date=False)], lines
    88-148, with [self] for the calls the function makes to itself. *)
Definition normalize_body (self : value -> bool -> bool -> M value)
  (data : value) (all_scores by_date : bool) : M value :=
  let! single := contains (str "memuse") data in
  if single then
    (* Data is a single point *)
    single_point data all_scores
  else if by_date then
    (* Normalize each day *)
    let! scores := alloc [] in
    let! days := iter data in
    let! _ := score_days self data scores all_scores days in
    ret scores
  else
    (* Sum each day together and get one big score *)
    let! data_total := alloc data_total_init in
    let! days := iter data in
    let! _ := sum_days data_total days in
    self data_total all_scores false.

(** [fuel] bounds the depth of the calls [normalize] makes to itself. *)
Fixpoint normalize_fuel (fuel : nat) : value -> bool -> bool -> M value :=
  match fuel with
  | O => fun _ _ _ => raise FuelExhausted
  | S fuel' => normalize_body (normalize_fuel fuel')
  end.

(** Three nested calls are the deepest the function makes: a by-date call, the
    summing call made for a day, the single-point call on the sum (see
    [normalize_fuel_enough] and [normalize_sound]). *)
Definition normalize (data : value) (all_scores by_date : bool) : M value :=
  normalize_fuel 3 data all_scores by_date.

End Scoring.

(** ** Ranker *)

(** [a < b], the only comparison [sorted] makes. *)
Definition py_lt (a b : value) : M bool :=
  match a, b with
  | VAtom (ANum p), VAtom (ANum q) =>
      ret (match Qcompare p q with Lt => true | _ => false end)
  | VAtom (AStr s), VAtom (AStr t) => ret (String.ltb s t)
  | VAtom (ADate d), VAtom (ADate e) => ret (d <? e)%Z
  | _, _ => raise TypeError
  end.

(** A function object: the number of positional parameters it requires, and
    its body.  A call with another number of arguments raises [TypeError]
    before the body runs. *)
Record pyfun : Type := {
  fn_params : nat;
  fn_body : list value -> M value
}.

Definition call (f : pyfun) (args : list value) : M value :=
  if Nat.eqb (List.length args) (fn_params f) then fn_body f args
  else raise TypeError.

(** Insertion of a keyed element in front of an ascending keyed list: the
    element passes the ones whose key is smaller, and stops before equal ones,
    which come later in the input. *)
Fixpoint insert_by_key (kx : value * value) (l : list (value * value))
  : M (list (value * value)) :=
  match l with
  | [] => ret [kx]
  | ky :: l' =>
      let! smaller := py_lt (fst ky) (fst kx) in
      if smaller then
        let! r := insert_by_key kx l' in ret (ky :: r)
      else ret (kx :: ky :: l')
  end.

Fixpoint sort_by_key (l : list (value * value)) : M (list (value * value)) :=
  match l with
  | [] => ret []
  | kx :: l' => let! r := sort_by_key l' in insert_by_key kx r
  end.

(** [sorted(xs, key=key)]: the keys are computed first, one call per element
    in order, then the elements are put in ascending key order with [<],
    stably, into a new list.  CPython's merge sort compares other pairs than
    this insertion sort; that shows only when a comparison raises. *)
Definition sorted (key : option pyfun) (xs : list value) : M (list value) :=
  let! keys := map_M (fun x => match key with
                               | Some f => call f [x]
                               | None => ret x
                               end) xs in
  let! r := sort_by_key (combine keys xs) in
  ret (map snd r).

(** [xs[:n]] *)
Definition slice_to {A} (n : Z) (xs : list A) : list A :=
  if (n <? 0)%Z then take (List.length xs - Z.to_nat (- n)) xs
  else take (Z.to_nat n) xs.

(** The database layer ([jobstats.Jobstats], not part of this module): the
    entity names it lists, and the content of the dictionary [getStats]
    returns for an entity, a new object at each call. *)
Inductive scope : Type := ByUser | ByAccount.

Record Jobstats : Type := {
  db_getUsers : option value -> list atom;
  db_getAccounts : option value -> list atom;
  db_getStats : scope -> value -> value -> dict
}.

(** [getTimeframe(days)], lines 177-196. *)
Definition getTimeframe (days : option string) : Z :=
  match days with
  | Some "M" => 31
  | Some "Q" => 100
  | _ => 7
  end.

Record row : Type := {
  row_rank : Z;
  row_name : value;
  row_cores : value;
  row_memory : value;
  row_tlimit : value;
  row_total : value;
  row_job_sum : value
}.

Section Ranking.

Variable cfg : Config.
Variable db : Jobstats.
Variable today : Z.               (* [date.today()] *)

(** [lambda user, since: normalize(getStats(user=user, since=since))] and its
    twin for accounts, lines 168 and 172.  [getStats] is not a name of the
    module; what follows its resolution is written as the method
    [db.getStats]. *)
Definition key_func (sc : scope) : pyfun :=
  {| fn_params := 2;
     fn_body := fun args =>
       match args with
       | [who; since] =>
           let! _ := load_name "getStats" in
           let! stats := alloc (db_getStats db sc who since) in
           normalize cfg stats false false
       | _ => raise TypeError
       end |}.

(** [getTop(account_type, num, since)], lines 152-174. *)
Definition getTop (account_type : string) (n : Z) (since : value)
  : M (list value) :=
  let '(all_data_points, key) :=
    if String.eqb account_type "users"
    then (map VAtom (db_getUsers db (Some since)), Some (key_func ByUser))
    else if String.eqb account_type "accounts"
    then (map VAtom (db_getAccounts db (Some since)), Some (key_func ByAccount))
    else ([], None) in
  let! ranked := sorted key all_data_points in
  ret (slice_to n ranked).

(** [not view or view in ['cluster', 'accounts']] *)
Definition accounts_view (view : option string) : bool :=
  match view with
  | None => true
  | Some v => String.eqb v "" || String.eqb v "cluster" || String.eqb v "accounts"
  end.

(** [a and b and c] under an [if]: the operands are evaluated left to right
    until one is false. *)
Definition and3 (a b c : M value) : M bool :=
  let! x := a in
  let! tx := truthy x in
  if tx then
    let! y := b in
    let! ty := truthy y in
    if ty then let! z := c in truthy z
    else ret false
  else ret false.

(** The gathering loop of [home], lines 360-377. *)
Fixpoint gather (view : option string) (time : Z) (data_points : list atom)
  (job_data : list value) : M (list value) :=
  match data_points with
  | [] => ret job_data
  | i :: rest =>
      let since := VAtom (ADate (today - time)) in
      let! data :=
        alloc (db_getStats db (if accounts_view view then ByAccount else ByUser)
                 (VAtom i) since) in
      let! _ := setitem data (str "owner") (VAtom i) in
      let! eligible := and3 (getitem data (str "memreq"))
                            (getitem data (str "cpureq"))
                            (getitem data (str "timereq")) in
      gather view time rest
        (if eligible then job_data ++ [data] else job_data)%list
  end.

(** [lambda x: normalize(x)], line 381. *)
Definition home_key : pyfun :=
  {| fn_params := 1;
     fn_body := fun args =>
       match args with
       | [x] => normalize cfg x false false
       | _ => raise TypeError
       end |}.

(** [int(x)] for the score [normalize] returns.  Parsing of strings is not
    modelled: [normalize] returns no string. *)
Definition py_int (x : value) : M value :=
  match x with
  | VAtom (ANum q) => ret (num (inject_Z (Z.quot (Qnum q) (Zpos (Qden q)))))
  | _ => raise TypeError
  end.

(** [x if x else '-'], as lines 393-406 do for each displayed component. *)
Definition or_dash (i : value) (field : string) : M value :=
  let! x := getitem i (str field) in
  let! t := truthy x in
  if t then getitem i (str field) else ret (str "-").

(** The loop of lines 383-411. *)
Fixpoint build_ranks (view : option string) (job_data : list value)
  (account_ranks : list row) : M (list row) :=
  match job_data with
  | [] => ret account_ranks
  | i :: rest =>
      let! account_name :=
        getitem i (str (if accounts_view view then "account" else "user")) in
      let! cores := or_dash i "cores" in
      let! memory := or_dash i "memory" in
      let! t_limit := or_dash i "tlimit" in
      let! score := normalize cfg i false false in
      let! total := py_int score in
      build_ranks view rest
        (account_ranks ++
           [ {| row_rank := Z.of_nat (List.length account_ranks) + 1;
                row_name := account_name;
                row_cores := cores; row_memory := memory;
                row_tlimit := t_limit; row_total := total;
                row_job_sum := str "-" |} ])%list
  end.

(** Lines 380-411: the ordering of the gathered records and the rows built
    from it. *)
Definition rank_job_data (view : option string) (job_data : list value)
  : M (list row) :=
  let! ordered := sorted (Some home_key) job_data in
  build_ranks view ordered [].

(** [home()], lines 336-415, up to the [account_ranks] it hands to the
    template; [view] and [time] are the request arguments. *)
Definition home (view time : option string) : M (list row) :=
  let days := getTimeframe time in
  let data_points :=
    if accounts_view view then db_getAccounts db None else db_getUsers db None in
  let! job_data := gather view days data_points [] in
  rank_job_data view job_data.

End Ranking.

(** ** Name resolver *)

Section Resolver.

(** [SequenceMatcher(None, a, b).ratio()] of the standard library [difflib]. *)
Variable ratio : string -> string -> Q.

(** [max(xs)]: the first of the largest elements. *)
Definition py_max (xs : list Q) : result Q :=
  match xs with
  | [] => Raise ValueError
  | x :: xs' =>
      Ok (fold_left (fun m y => match Qcompare y m with Gt => y | _ => m end) xs' x)
  end.

(** [xs.index(x)]: the first position holding a number equal to [x]. *)
Fixpoint py_index (xs : list Q) (x : Q) : result nat :=
  match xs with
  | [] => Raise ValueError
  | y :: xs' =>
      if Qeq_bool y x then Ok O
      else match py_index xs' x with
           | Ok i => Ok (S i)
           | Raise e => Raise e
           end
  end.

(** Lines 523-524 and 631-632: the candidate most similar to [search]. *)
Definition best_match (search : string) (candidates : list string) : result string :=
  let similarities := map (fun i => ratio search i) candidates in
  match py_max similarities with
  | Raise e => Raise e
  | Ok best =>
      match py_index similarities best with
      | Raise e => Raise e
      | Ok i =>
          match candidates !! i with
          | Some name => Ok name
          | None => Raise IndexError
          end
      end
  end.

End Resolver.

(** * Model of the views and the charts *)

(** ** Placeholders for zeros *)

(** [x == 0] *)
Definition py_eq_zero (x : value) : bool :=
  match x with
  | VAtom (ANum q) => Qeq_bool q 0
  | _ => false
  end.

(** The loop of lines 532-534, [for i in total: if total[i] == 0:
    total[i] = '-'], which lines 542-544 repeat for the statistics of each
    user. *)
Definition dash_zeros (total : value) : M unit :=
  let! keys := iter total in
  for_each keys (fun i =>
    let! x := getitem total (VAtom i) in
    if py_eq_zero x then setitem total (VAtom i) (str "-") else ret tt).

(** ** The account and user views *)

(** The further queries of the database layer the views make: the content of
    the dictionaries they return (new objects at each call), the users of an
    account, and the rows [db.getAccounts(username=...)] returns. *)
Record JobstatsViews : Type := {
  db_getAccountTotalScore : value -> value -> dict;
  db_getAccountUsers : value -> list atom;
  db_getUserStats : value -> value -> value -> dict;
  db_getAccountsOf : value -> list (list value);
  db_getStatsOf : value -> value -> value -> dict
}.

(** What a view returns: a redirection to an endpoint, or the arguments it
    hands to its template. *)
Inductive response (A : Type) : Type :=
  | Redirect (endpoint : string)
  | Render (page : A).
Arguments Redirect {A} endpoint.
Arguments Render {A} page.

Record account_page : Type := {
  ap_account_name : string;
  ap_users : value;
  ap_total : value;
  ap_time : option string;
  ap_timeframe : Z
}.

Record user_page : Type := {
  up_user_name : string;
  up_accounts : value;
  up_time : option string;
  up_timeframe : Z
}.

(** [not a] for a URL argument or a request argument: it is missing or
    empty. *)
Definition missing (a : option string) : bool :=
  match a with
  | None => true
  | Some s => String.eqb s ""
  end.

(** The candidates as the sequences [SequenceMatcher] compares.  Among the
    atoms the strings are the sequences: a number, a date or [None] cannot be
    iterated over, and [SequenceMatcher] raises [TypeError] on it.  Tuples,
    lists and bytes, which it accepts, are not among the names the model
    lists. *)
Fixpoint as_strings (names : list atom) : result (list string) :=
  match names with
  | [] => Ok []
  | AStr n :: names' =>
      match as_strings names' with
      | Ok ns => Ok (n :: ns)
      | Raise e => Raise e
      end
  | _ :: _ => Raise TypeError
  end.

(** [t[0]] for a row of the database. *)
Definition first_column (row : list value) : M value :=
  match row with
  | x :: _ => ret x
  | [] => raise IndexError
  end.

Section Views.

Variable db : Jobstats.
Variable dbv : JobstatsViews.
Variable today : Z.
Variable ratio : string -> string -> Q.

(** Lines 523-524 and 631-632 on the list the database returns. *)
Definition resolve (search : string) (names : list atom) : M string :=
  match as_strings names with
  | Ok candidates =>
      match best_match ratio search candidates with
      | Ok name => ret name
      | Raise e => raise e
      end
  | Raise e => raise e
  end.

(** The loop of lines 539-544 for one user. *)
Definition add_user (users : value) (account_name : string) (since : value)
  (user : atom) : M unit :=
  let! stats := alloc (db_getUserStats dbv (VAtom user) (str account_name) since) in
  let! _ := setitem users (VAtom user) stats in
  let! u := getitem users (VAtom user) in
  let! elements := iter u in
  for_each elements (fun element =>
    let! u1 := getitem users (VAtom user) in
    let! x := getitem u1 (VAtom element) in
    if py_eq_zero x then
      let! u2 := getitem users (VAtom user) in
      setitem u2 (VAtom element) (str "-")
    else ret tt).

(** [viewAccount(account_name=None)], lines 496-547; [search], [account] and
    [time] are the request arguments.  The two readings of the clock (lines
    519 and 521) have no part in the result. *)
Definition viewAccount (account_name search account time : option string)
  : M (response account_page) :=
  let! name :=
    if missing account_name then
      (* Find the most similar account to the searched name *)
      let search := if missing search then account else search in
      match search with
      | Some term =>
          if missing search then ret None
          else let! n := resolve term (db_getAccounts db None) in ret (Some n)
      | None => ret None
      end
    else ret account_name in
  match name with
  | None => ret (Redirect "home")
  | Some account_name =>
      let days := getTimeframe time in
      let since := VAtom (ADate (today - days)) in
      let! total := alloc (db_getAccountTotalScore dbv (str account_name) since) in
      let! _ := dash_zeros total in
      let! users := alloc [] in
      let user_list := db_getAccountUsers dbv (str account_name) in
      let! _ := for_each user_list (add_user users account_name since) in
      ret (Render {| ap_account_name := account_name; ap_users := users;
                     ap_total := total; ap_time := time; ap_timeframe := days |})
  end.

(** [viewUser(user_name=None)], lines 611-645. *)
Definition viewUser (user_name search time : option string)
  : M (response user_page) :=
  let! name :=
    if missing user_name then
      match search with
      | Some term =>
          if missing search then ret None
          else let! n := resolve term (db_getUsers db None) in ret (Some n)
      | None => ret None
      end
    else ret user_name in
  match name with
  | None => ret (Redirect "home")
  | Some user_name =>
      let days := getTimeframe time in
      let since := VAtom (ADate (today - days)) in
      let! accounts := alloc [] in
      let! _ := for_each (db_getAccountsOf dbv (str user_name)) (fun account =>
                  let! name := first_column account in
                  let! stats :=
                    alloc (db_getStatsOf dbv (str user_name) name since) in
                  let! key := first_column account in
                  setitem accounts key stats) in
      ret (Render {| up_user_name := user_name; up_accounts := accounts;
                     up_time := time; up_timeframe := days |})
  end.

End Views.

(** ** Charts *)

(** A chart of the plotting library, as far as the module fills it: its kind,
    its title, the labels of its horizontal axis and the series added to it,
    in the order of addition.  A series is a list the module builds, or an
    object it passes on as it finds it. *)
Inductive chart_kind : Type := Box | Line | Pie.

Inductive series_data : Type :=
  | SList (xs : list value)
  | SObject (x : value).

Record chart : Type := {
  chart_kind_of : chart_kind;
  chart_title : option string;
  chart_x_labels : list value;
  chart_series : list (value * series_data)
}.

(** [graph.add(title, values)] *)
Definition chart_add (g : chart) (title : value) (values : series_data) : chart :=
  {| chart_kind_of := chart_kind_of g; chart_title := chart_title g;
     chart_x_labels := chart_x_labels g;
     chart_series := (chart_series g ++ [(title, values)])%list |}.

(** [len(range(start, stop, step))] for a nonzero [step]. *)
Definition range_length (start stop step : Z) : Z :=
  if (0 <? step)%Z then
    if (start <? stop)%Z then ((stop - start - 1) / step + 1)%Z else 0%Z
  else
    if (stop <? start)%Z then ((start - stop - 1) / (- step) + 1)%Z else 0%Z.

(** [range(start, stop, step)]: its [k]-th element is [start + step * k]. *)
Definition py_range (start stop step : Z) : list Z :=
  map (fun k => (start + step * Z.of_nat k)%Z)
      (seq 0 (Z.to_nat (range_length start stop step))).

(** [s.lower()] on the letters A to Z. *)
Definition lower_ascii (c : ascii) : ascii :=
  let n := nat_of_ascii c in
  if (65 <=? n)%nat && (n <=? 90)%nat then ascii_of_nat (n + 32) else c.

Fixpoint lower (s : string) : string :=
  match s with
  | EmptyString => EmptyString
  | String c s' => String (lower_ascii c) (lower s')
  end.

(** The queries of the charts: what [db.getStats(..., by_date=True)] returns
    for an entity given by keyword, for the whole cluster and for an entity
    given as first argument, a mapping from dates to records; the rows it
    returns with [as_list=True]; the users of an account and the number of
    jobs since a date. *)
Record JobstatsCharts : Type := {
  db_getStats_by_date : scope -> value -> value -> list (atom * dict);
  db_getStats_cluster : value -> list (atom * dict);
  db_getStats_of_by_date : value -> value -> list (atom * dict);
  db_getStats_as_list : value -> value -> value -> list (list value);
  db_getUsersOf : value -> list atom;
  db_getUserJobCount : value -> value
}.

(** A mapping the database returns, as new objects: its records, then the
    dictionary that refers to them. *)
Fixpoint alloc_records (m : list (atom * dict)) : M dict :=
  match m with
  | [] => ret []
  | (k, d) :: m' =>
      let! r := alloc d in
      let! rest := alloc_records m' in
      ret ((k, r) :: rest)
  end.

Definition alloc_mapping (m : list (atom * dict)) : M value :=
  let! entries := alloc_records m in
  alloc entries.

(** [j != 0] *)
Definition py_ne_zero (x : value) : bool := negb (py_eq_zero x).

Section Charts.

Variable cfg : Config.
Variable db : Jobstats.
Variable dbc : JobstatsCharts.
Variable today : Z.

(** The object a module-level name is bound to, for the reads of names that
    the module does not bind: whatever it is, the read raises before. *)
Variable global_object : string -> value.

Definition read_global (name : string) : M value :=
  let! _ := load_name name in
  ret (global_object name).

(** Lines 271-276. *)
Definition graph_days_delta (data_set : string) (days : Z) : Z :=
  if existsb (String.eqb (lower data_set)) ["user"; "account"] && (31 <? days)%Z
  then 7%Z else 1%Z.

(** Lines 281-288. *)
Definition graph_title (subject : string) (days : Z) : string :=
  if (days =? 7)%Z then subject +:+ " Efficiency for the Week"
  else if (days =? 31)%Z then subject +:+ " Efficiency for the Month"
  else if (days =? 100)%Z then subject +:+ " Efficiency for the Quarter"
  else subject +:+ " Efficiency".

(** Line 290. *)
Definition graph_x_labels (data_set : string) (days : Z) : list value :=
  map (fun i => VAtom (ADate (today - i)))
      (py_range days 0 (graph_days_delta data_set days * -1)).

(** Lines 327-329. *)
Definition add_data_points (graph : chart) (data_points : value) : M chart :=
  let! keys := iter data_points in
  let! ordered := sorted None (map VAtom keys) in
  let! series :=
    map_M (fun i =>
             let! data := getitem data_points i in
             let! js := iter data in
             ret (i, SList (filter (fun j => py_ne_zero j) (map VAtom js))))
          ordered in
  ret (fold_left (fun g '(i, values) => chart_add g i values) series graph).

(** [renderGraph(graph_function, data_set)], lines 259-331; [kind] is the
    chart class passed as [graph_function] and [days_arg] the request
    argument ['days']. *)
Definition renderGraph (kind : chart_kind) (data_set : string)
  (days_arg : option string) : M chart :=
  let days := getTimeframe days_arg in
  let graph :=
    {| chart_kind_of := kind;
       chart_title := Some (graph_title data_set days);
       chart_x_labels := graph_x_labels data_set days;
       chart_series := [] |} in
  let since := VAtom (ADate (today - days)) in
  let! data_points := alloc [] in
  let! _ :=
    if String.eqb (lower data_set) "account" then
      (* Get the top ten accounts *)
      let! top_accounts := getTop cfg db "accounts" 10 since in
      for_each top_accounts (fun account =>
        let! data := alloc_mapping (db_getStats_by_date dbc ByAccount account since) in
        setitem data_points account data)
    else ret tt in
  if String.eqb (lower data_set) "user" then
    (* Get the top ten users *)
    let! top_accounts := getTop cfg db "users" 10 since in
    let! _ :=
      for_each top_accounts (fun account =>
        let! user := read_global "user" in
        (* [date.today - timedelta(days)]: a method minus a duration *)
        raise TypeError) in
    add_data_points graph data_points
  else if String.eqb (lower data_set) "cluster" then
    let! data := alloc_mapping (db_getStats_cluster dbc since) in
    let! cores := read_global "cores" in
    let graph := chart_add graph (str "cores") (SObject cores) in
    let! memory := read_global "memory" in
    let graph := chart_add graph (str "memory") (SObject memory) in
    let! tLimit := read_global "tLimit" in
    let graph := chart_add graph (str "time limit") (SObject tLimit) in
    let! total := read_global "total" in
    let graph := chart_add graph (str "total efficiency") (SObject total) in
    ret graph
  else add_data_points graph data_points.

(** The chart endpoints of the home page, lines 199-256. *)
Definition renderAccountsBoxPlot : option string -> M chart :=
  renderGraph Box "Account".

Definition renderUsersBoxPlot : option string -> M chart :=
  renderGraph Box "User".

Definition renderUsersLineGraph : option string -> M chart :=
  renderGraph Line "User".

Definition renderAccountsLineGraph : option string -> M chart :=
  renderGraph Line "Account".

Definition renderClusterLineGraph : option string -> M chart :=
  renderGraph Line "cluster".

End Charts.

(** ** The charts of an account and of a user *)

(** [i[n]] for a row of the database and an index that is not negative. *)
Definition row_get (row : list value) (n : nat) : M value :=
  match row !! n with
  | Some x => ret x
  | None => raise IndexError
  end.

(** The day count of these charts comes from the request.  Dates are day
    numbers without bounds here, as in [home]: the [OverflowError] of a day
    count or of a date that the calendar does not hold is left out, see
    [in_calendar]. *)
Section EntityCharts.

Variable cfg : Config.
Variable dbc : JobstatsCharts.
Variable today : Z.

(** The builtin [int] on strings and the URL of an endpoint for a user
    name, as they are. *)
Variable parse_int : string -> option Z.
Variable url_for : string -> value -> value.

(** [int(request.args.get('days'))] *)
Definition int_arg (arg : option string) : M Z :=
  match arg with
  | None => raise TypeError
  | Some s =>
      match parse_int s with
      | Some n => ret n
      | None => raise ValueError
      end
  end.

(** The loop of lines 451-453 and 597-599 on the list [total]. *)
Fixpoint normalize_totals (total : list value) : M (list value) :=
  match total with
  | [] => ret []
  | i :: rest =>
      let! nonzero := truthy i in
      let! i' := if nonzero then normalize cfg i false false else ret i in
      let! rest' := normalize_totals rest in
      ret (i' :: rest')
  end.

(** [[data[i][field] for i in data]] *)
Definition column (data : value) (field : string) : M (list value) :=
  let! keys := iter data in
  map_M (fun i =>
           let! day := getitem data (VAtom i) in
           getitem day (str field)) keys.

(** [renderAccountLineGraph(account_name)], lines 418-460. *)
Definition renderAccountLineGraph (account_name : string)
  (days_arg : option string) : M chart :=
  let! days := int_arg days_arg in
  let since := VAtom (ADate (today - days)) in
  let! data := alloc_mapping (db_getStats_of_by_date dbc (str account_name) since) in
  let title := graph_title account_name days in
  let! keys := iter data in
  let! x_labels := sorted None (map VAtom keys) in
  let line_graph :=
    {| chart_kind_of := Line; chart_title := Some title;
       chart_x_labels := x_labels; chart_series := [] |} in
  let! cores := column data "cores" in
  let! memory := column data "memory" in
  let! tLimit := column data "tlimit" in
  let! total := column data "total" in
  let! total := normalize_totals total in
  let line_graph := chart_add line_graph (str "cores") (SList cores) in
  let line_graph := chart_add line_graph (str "memory") (SList memory) in
  let line_graph := chart_add line_graph (str "time limit") (SList tLimit) in
  let line_graph := chart_add line_graph (str "total") (SList total) in
  ret line_graph.

(** [renderAccountUsersGraph(account_name)], lines 463-491. *)
Definition renderAccountUsersGraph (account_name : string)
  (days_arg : option string) : M chart :=
  let! days := int_arg days_arg in
  let users := db_getUsersOf dbc (str account_name) in
  let! data := alloc [] in
  let! _ :=
    for_each users (fun user =>
      setitem data (VAtom user)
        (db_getUserJobCount dbc (VAtom (ADate (today - days))))) in
  let pie_graph :=
    {| chart_kind_of := Pie; chart_title := Some "Jobs Per User";
       chart_x_labels := []; chart_series := [] |} in
  let! keys := iter data in
  let! ordered := sorted None (map VAtom keys) in
  let! slices :=
    map_M (fun i =>
             let! count := getitem data i in
             let! slice :=
               alloc [ (AStr "value", count);
                       (AStr "xlink", url_for "viewUser" i) ] in
             ret (i, SList [slice]))
          ordered in
  ret (fold_left (fun g '(i, values) => chart_add g i values) slices pie_graph).

(** [renderUserAccountLineGraph(user_name)], lines 551-606; [account_arg] is
    the request argument ['account']. *)
Definition renderUserAccountLineGraph (user_name : string)
  (days_arg account_arg : option string) : M chart :=
  let! days := int_arg days_arg in
  let account :=
    match account_arg with
    | Some a => str a
    | None => VAtom ANone
    end in
  let data :=
    db_getStats_as_list dbc (str user_name) account (VAtom (ADate (today - days))) in
  let title := graph_title user_name days in
  let! dates := map_M (fun i => row_get i 2) data in
  let! x_labels := sorted None dates in
  let line_graph :=
    {| chart_kind_of := Line; chart_title := Some title;
       chart_x_labels := x_labels; chart_series := [] |} in
  let! columns :=
    map_M (fun i =>
             let! c := row_get i 3 in
             let! m := row_get i 4 in
             let! t := row_get i 5 in
             let! e := row_get i 6 in
             ret (c, m, t, e)) data in
  let cores := map (fun '(c, _, _, _) => c) columns in
  let memory := map (fun '(_, m, _, _) => m) columns in
  let t_limit := map (fun '(_, _, t, _) => t) columns in
  let total := map (fun '(_, _, _, e) => e) columns in
  let! total := normalize_totals total in
  let line_graph := chart_add line_graph (str "cores") (SList cores) in
  let line_graph := chart_add line_graph (str "memory") (SList memory) in
  let line_graph := chart_add line_graph (str "time limit") (SList t_limit) in
  let line_graph := chart_add line_graph (str "total") (SList total) in
  ret line_graph.

End EntityCharts.

(** * Vocabulary of the properties *)

(** ** Computations *)

(** [m] leaves the store as it found it. *)
Definition pure_op {A} (m : M A) : Prop := forall s, (m s).2 = s.

(** [m] raises, whatever the store, and leaves the store as it found it. *)
Definition fails {A} (m : M A) : Prop := forall s, exists e, m s = (Raise e, s).

(** A triple for store invariants: started in a store satisfying [I], the
    computation [m] ends in a store satisfying [I], with a value satisfying
    [post] or an exception satisfying [E]. *)
Definition triple {A} (I : store -> Prop) (E : exn -> Prop) (m : M A)
  (post : A -> Prop) : Prop :=
  forall s, I s ->
    I (m s).2 /\ match (m s).1 with Ok a => post a | Raise e => E e end.

(** The conditions on exceptions and values the triples are used with: none,
    and that the exception is not the model's own [FuelExhausted]. *)
Definition any_exn : exn -> Prop := fun _ => True.

Definition no_fuel : exn -> Prop := fun e => e <> FuelExhausted.

Definition any {A} : A -> Prop := fun _ => True.

(** [m] never raises the model's own [FuelExhausted]. *)
Definition sound {A} (m : M A) : Prop :=
  forall s, match (m s).1 with Ok _ => True | Raise e => no_fuel e end.

(** The result is an exception, and not the model's own. *)
Definition raised {A} (r : result A) : Prop :=
  match r with Ok _ => False | Raise e => no_fuel e end.

(** ** Stores *)

(** The object at [l] is a dictionary with a key ['memuse']. *)
Definition has_memuse (l : nat) (s : store) : Prop :=
  exists d, s !! l = Some d /\ dict_has d (AStr "memuse") = true.

(** The objects of [s0] are what they were; objects may have been added. *)
Definition extends (s0 s : store) : Prop := s0 `prefix_of` s.

(** A reference to an object that [s0] does not have. *)
Definition fresh_ref (s0 : store) (v : value) : Prop :=
  exists l, v = VRef l /\ List.length s0 <= l.

(** ** Usage records *)

(** The number a record holds under a key, if it holds one. *)
Definition field_num (d : dict) (k : string) : option Q :=
  match dict_get d (AStr k) with
  | Some (VAtom (ANum q)) => Some q
  | _ => None
  end.










(** The three requested amounts [home] tests, when they are numbers. *)
Definition request_fields (d : dict) : option (Q * Q * Q) :=
  match field_num d "memreq", field_num d "cpureq", field_num d "timereq" with
  | Some m, Some c, Some t => Some (m, c, t)
  | _, _, _ => None
  end.

(** A requested amount of the record is zero. *)
Definition ineligible (d : dict) : bool :=
  match request_fields d with
  | Some (m, c, t) => Qeq_bool m 0 || Qeq_bool c 0 || Qeq_bool t 0
  | None => false
  end.

(** What the gathering loop of [home] is to produce, for records whose
    requested amounts are numbers: the record of each entity, with its owner
    added, is a new object, and [job_data] refers to those whose requested
    amounts are all nonzero. *)
Definition gathered_record (db : Jobstats) (today : Z) (view : option string)
  (time : Z) (i : atom) : dict :=
  dict_set
    (db_getStats db (if accounts_view view then ByAccount else ByUser)
       (VAtom i) (VAtom (ADate (today - time))))
    (AStr "owner") (VAtom i).

Fixpoint gathered_refs (db : Jobstats) (today : Z) (view : option string)
  (time : Z) (next : nat) (data_points : list atom) : list value :=
  match data_points with
  | [] => []
  | i :: rest =>
      (if ineligible (gathered_record db today view time i) then []
       else [VRef next])
      ++ gathered_refs db today view time (S next) rest
  end%list.

(** The exception the summing loop raises on a first key [k]: what is not a
    string cannot be iterated over, and a character of a string is no key of
    [data_total].  The empty string has no characters. *)
Definition sum_error (k : atom) : option exn :=
  match k with
  | AStr EmptyString => None
  | AStr (String _ _) => Some KeyError
  | _ => Some TypeError
  end.

(** ** The views and the charts *)

(** The entities [getTop] asks the database for. *)
Definition listed_entities (db : Jobstats) (account_type : string) (since : value)
  : list atom :=
  if String.eqb account_type "users" then db_getUsers db (Some since)
  else if String.eqb account_type "accounts" then db_getAccounts db (Some since)
  else [].

Fixpoint no_space (s : string) : bool :=
  match s with
  | EmptyString => true
  | String c s' => negb (Ascii.eqb c " ") && no_space s'
  end.

(** What the loop makes of a value, and of a dictionary. *)
Definition dash_value (x : value) : value :=
  if py_eq_zero x then str "-" else x.

Definition dash_step (d : dict) (k : atom) : dict :=
  match dict_get d k with
  | Some x => if py_eq_zero x then dict_set d k (str "-") else d
  | None => d
  end.

Definition dash_dict (d : dict) : dict := fold_left dash_step (dict_keys d) d.

Definition atom_is_str (a : atom) : bool :=
  match a with AStr _ => true | _ => false end.

(** The [users] dictionary after the loop of lines 539-544: each user of the
    account refers to the object holding that user's statistics, the next new
    object of the store. *)
Fixpoint users_dict (next : nat) (user_list : list atom) (users : dict) : dict :=
  match user_list with
  | [] => users
  | user :: rest => users_dict (S next) rest (dict_set users user (VRef next))
  end.

(** The date a view asks the statistics from. *)
Definition since_of (today : Z) (time : option string) : value :=
  VAtom (ADate (today - getTimeframe time)).

(** The entries of a mapping whose records were allocated from [l] on. *)
Fixpoint mapping_entries (l : nat) (m : list (atom * dict)) : dict :=
  match m with
  | [] => []
  | (k, _) :: m' => (k, VRef l) :: mapping_entries (S l) m'
  end.

(** Day number 1 is the first day of the year 1.  A day count of more than
    nine digits and a date outside the years 1 to 9999 make [timedelta] or
    the subtraction raise [OverflowError]; the charts of an account and of a
    user are modelled for the day counts that do not, and the properties
    that depend on it say so. *)
Definition in_calendar (today days : Z) : bool :=
  ((Z.abs days <=? 999999999) && (1 <=? today - days)
   && (today - days <=? 3652059))%Z.

(** [not v] in the store [s]: [v] is [None], zero, the empty string or an
    empty dictionary. *)
Definition falsy_in (s : store) (v : value) : bool :=
  match v with
  | VAtom ANone => true
  | VAtom (ANum q) => Qeq_bool q 0
  | VAtom (AStr x) => String.eqb x ""
  | VAtom (ADate _) => false
  | VAtom ADateClass => false
  | VRef l =>
      match s !! l with
      | Some [] => true
      | _ => false
      end
  end.

Definition is_date (v : value) : Prop := exists t, v = VAtom (ADate t).

(** [a < b] on two dates. *)
Definition date_lt (a b : value) : bool :=
  match a, b with
  | VAtom (ADate x), VAtom (ADate y) => (x <? y)%Z
  | _, _ => false
  end.

Definition is_date_atom (a : atom) : bool :=
  match a with
  | ADate _ => true
  | _ => false
  end.

Definition is_num (v : value) : bool :=
  match v with
  | VAtom (ANum _) => true
  | _ => false
  end.

(** No two of the keys are equal. *)
Fixpoint distinct_keys (ks : list atom) : bool :=
  match ks with
  | [] => true
  | k :: rest => negb (existsb (atom_eqb k) rest) && distinct_keys rest
  end.

(** The value of a field of a record, [None] standing for a missing one. *)
Definition field_of (field : string) (d : dict) : value :=
  match dict_get d (AStr field) with
  | Some v => v
  | None => VAtom ANone
  end.

(** A mapping from distinct dates to records whose four scores are
    numbers. *)
Definition scores_by_date (m : list (atom * dict)) : bool :=
  forallb (fun kd =>
             is_date_atom (fst kd) &&
             forallb (fun field => is_num (field_of field (snd kd)))
                     ["cores"; "memory"; "tlimit"; "total"]) m
  && distinct_keys (map fst m).

(** The [n]-th column of a row, [None] standing for a missing one. *)
Definition col (n : nat) (row : list value) : value :=
  match row !! n with
  | Some v => v
  | None => VAtom ANone
  end.

Definition is_date_value (v : value) : bool :=
  match v with
  | VAtom a => is_date_atom a
  | VRef _ => false
  end.

(** Rows of seven columns or more, with a date in the third and a number in
    the seventh. *)
Definition score_rows (rows : list (list value)) : bool :=
  forallb (fun row =>
             (6 <? List.length row)%nat && is_date_value (col 2 row)
             && is_num (col 6 row)) rows.

Definition is_str (v : value) : Prop := exists x, v = str x.

(** [a < b] on two strings. *)
Definition str_lt (a b : value) : bool :=
  match a, b with
  | VAtom (AStr x), VAtom (AStr y) => String.ltb x y
  | _, _ => false
  end.

(** The dictionary [data] after the loop of lines 479-480. *)
Fixpoint counts_dict (users : list atom) (count : value) (data : dict) : dict :=
  match users with
  | [] => data
  | user :: rest => counts_dict rest count (dict_set data user count)
  end.

(** The object of a slice, and the slices when their objects are allocated
    from [next] on. *)
Definition slice_object (url_for : string -> value -> value) (count i : value)
  : dict :=
  [ (AStr "value", count); (AStr "xlink", url_for "viewUser" i) ].

Fixpoint slices_of (next : nat) (ordered : list value)
  : list (value * series_data) :=
  match ordered with
  | [] => []
  | i :: rest => (i, SList [VRef next]) :: slices_of (S next) rest
  end.

(** The key a row of [db.getAccounts] is stored under, and whether the row
    has one: a first column that is hashable. *)
Definition key_of (row : list value) : atom :=
  match row with
  | VAtom a :: _ => a
  | _ => ANone
  end.

Definition has_key (row : list value) : bool :=
  match row with
  | VAtom _ :: _ => true
  | _ => false
  end.

(** The exception [int] raises on the request argument ['days'], if any:
    [TypeError] when the argument is missing, [ValueError] when it is no
    number. *)
Definition days_error (parse_int : string -> option Z) (days_arg : option string)
  : option exn :=
  match days_arg with
  | None => Some TypeError
  | Some d =>
      match parse_int d with
      | Some _ => None
      | None => Some ValueError
      end
  end.

(** ** Sample data *)

Definition cfg_off : Config := startup_config "none" 2.

Definition cfg_on : Config := startup_config "by score" 2.

(** A record using half of the memory, of the cores and of the time it
    requested. *)
Definition half_used : dict :=
  [ (AStr "memuse", num 1); (AStr "memreq", num 2);
    (AStr "cputime", num 1); (AStr "coresreq", num 2); (AStr "cpureq", num 2);
    (AStr "timeuse", num 1); (AStr "timereq", num 2) ].

(** One user and one account, each with the record [half_used]. *)
Definition db_one : Jobstats :=
  {| db_getUsers := fun _ => [AStr "alice"];
     db_getAccounts := fun _ => [AStr "lab"];
     db_getStats := fun _ _ _ => half_used |}.

(** A week of two days, keyed by date as the database layer returns it, and
    the same keyed by date strings as the docstring of [normalize] writes it;
    both days hold the record [half_used]. *)
Definition by_date_store : store :=
  [ [(ADate 736695, VRef 2); (ADate 736696, VRef 2)];
    [(AStr "1/1/18", VRef 2); (AStr "1/2/18", VRef 2)];
    half_used ].



(** A user and an account that requested no memory. *)
Definition no_request : dict :=
  [ (AStr "memuse", num 0); (AStr "memreq", num 0);
    (AStr "cputime", num 1); (AStr "coresreq", num 1); (AStr "cpureq", num 1);
    (AStr "timeuse", num 1); (AStr "timereq", num 2) ].

Definition db_no_request : Jobstats :=
  {| db_getUsers := fun _ => [AStr "bob"];
     db_getAccounts := fun _ => [AStr "idle"];
     db_getStats := fun _ _ _ => no_request |}.

(** A similarity ratio to run the resolver with: twice the length of the
    common prefix over the sum of the lengths, and 1 for two empty strings. *)
Fixpoint common_prefix (a b : string) : nat :=
  match a, b with
  | String x a', String y b' =>
      if Ascii.eqb x y then S (common_prefix a' b') else O
  | _, _ => O
  end.

Definition prefix_ratio (a b : string) : Q :=
  match (String.length a + String.length b)%nat with
  | O => 1
  | S t => Qmake (2 * Z.of_nat (common_prefix a b)) (Pos.of_succ_nat t)
  end.

(** A database whose records hold a zero ['memreq'] and nothing else, one
    whose records hold nothing, and one whose records lack ['cpureq']. *)
Definition db_only_memreq : Jobstats :=
  {| db_getUsers := fun _ => [AStr "bob"];
     db_getAccounts := fun _ => [AStr "idle"];
     db_getStats := fun _ _ _ => [(AStr "memreq", num 0)] |}.

Definition db_blank : Jobstats :=
  {| db_getUsers := fun _ => [AStr "bob"];
     db_getAccounts := fun _ => [AStr "idle"];
     db_getStats := fun _ _ _ => [] |}.

Definition db_no_cpureq : Jobstats :=
  {| db_getUsers := fun _ => [AStr "bob"];
     db_getAccounts := fun _ => [AStr "idle"];
     db_getStats := fun _ _ _ => [(AStr "memreq", num 4)] |}.

(** The totals of an account that used no CPU time. *)
Definition idle_total : dict :=
  [ (AStr "cores", num 0); (AStr "memory", num (1 # 2));
    (AStr "tlimit", num 0); (AStr "total", num (1 # 6)) ].

(** A database that lists nobody, and the views' queries of an account with
    two users, one of them idle. *)
Definition db_unlisted : Jobstats :=
  {| db_getUsers := fun _ => [];
     db_getAccounts := fun _ => [];
     db_getStats := fun _ _ _ => [] |}.

Definition dbv_lab : JobstatsViews :=
  {| db_getAccountTotalScore := fun _ _ => idle_total;
     db_getAccountUsers := fun _ => [AStr "alice"; AStr "bob"];
     db_getUserStats := fun user _ _ =>
       match user with
       | VAtom (AStr "bob") => idle_total
       | _ => [(AStr "total", num (1 # 2))]
       end;
     db_getAccountsOf := fun _ => [[str "lab"]];
     db_getStatsOf := fun _ _ _ => idle_total |}.

(** The queries of the charts on a cluster with one day of statistics, two
    users and three jobs. *)
Definition day_scores (total : Q) : dict :=
  [ (AStr "cores", num (1 # 2)); (AStr "memory", num (1 # 2));
    (AStr "tlimit", num (1 # 2)); (AStr "total", num total) ].

Definition dbc_day : JobstatsCharts :=
  {| db_getStats_by_date := fun _ _ _ => [(ADate 0, half_used)];
     db_getStats_cluster := fun _ => [(ADate 0, half_used)];
     db_getStats_of_by_date := fun _ _ =>
       [(ADate 99, day_scores 0); (ADate 98, day_scores (1 # 2))];
     db_getStats_as_list := fun _ _ _ =>
       [[str "alice"; str "lab"; VAtom (ADate 99); num (1 # 2); num (1 # 2);
         num (1 # 2); num (1 # 2)]];
     db_getUsersOf := fun _ => [AStr "bob"; AStr "alice"; AStr "bob"];
     db_getUserJobCount := fun _ => num 3 |}.

(** The builtin [int] on the day counts the pages link to, and the queries
    of the charts for an account that has used nothing. *)
Definition parse_days (s : string) : option Z :=
  match s with
  | "7" => Some 7%Z
  | "31" => Some 31%Z
  | "100" => Some 100%Z
  | _ => None
  end.

Definition dbc_idle : JobstatsCharts :=
  {| db_getStats_by_date := fun _ _ _ => [];
     db_getStats_cluster := fun _ => [];
     db_getStats_of_by_date := fun _ _ =>
       [(ADate 99, day_scores 0); (ADate 98, day_scores 0)];
     db_getStats_as_list := fun _ _ _ =>
       [[str "alice"; str "lab"; VAtom (ADate 99); num (1 # 2); num (1 # 2);
         num (1 # 2); num 0];
        [str "alice"; str "lab"; VAtom (ADate 98); num (1 # 4); num (1 # 4);
         num (1 # 4); VAtom ANone]];
     db_getUsersOf := fun _ => [];
     db_getUserJobCount := fun _ => num 0 |}.

(** * Properties *)

(** ** Reasoning about computations *)

Lemma pure_ret {A} (a : A) : pure_op (ret a).
Proof. intros s; reflexivity. Qed.

Lemma pure_raise {A} e : pure_op (@raise A e).
Proof. intros s; reflexivity. Qed.

Lemma pure_bind {A B} (m : M A) (f : A -> M B) :
  pure_op m -> (forall a, pure_op (f a)) -> pure_op (bind m f).
Proof.
  intros Hm Hf s. unfold bind. specialize (Hm s).
  destruct (m s) as [[a|e] s']; simpl in *; subst; [apply Hf | reflexivity].
Qed.

Lemma pure_deref l : pure_op (deref l).
Proof. intros s. unfold deref. destruct (s !! l); reflexivity. Qed.

Create HintDb pure discriminated.
#[local] Hint Resolve pure_ret pure_raise pure_deref : pure.

Ltac pure_cases :=
  repeat match goal with
         | |- pure_op (bind _ _) => apply pure_bind; [| intros ?]
         | |- pure_op (match ?x with _ => _ end) => destruct x
         | |- pure_op (if ?x then _ else _) => destruct x
         | |- pure_op _ => solve [auto with pure]
         end.

Lemma pure_getitem v k : pure_op (getitem v k).
Proof. unfold getitem. pure_cases. Qed.

Lemma pure_contains k v : pure_op (contains k v).
Proof. unfold contains. pure_cases. Qed.

Lemma pure_iter v : pure_op (iter v).
Proof. unfold iter. pure_cases. Qed.

Lemma pure_truthy v : pure_op (truthy v).
Proof. unfold truthy. pure_cases. Qed.

Lemma pure_truediv a b : pure_op (truediv a b).
Proof. unfold truediv. pure_cases. Qed.

Lemma pure_mul a b : pure_op (mul a b).
Proof. unfold mul. pure_cases. Qed.

Lemma pure_add a b : pure_op (add a b).
Proof. unfold add. pure_cases. Qed.

Lemma pure_load_name n : pure_op (load_name n).
Proof. unfold load_name. pure_cases. Qed.

Lemma pure_py_lt a b : pure_op (py_lt a b).
Proof. unfold py_lt. pure_cases. Qed.

#[local] Hint Resolve pure_getitem pure_contains pure_iter pure_truthy
  pure_truediv pure_mul pure_add pure_load_name pure_py_lt : pure.

Lemma fails_raise {A} e : fails (@raise A e).
Proof. intros s. exists e. reflexivity. Qed.

Lemma fails_bind_l {A B} (m : M A) (f : A -> M B) :
  fails m -> fails (bind m f).
Proof. intros Hm s. destruct (Hm s) as [e He]. exists e. unfold bind. rewrite He. reflexivity. Qed.

Lemma fails_bind_pure {A B} (m : M A) (f : A -> M B) :
  pure_op m -> (forall a, fails (f a)) -> fails (bind m f).
Proof.
  intros Hm Hf s. unfold bind. specialize (Hm s).
  destruct (m s) as [[a|e] s']; simpl in *; subst; [apply Hf | eauto].
Qed.

Lemma load_statistics : load_name "statistics" = raise (NameError "statistics").
Proof. reflexivity. Qed.

Lemma load_getStats : load_name "getStats" = raise (NameError "getStats").
Proof. reflexivity. Qed.

Lemma load_date : load_name "date" = ret tt.
Proof. reflexivity. Qed.

Ltac fails_steps :=
  repeat lazymatch goal with
         | |- fails (bind (load_name _) _) => fail
         | |- fails (bind _ _) =>
             apply fails_bind_pure; [solve [auto with pure] | intros ?]
         end.

Lemma getScore_fails cfg data all_scores : fails (getScore cfg data all_scores).
Proof.
  unfold getScore. fails_steps.
  apply fails_bind_l. rewrite load_statistics. apply fails_raise.
Qed.

Lemma single_point_fails cfg data all_scores : fails (single_point cfg data all_scores).
Proof.
  unfold single_point. fails_steps.
  apply fails_bind_l. rewrite load_statistics. apply fails_raise.
Qed.

Section Triples.

Context {A B : Type}.
Variable I : store -> Prop.
Variable E : exn -> Prop.

Lemma triple_bind (m : M A) (f : A -> M B) (mid : A -> Prop) (post : B -> Prop) :
  triple I E m mid ->
  (forall a, mid a -> triple I E (f a) post) ->
  triple I E (bind m f) post.
Proof.
  intros Hm Hf s Hs. unfold bind. destruct (Hm s Hs) as [HI Hr].
  destruct (m s) as [[a|e] s']; simpl in *.
  - apply Hf; assumption.
  - split; assumption.
Qed.

Lemma triple_ret (a : A) (post : A -> Prop) : post a -> triple I E (ret a) post.
Proof. intros Ha s Hs. split; assumption. Qed.

Lemma triple_raise e (post : A -> Prop) : E e -> triple I E (raise e) post.
Proof. intros He s Hs. split; assumption. Qed.

Lemma triple_fails (m : M A) (post : A -> Prop) :
  fails m -> (forall e, E e) -> triple I E m post.
Proof.
  intros Hm HE s Hs. destruct (Hm s) as [e He]. rewrite He. simpl. auto.
Qed.

End Triples.

Lemma triple_pure {A} (I : store -> Prop) (m : M A) :
  pure_op m -> triple I any_exn m any.
Proof.
  intros Hm s Hs. rewrite Hm. split; [assumption|]. destruct (m s).1; exact Logic.I.
Qed.

Lemma triple_pure_sound {A} (I : store -> Prop) (m : M A) :
  pure_op m -> sound m -> triple I no_fuel m any.
Proof.
  intros Hm Hsound s Hs. rewrite Hm. split; [assumption|].
  specialize (Hsound s). destruct (m s).1; [exact Logic.I | assumption].
Qed.

Lemma triple_for_each {A} (I : store -> Prop) (E : exn -> Prop)
  (xs : list A) (body : A -> M unit) :
  (forall x, triple I E (body x) any) -> triple I E (for_each xs body) any.
Proof.
  intros Hbody. induction xs as [|x xs IH]; simpl.
  - apply triple_ret. exact Logic.I.
  - eapply triple_bind; [apply Hbody | intros _ _; exact IH].
Qed.

Lemma triple_map_M {A B} (I : store -> Prop) (E : exn -> Prop)
  (xs : list A) (f : A -> M B) :
  (forall x, triple I E (f x) any) -> triple I E (map_M f xs) any.
Proof.
  intros Hf. induction xs as [|x xs IH]; simpl.
  - apply triple_ret. exact Logic.I.
  - eapply triple_bind; [apply Hf | intros y _].
    eapply triple_bind; [exact IH | intros ys _]. apply triple_ret. exact Logic.I.
Qed.

(** Soundness of the primitive operations. *)

Lemma sound_ret {A} (a : A) : sound (ret a).
Proof. intros s. exact Logic.I. Qed.

Lemma sound_bind {A B} (m : M A) (f : A -> M B) :
  sound m -> (forall a, sound (f a)) -> sound (bind m f).
Proof.
  intros Hm Hf s. unfold bind. specialize (Hm s).
  destruct (m s) as [[a|e] s']; simpl in *; [apply Hf | assumption].
Qed.

Lemma sound_deref l : sound (deref l).
Proof. intros s. unfold deref. destruct (s !! l); simpl; [exact Logic.I | discriminate]. Qed.

Ltac sound_cases :=
  repeat match goal with
         | |- sound (bind _ _) => apply sound_bind; [| intros ?]
         | |- sound (match ?x with _ => _ end) => destruct x
         | |- sound (if ?x then _ else _) => destruct x
         | |- sound (ret _) => apply sound_ret
         | |- sound (deref _) => apply sound_deref
         | |- sound (raise _) => intros ?; simpl; discriminate
         end.

Lemma sound_getitem v k : sound (getitem v k).
Proof. unfold getitem. sound_cases. Qed.

Lemma sound_contains k v : sound (contains k v).
Proof. unfold contains. sound_cases. Qed.

Lemma sound_iter v : sound (iter v).
Proof. unfold iter. sound_cases. Qed.

Lemma sound_truediv a b : sound (truediv a b).
Proof. unfold truediv. sound_cases. Qed.

Lemma sound_mul a b : sound (mul a b).
Proof. unfold mul. sound_cases. Qed.

Lemma sound_add a b : sound (add a b).
Proof. unfold add. sound_cases. Qed.

Lemma sound_load_name n : sound (load_name n).
Proof. unfold load_name. sound_cases. Qed.

Lemma sound_setitem v k x : sound (setitem v k x).
Proof.
  unfold setitem. sound_cases. intros s.
  destruct (s !! l); simpl; [exact Logic.I | discriminate].
Qed.

Lemma sound_alloc d : sound (alloc d).
Proof. intros s. exact Logic.I. Qed.

#[local] Hint Resolve sound_getitem sound_contains sound_iter sound_truediv
  sound_mul sound_add sound_load_name sound_setitem sound_alloc sound_ret : pure.

Lemma bind_cong {A B} (I : store -> Prop) (E : exn -> Prop) (m : M A)
  (f g : A -> M B) (post : A -> Prop) (s : store) :
  triple I E m post -> I s ->
  (forall a s', I s' -> post a -> f a s' = g a s') ->
  bind m f s = bind m g s.
Proof.
  intros Hm Hs Hfg. unfold bind. destruct (Hm s Hs) as [HI Hr].
  destruct (m s) as [[a|e] s']; simpl in *; [auto | reflexivity].
Qed.

Lemma for_each_ext {A} (xs : list A) (f g : A -> M unit) :
  (forall x s, f x s = g x s) -> forall s, for_each xs f s = for_each xs g s.
Proof.
  intros Hfg. induction xs as [|x xs IH]; intros s; simpl; [reflexivity|].
  unfold bind. rewrite Hfg. destruct (g x s) as [[[]|e] s']; [apply IH | reflexivity].
Qed.

Lemma bind_alloc {B} d (f : value -> M B) s :
  bind (alloc d) f s = f (VRef (List.length s)) (s ++ [d])%list.
Proof. reflexivity. Qed.

(** ** Dictionaries *)

Lemma dict_has_set d k k' v :
  dict_has d k = true -> dict_has (dict_set d k' v) k = true.
Proof.
  unfold dict_has. induction d as [|[k0 v0] d IH]; simpl; [discriminate|].
  destruct (atom_eqb k0 k') eqn:E1; simpl; destruct (atom_eqb k0 k); auto.
Qed.

(** ** The depth of [normalize]'s calls to itself *)

Lemma has_memuse_contains l s :
  has_memuse l s -> contains (str "memuse") (VRef l) s = (Ok true, s).
Proof.
  intros (d & Hd & Hk). unfold contains, bind, deref. rewrite Hd. simpl.
  unfold ret. rewrite Hk. reflexivity.
Qed.

Lemma has_memuse_alloc s :
  has_memuse (List.length s) (s ++ [data_total_init])%list.
Proof.
  exists data_total_init. split; [|reflexivity].
  rewrite lookup_app_r by lia. rewrite Nat.sub_diag. reflexivity.
Qed.

Lemma has_memuse_setitem l v k x :
  triple (has_memuse l) no_fuel (setitem v k x) any.
Proof.
  intros s (d & Hd & Hk). unfold setitem.
  destruct v as [a|l']; [split; [exists d; auto | discriminate]|].
  destruct k as [a|?]; [|split; [exists d; auto | discriminate]].
  destruct (s !! l') as [d'|] eqn:Hl'; simpl; [|split; [exists d; auto | discriminate]].
  split; [|exact Logic.I].
  destruct (decide (l = l')) as [<-|Hne].
  - rewrite Hd in Hl'. injection Hl' as <-.
    exists (dict_set d a x). split; [|apply dict_has_set; assumption].
    apply list_lookup_insert_eq. eapply lookup_lt_Some; eassumption.
  - exists d. split; [|assumption]. rewrite list_lookup_insert_ne by auto. assumption.
Qed.

Lemma has_memuse_sum_days l data_total days :
  triple (has_memuse l) no_fuel (sum_days data_total days) any.
Proof.
  unfold sum_days. apply triple_for_each. intros day.
  eapply triple_bind; [apply triple_pure_sound; auto with pure | intros vals _].
  apply triple_for_each. intros val.
  eapply triple_bind; [apply triple_pure_sound; auto with pure | intros old _].
  eapply triple_bind; [apply triple_pure_sound; auto with pure | intros inc _].
  eapply triple_bind; [apply triple_pure_sound; auto with pure | intros new _].
  apply has_memuse_setitem.
Qed.

Section Fuel.

Variable cfg : Config.

Lemma sound_mean xs : sound (mean xs).
Proof.
  unfold mean. apply sound_bind; [|intros; auto with pure].
  generalize (num 0). induction xs as [|x xs' IH]; intros acc; cbn [sum_values].
  - auto with pure.
  - apply sound_bind; [auto with pure | exact IH].
Qed.

Lemma sound_single_point data all_scores : sound (single_point cfg data all_scores).
Proof.
  unfold single_point.
  repeat (apply sound_bind; [solve [auto using sound_mean with pure] | intros ?]).
  destruct all_scores; [|auto with pure].
  apply sound_bind; [auto with pure | intros; auto with pure].
Qed.

Lemma normalize_fuel_single n l all_scores by_date s :
  has_memuse l s ->
  normalize_fuel cfg (S n) (VRef l) all_scores by_date s
  = single_point cfg (VRef l) all_scores s.
Proof.
  intros H. simpl. unfold normalize_body, bind at 1.
  rewrite (has_memuse_contains _ _ H). reflexivity.
Qed.

(** The summing branch calls [self] on [data_total], in a store where that
    object has the key ['memuse']. *)
Lemma normalize_body_total_cong self1 self2 data all_scores s :
  (forall l s', has_memuse l s' ->
     self1 (VRef l) all_scores false s' = self2 (VRef l) all_scores false s') ->
  normalize_body cfg self1 data all_scores false s
  = normalize_body cfg self2 data all_scores false s.
Proof.
  intros Hself. unfold normalize_body.
  apply (bind_cong (fun _ => True) any_exn _ _ _ any);
    [apply triple_pure; auto with pure | exact Logic.I | intros [] s1 _ _; [reflexivity|]].
  rewrite !bind_alloc.
  apply (bind_cong (has_memuse (List.length s1)) any_exn _ _ _ any);
    [apply triple_pure; auto with pure | apply has_memuse_alloc | intros days s2 Hs2 _].
  apply (bind_cong (has_memuse (List.length s1)) no_fuel _ _ _ any);
    [apply has_memuse_sum_days | assumption | intros [] s3 Hs3 _].
  apply Hself. assumption.
Qed.

Lemma normalize_body_by_date_cong self1 self2 data all_scores s :
  (forall d s', self1 d all_scores false s' = self2 d all_scores false s') ->
  normalize_body cfg self1 data all_scores true s
  = normalize_body cfg self2 data all_scores true s.
Proof.
  intros Hself. unfold normalize_body.
  apply (bind_cong (fun _ => True) any_exn _ _ _ any);
    [apply triple_pure; auto with pure | exact Logic.I | intros [] s1 _ _; [reflexivity|]].
  rewrite !bind_alloc.
  apply (bind_cong (fun _ => True) any_exn _ _ _ any);
    [apply triple_pure; auto with pure | exact Logic.I | intros days s2 _ _].
  assert (Hloop : forall s',
            score_days self1 data (VRef (List.length s1)) all_scores days s'
            = score_days self2 data (VRef (List.length s1)) all_scores days s').
  { unfold score_days. apply for_each_ext. intros day s'. unfold bind.
    destruct (load_name "date" s') as [[[]|e] s3]; [|reflexivity].
    destruct (getitem data (VAtom ADateClass) s3) as [[record|e] s4]; [|reflexivity].
    rewrite Hself. reflexivity. }
  unfold bind. rewrite Hloop. reflexivity.
Qed.

Lemma normalize_fuel_total n data all_scores s :
  normalize_fuel cfg (S (S n)) data all_scores false s
  = normalize_fuel cfg 2 data all_scores false s.
Proof.
  change (normalize_body cfg (normalize_fuel cfg (S n)) data all_scores false s
          = normalize_body cfg (normalize_fuel cfg 1) data all_scores false s).
  apply normalize_body_total_cong. intros l s' H.
  rewrite !normalize_fuel_single by assumption. reflexivity.
Qed.

(** More fuel than three changes nothing. *)
Lemma normalize_fuel_enough n data all_scores by_date s :
  normalize_fuel cfg (3 + n) data all_scores by_date s
  = normalize cfg data all_scores by_date s.
Proof.
  unfold normalize. destruct by_date.
  - change (normalize_body cfg (normalize_fuel cfg (S (S n))) data all_scores true s
            = normalize_body cfg (normalize_fuel cfg 2) data all_scores true s).
    apply normalize_body_by_date_cong. intros d s'. apply normalize_fuel_total.
  - rewrite (normalize_fuel_total (S n)), (normalize_fuel_total 1). reflexivity.
Qed.

End Fuel.

(** ** Running a computation in a given store *)

Lemma bind_ok {A B} (m : M A) (f : A -> M B) s a s' :
  m s = (Ok a, s') -> bind m f s = f a s'.
Proof. intros H. unfold bind. rewrite H. reflexivity. Qed.

Lemma bind_raise {A B} (m : M A) (f : A -> M B) s e s' :
  m s = (Raise e, s') -> bind m f s = (Raise e, s').
Proof. intros H. unfold bind. rewrite H. reflexivity. Qed.

Lemma getitem_ref s l d a x :
  s !! l = Some d -> dict_get d a = Some x ->
  getitem (VRef l) (VAtom a) s = (Ok x, s).
Proof. intros Hl Ha. unfold getitem, bind, deref. rewrite Hl, Ha. reflexivity. Qed.

Lemma getitem_ref_missing s l d a :
  s !! l = Some d -> dict_get d a = None ->
  getitem (VRef l) (VAtom a) s = (Raise KeyError, s).
Proof. intros Hl Ha. unfold getitem, bind, deref. rewrite Hl, Ha. reflexivity. Qed.

Lemma contains_ref s l d a :
  s !! l = Some d -> contains (VAtom a) (VRef l) s = (Ok (dict_has d a), s).
Proof. intros Hl. unfold contains, bind, deref. rewrite Hl. reflexivity. Qed.

Lemma iter_ref s l d :
  s !! l = Some d -> iter (VRef l) s = (Ok (dict_keys d), s).
Proof. intros Hl. unfold iter, bind, deref. rewrite Hl. reflexivity. Qed.

Lemma bind_raised {A B} (I : store -> Prop) (m : M A) (f : A -> M B) post s :
  triple I no_fuel m post -> I s ->
  (forall a s', I s' -> post a -> raised (f a s').1) ->
  raised (bind m f s).1.
Proof.
  intros Hm Hs Hf. unfold bind. destruct (Hm s Hs) as [HI Hr].
  destruct (m s) as [[a|e] s']; simpl in *; auto.
Qed.

Section NormalizeRaises.

Variable cfg : Config.

Lemma single_point_raised data all_scores s :
  raised (single_point cfg data all_scores s).1.
Proof.
  destruct (single_point_fails cfg data all_scores s) as [e He].
  pose proof (sound_single_point cfg data all_scores s) as Hs.
  rewrite He in *. exact Hs.
Qed.

(** Without [by_date], [normalize] never returns: the single-point branch
    stops at the name [statistics], and the summing branch ends in the
    single-point branch. *)
Lemma normalize_total_raised data all_scores s :
  raised (normalize cfg data all_scores false s).1.
Proof.
  unfold normalize. rewrite (normalize_fuel_total cfg 1).
  change (normalize_fuel cfg 2) with (normalize_body cfg (normalize_fuel cfg 1)).
  unfold normalize_body at 1.
  apply (bind_raised (fun _ => True) _ _ any);
    [apply triple_pure_sound; auto with pure | exact Logic.I | intros [] s1 _ _].
  { apply single_point_raised. }
  rewrite bind_alloc.
  apply (bind_raised (has_memuse (List.length s1)) _ _ any);
    [apply triple_pure_sound; auto with pure | apply has_memuse_alloc
    | intros days s2 Hs2 _].
  apply (bind_raised (has_memuse (List.length s1)) _ _ any);
    [apply has_memuse_sum_days | assumption | intros [] s3 Hs3 _].
  change (raised (normalize_fuel cfg 1 (VRef (List.length s1)) all_scores false s3).1).
  rewrite normalize_fuel_single by assumption. apply single_point_raised.
Qed.

Lemma sound_for_each {A} (xs : list A) (body : A -> M unit) :
  (forall x, sound (body x)) -> sound (for_each xs body).
Proof.
  intros H. induction xs as [|x xs IH]; simpl; [apply sound_ret|].
  apply sound_bind; [apply H | intros _; exact IH].
Qed.

(** [normalize] never runs out of fuel. *)
Lemma normalize_sound data all_scores by_date :
  sound (normalize cfg data all_scores by_date).
Proof.
  destruct by_date.
  - unfold normalize.
    change (normalize_fuel cfg 3) with (normalize_body cfg (normalize_fuel cfg 2)).
    unfold normalize_body at 1.
    apply sound_bind; [auto with pure | intros []].
    { apply sound_single_point. }
    apply sound_bind; [auto with pure | intros scores].
    apply sound_bind; [auto with pure | intros days].
    apply sound_bind; [| intros; auto with pure].
    unfold score_days. apply sound_for_each. intros day.
    apply sound_bind; [auto with pure | intros _].
    apply sound_bind; [auto with pure | intros record].
    apply sound_bind; [| intros; auto with pure].
    intros s. pose proof (normalize_total_raised record all_scores s) as H.
    unfold normalize in H. rewrite (normalize_fuel_total cfg 1) in H.
    destruct (normalize_fuel cfg 2 record all_scores false s).1; [exact Logic.I | exact H].
  - intros s. pose proof (normalize_total_raised data all_scores s) as H.
    destruct (normalize cfg data all_scores false s).1; [exact Logic.I | exact H].
Qed.

End NormalizeRaises.

(** ** Score calculator: usage records *)

Lemma field_num_get d k q :
  field_num d k = Some q -> dict_get d (AStr k) = Some (num q).
Proof.
  unfold field_num. destruct (dict_get d (AStr k)) as [[[]|]|]; try discriminate.
  intros [= ->]. reflexivity.
Qed.







(** One statement of the function body, run in the current store. *)
Ltac run_field Hl :=
  erewrite bind_ok
    by (eapply getitem_ref; [exact Hl | apply field_num_get; eassumption]).

Section ScoreRuns.

Variable cfg : Config.



Lemma normalize_single s l d all_scores by_date :
  s !! l = Some d -> dict_has d (AStr "memuse") = true ->
  normalize cfg (VRef l) all_scores by_date s
  = single_point cfg (VRef l) all_scores s.
Proof.
  intros Hl Hk. unfold normalize. apply normalize_fuel_single. exists d. auto.
Qed.

End ScoreRuns.

(** ** Score calculator: the claims *)



(** C2. The score is never computed: whatever the normalization options and
    the record, [getScore] raises instead of returning
    [mean(ratios) * 100 / divisor], and so does [normalize] on a single
    record (one with the key ['memuse']), whatever its flags.  The store is
    left as it was. *)
Theorem score_never_returned cfg data all_scores by_date s :
  (exists e, getScore cfg data all_scores s = (Raise e, s)) /\
  (contains (str "memuse") data s = (Ok true, s) ->
   exists e, normalize cfg data all_scores by_date s = (Raise e, s)).
Proof.
  split.
  - apply getScore_fails.
  - intros Hc. unfold normalize.
    change (normalize_fuel cfg 3) with (normalize_body cfg (normalize_fuel cfg 2)).
    unfold normalize_body. rewrite (bind_ok _ _ _ _ _ Hc).
    apply single_point_fails.
Qed.

Lemma score_never_returned_witness :
  (exists e, getScore cfg_off (VRef 0) false [half_used] = (Raise e, [half_used])) /\
  (exists e, normalize cfg_off (VRef 0) false false [half_used]
             = (Raise e, [half_used])).
Proof.
  pose proof (score_never_returned cfg_off (VRef 0) false false [half_used])
    as [H1 H2].
  split; [exact H1 | apply H2; reflexivity].
Defined.

(** The failing input of C2 under both settings of the normalization
    option. *)
Example getScore_half_used :
  getScore cfg_off (VRef 0) false [half_used]
  = (Raise (NameError "statistics"), [half_used]) /\
  getScore cfg_on (VRef 0) false [half_used]
  = (Raise (NameError "statistics"), [half_used]) /\
  normalize cfg_off (VRef 0) false false [half_used]
  = (Raise (NameError "statistics"), [half_used]) /\
  normalize cfg_on (VRef 0) false false [half_used]
  = (Raise (NameError "statistics"), [half_used]).
Proof. repeat split. Qed.

(** ** Ranker *)

Lemma call_arity f args s :
  List.length args <> fn_params f -> call f args s = (Raise TypeError, s).
Proof.
  intros H. unfold call. destruct (Nat.eqb_spec (List.length args) (fn_params f));
    [contradiction | reflexivity].
Qed.

Lemma sorted_first_raises f x xs s e s' :
  call f [x] s = (Raise e, s') ->
  sorted (Some f) (x :: xs) s = (Raise e, s').
Proof.
  intros H. unfold sorted. simpl map_M.
  erewrite bind_raise; [reflexivity|]. erewrite bind_raise; [reflexivity | exact H].
Qed.

Section RankerRuns.

Variable cfg : Config.
Variable db : Jobstats.

Lemma getTop_users_raises n since s :
  db_getUsers db (Some since) <> [] ->
  getTop cfg db "users" n since s = (Raise TypeError, s).
Proof.
  intros H. unfold getTop. simpl.
  destruct (db_getUsers db (Some since)) as [|u us]; [contradiction|].
  simpl map. erewrite bind_raise; [reflexivity|].
  apply sorted_first_raises. apply call_arity. simpl. discriminate.
Qed.

Lemma getTop_accounts_raises n since s :
  db_getAccounts db (Some since) <> [] ->
  getTop cfg db "accounts" n since s = (Raise TypeError, s).
Proof.
  intros H. unfold getTop. simpl.
  destruct (db_getAccounts db (Some since)) as [|u us]; [contradiction|].
  simpl map. erewrite bind_raise; [reflexivity|].
  apply sorted_first_raises. apply call_arity. simpl. discriminate.
Qed.

Lemma rank_job_data_raises view x rest s :
  exists e s', rank_job_data cfg view (x :: rest) s = (Raise e, s') /\ no_fuel e.
Proof.
  pose proof (normalize_total_raised cfg x false s) as H.
  destruct (normalize cfg x false false s) as [[v|e] s'] eqn:Hn; simpl in H; [tauto|].
  exists e, s'. split; [|exact H].
  unfold rank_job_data. erewrite bind_raise; [reflexivity|].
  apply sorted_first_raises. exact Hn.
Qed.

End RankerRuns.

(** C1. No ranking is produced for a non-empty collection of entities.
    [getTop] raises [TypeError] as soon as the database lists one user or one
    account: [sorted] calls the two-parameter [key_func] with one argument.
    The ranking of [home] raises as soon as one record passed the eligibility
    filter: its sort key is [normalize(x)], which never returns. *)
Theorem ranking_raises cfg db view n since job_data s :
  (db_getUsers db (Some since) <> [] ->
   getTop cfg db "users" n since s = (Raise TypeError, s)) /\
  (db_getAccounts db (Some since) <> [] ->
   getTop cfg db "accounts" n since s = (Raise TypeError, s)) /\
  (job_data <> [] ->
   exists e s', rank_job_data cfg view job_data s = (Raise e, s')
                /\ e <> FuelExhausted).
Proof.
  split; [apply getTop_users_raises|].
  split; [apply getTop_accounts_raises|].
  intros H. destruct job_data as [|x rest]; [contradiction|].
  apply rank_job_data_raises.
Qed.

Lemma ranking_raises_witness :
  getTop cfg_on db_one "users" 10 (VAtom (ADate 0)) [] = (Raise TypeError, []) /\
  getTop cfg_on db_one "accounts" 10 (VAtom (ADate 0)) [] = (Raise TypeError, []) /\
  exists e s', rank_job_data cfg_on None [VRef 0] [half_used] = (Raise e, s')
               /\ e <> FuelExhausted.
Proof.
  pose proof (ranking_raises cfg_on db_one None 10 (VAtom (ADate 0)) [VRef 0]) as H.
  split; [apply (H []); discriminate|].
  split; [apply (H []); discriminate|].
  apply (H [half_used]); discriminate.
Defined.

(** Where its keys can be computed, [sorted] puts the smallest key first, and
    keeps the input order of equal keys. *)
Example sorted_ascending :
  sorted None [num 90; num 50; num 70] [] = (Ok [num 50; num 70; num 90], []) /\
  sorted (Some {| fn_params := 1; fn_body := fun _ => ret (num 1) |})
    [str "b"; str "a"] [] = (Ok [str "b"; str "a"], []).
Proof. split; reflexivity. Qed.

(** ** Aggregation *)

Lemma lookup_extended (s : store) l d k :
  s !! l = Some d -> (s ++ k)%list !! l = Some d.
Proof. intros H. apply lookup_app_l_Some. exact H. Qed.

Lemma lookup_new (s : store) d : (s ++ [d])%list !! List.length s = Some d.
Proof. rewrite lookup_app_r by lia. rewrite Nat.sub_diag. reflexivity. Qed.

Lemma eqb_long_char a b r c :
  String.eqb (String a (String b r)) (String c "") = false.
Proof. cbn [String.eqb]. destruct (Ascii.eqb a c); reflexivity. Qed.

Lemma data_total_no_char c :
  dict_get data_total_init (AStr (String c "")) = None.
Proof.
  unfold data_total_init. cbn [dict_get atom_eqb].
  rewrite !eqb_long_char. reflexivity.
Qed.

Section AggregationRuns.

Variable cfg : Config.

Lemma normalize_unfold data all_scores by_date :
  normalize cfg data all_scores by_date
  = normalize_body cfg (normalize_fuel cfg 2) data all_scores by_date.
Proof. reflexivity. Qed.

Lemma normalize_empty_total s l all_scores :
  s !! l = Some [] ->
  normalize cfg (VRef l) all_scores false s
  = (Raise ZeroDivisionError, (s ++ [data_total_init])%list).
Proof.
  intros Hl. rewrite normalize_unfold. unfold normalize_body.
  erewrite bind_ok by (apply contains_ref; exact Hl).
  change (dict_has [] (AStr "memuse")) with false. cbv iota.
  rewrite bind_alloc.
  erewrite bind_ok by (apply iter_ref; apply lookup_extended; exact Hl).
  cbn [dict_keys map fst]. unfold sum_days. cbn [for_each].
  erewrite bind_ok by reflexivity.
  rewrite normalize_fuel_single by apply has_memuse_alloc.
  unfold single_point.
  erewrite bind_ok by (eapply getitem_ref; [apply lookup_new | reflexivity]).
  erewrite bind_ok by (eapply getitem_ref; [apply lookup_new | reflexivity]).
  reflexivity.
Qed.

Lemma normalize_empty_by_date s l all_scores :
  s !! l = Some [] ->
  normalize cfg (VRef l) all_scores true s
  = (Ok (VRef (List.length s)), (s ++ [[]])%list).
Proof.
  intros Hl. rewrite normalize_unfold. unfold normalize_body.
  erewrite bind_ok by (apply contains_ref; exact Hl).
  change (dict_has [] (AStr "memuse")) with false. cbv iota.
  rewrite bind_alloc.
  erewrite bind_ok by (apply iter_ref; apply lookup_extended; exact Hl).
  reflexivity.
Qed.

Lemma normalize_by_date_KeyError s l d all_scores :
  s !! l = Some d -> d <> [] ->
  dict_has d (AStr "memuse") = false -> dict_has d ADateClass = false ->
  normalize cfg (VRef l) all_scores true s = (Raise KeyError, (s ++ [[]])%list).
Proof.
  intros Hl Hd Hm Hc. rewrite normalize_unfold. unfold normalize_body.
  erewrite bind_ok by (apply contains_ref; exact Hl). rewrite Hm.
  rewrite bind_alloc.
  erewrite bind_ok by (apply iter_ref; apply lookup_extended; exact Hl).
  destruct d as [|[k v] rest]; [contradiction|].
  cbn [dict_keys map fst]. unfold score_days. cbn [for_each].
  erewrite bind_raise; [reflexivity|]. erewrite bind_raise; [reflexivity|].
  rewrite load_date. erewrite bind_ok by reflexivity.
  erewrite bind_raise; [reflexivity|].
  eapply getitem_ref_missing; [apply lookup_extended; exact Hl|].
  unfold dict_has in Hc. destruct (dict_get _ ADateClass); [discriminate | reflexivity].
Qed.

Lemma normalize_by_date_raised s l d all_scores :
  s !! l = Some d -> d <> [] -> dict_has d (AStr "memuse") = false ->
  raised (normalize cfg (VRef l) all_scores true s).1.
Proof.
  intros Hl Hd Hm. rewrite normalize_unfold. unfold normalize_body.
  erewrite bind_ok by (apply contains_ref; exact Hl). rewrite Hm.
  rewrite bind_alloc.
  erewrite bind_ok by (apply iter_ref; apply lookup_extended; exact Hl).
  destruct d as [|[k v] rest]; [contradiction|].
  cbn [dict_keys map fst]. unfold score_days. cbn [for_each].
  apply (bind_raised (fun _ => True) _ _ (fun _ => False));
    [| exact Logic.I | intros ? ? _ []].
  eapply triple_bind with (mid := fun _ => False); [|intros ? []].
  eapply triple_bind; [apply triple_pure_sound; auto with pure | intros _ _].
  eapply triple_bind; [apply triple_pure_sound; auto with pure | intros record _].
  eapply triple_bind with (mid := fun _ => False); [|intros ? []].
  intros s' _. split; [exact Logic.I|].
  pose proof (normalize_total_raised cfg record all_scores s') as H.
  unfold normalize in H. rewrite (normalize_fuel_total cfg 1) in H.
  destruct (normalize_fuel cfg 2 record all_scores false s').1; [destruct H | exact H].
Qed.

Lemma normalize_total_first_key s l k v rest all_scores e :
  s !! l = Some ((k, v) :: rest) ->
  dict_has ((k, v) :: rest) (AStr "memuse") = false ->
  sum_error k = Some e ->
  normalize cfg (VRef l) all_scores false s
  = (Raise e, (s ++ [data_total_init])%list).
Proof.
  intros Hl Hm He. rewrite normalize_unfold. unfold normalize_body.
  erewrite bind_ok by (apply contains_ref; exact Hl). rewrite Hm.
  rewrite bind_alloc.
  erewrite bind_ok by (apply iter_ref; apply lookup_extended; exact Hl).
  cbn [dict_keys map fst]. unfold sum_days. cbn [for_each].
  erewrite bind_raise; [reflexivity|]. erewrite bind_raise; [reflexivity|].
  destruct k as [|q|[|c str']|dt|]; simpl in He; try discriminate He;
    injection He as <-; try (erewrite bind_raise; reflexivity).
  rewrite (bind_ok (iter (VAtom (AStr (String c str')))) _ _
             (string_chars (String c str')) _ eq_refl).
  cbn [for_each string_chars].
  erewrite bind_raise; [reflexivity|]. erewrite bind_raise; [reflexivity|].
  eapply getitem_ref_missing; [apply lookup_new | apply data_total_no_char].
Qed.

End AggregationRuns.

(** C4. By-date aggregation returns no mapping for a non-empty collection of
    days: the call raises [KeyError] at the first day, on the subscript
    [data[date]] whose key is the class [datetime.date] and not the day; and
    were that key present, the call would still raise, in the scoring of the
    record found under it.  The only object in the store that is new is the
    empty [scores]. *)
Theorem by_date_raises cfg s l d all_scores :
  s !! l = Some d -> d <> [] -> dict_has d (AStr "memuse") = false ->
  (dict_has d ADateClass = false ->
   normalize cfg (VRef l) all_scores true s = (Raise KeyError, (s ++ [[]])%list)) /\
  (exists e s', normalize cfg (VRef l) all_scores true s = (Raise e, s')
                /\ e <> FuelExhausted).
Proof.
  intros Hl Hd Hm. split.
  - intros Hc. apply normalize_by_date_KeyError with d; assumption.
  - pose proof (normalize_by_date_raised cfg s l d all_scores Hl Hd Hm) as H.
    destruct (normalize cfg (VRef l) all_scores true s) as [[x|e] s'];
      simpl in H; [tauto|].
    exists e, s'. split; [reflexivity | exact H].
Qed.

Lemma by_date_raises_witness :
  normalize cfg_on (VRef 0) true true by_date_store
  = (Raise KeyError, (by_date_store ++ [[]])%list) /\
  normalize cfg_on (VRef 1) true true by_date_store
  = (Raise KeyError, (by_date_store ++ [[]])%list).
Proof.
  split.
  - apply (by_date_raises cfg_on by_date_store 0 _ true eq_refl);
      [discriminate | reflexivity | reflexivity].
  - apply (by_date_raises cfg_on by_date_store 1 _ true eq_refl);
      [discriminate | reflexivity | reflexivity].
Defined.

(** C5. Total aggregation returns no score for a non-empty collection of
    days: the summing loop iterates over each key of the collection, not over
    the record stored under it, and raises at the first key ([TypeError] for
    a date, [KeyError] for a date string) before any field is added to
    [data_total]; in every case the call raises. *)
Theorem total_raises cfg s l k v rest all_scores :
  s !! l = Some ((k, v) :: rest) ->
  dict_has ((k, v) :: rest) (AStr "memuse") = false ->
  (forall e, sum_error k = Some e ->
   normalize cfg (VRef l) all_scores false s
   = (Raise e, (s ++ [data_total_init])%list)) /\
  (exists e s', normalize cfg (VRef l) all_scores false s = (Raise e, s')
                /\ e <> FuelExhausted).
Proof.
  intros Hl Hm. split.
  - intros e He. apply normalize_total_first_key with k v rest; assumption.
  - pose proof (normalize_total_raised cfg (VRef l) all_scores s) as H.
    destruct (normalize cfg (VRef l) all_scores false s) as [[x|e] s'];
      simpl in H; [tauto|].
    exists e, s'. split; [reflexivity | exact H].
Qed.

Lemma total_raises_witness :
  normalize cfg_on (VRef 0) false false by_date_store
  = (Raise TypeError, (by_date_store ++ [data_total_init])%list) /\
  normalize cfg_on (VRef 1) false false by_date_store
  = (Raise KeyError, (by_date_store ++ [data_total_init])%list).
Proof.
  split.
  - apply (total_raises cfg_on by_date_store 0 _ _ _ false eq_refl eq_refl).
    reflexivity.
  - apply (total_raises cfg_on by_date_store 1 _ _ _ false eq_refl eq_refl).
    reflexivity.
Defined.

(** C7, as the claim states it: total aggregation of the empty collection
    does not return; it raises [ZeroDivisionError]. *)
Lemma empty_total_not_returned :
  normalize cfg_on (VRef 0) false false [[]]
  = (Raise ZeroDivisionError, [[]; data_total_init]) /\
  ~ (exists x s', normalize cfg_on (VRef 0) false false [[]] = (Ok x, s')).
Proof.
  split; [reflexivity|]. intros (x & s' & H). discriminate H.
Qed.

(** C7, amended. Total aggregation of the empty collection raises
    [ZeroDivisionError], from the division [0 / 0] on the all-zero
    [data_total]; by-date aggregation of the empty collection returns a new,
    empty mapping. *)
Theorem empty_input cfg s l all_scores :
  s !! l = Some [] ->
  normalize cfg (VRef l) all_scores false s
  = (Raise ZeroDivisionError, (s ++ [data_total_init])%list) /\
  normalize cfg (VRef l) all_scores true s
  = (Ok (VRef (List.length s)), (s ++ [[]])%list) /\
  (s ++ [[]])%list !! List.length s = Some [].
Proof.
  intros Hl. split; [apply normalize_empty_total; exact Hl|].
  split; [apply normalize_empty_by_date; exact Hl | apply lookup_new].
Qed.

Lemma empty_input_witness :
  normalize cfg_off (VRef 0) false false [[]]
  = (Raise ZeroDivisionError, [[]; data_total_init]) /\
  normalize cfg_off (VRef 0) false true [[]] = (Ok (VRef 1), [[]; []]) /\
  ([[]; []] : store) !! 1 = Some [].
Proof. exact (empty_input cfg_off [[]] 0 false eq_refl). Defined.

(** ** Zero divisors *)

Section ZeroDivisors.

Variable cfg : Config.





End ZeroDivisors.




(** ** Eligibility *)

Lemma atom_eqb_str k a : atom_eqb k (AStr a) = true -> k = AStr a.
Proof.
  destruct k; simpl; try discriminate. intros H.
  apply String.eqb_eq in H. subst. reflexivity.
Qed.

Lemma dict_get_set_str d a b v :
  String.eqb a b = false ->
  dict_get (dict_set d (AStr a) v) (AStr b) = dict_get d (AStr b).
Proof.
  intros Hab. induction d as [|[k0 v0] d IH]; simpl.
  - rewrite Hab. reflexivity.
  - destruct (atom_eqb k0 (AStr a)) eqn:E; simpl.
    + apply atom_eqb_str in E. subst k0. simpl. rewrite Hab. reflexivity.
    + rewrite IH. reflexivity.
Qed.

Lemma field_num_set_str d a b v :
  String.eqb a b = false -> field_num (dict_set d (AStr a) v) b = field_num d b.
Proof. intros H. unfold field_num. rewrite dict_get_set_str by exact H. reflexivity. Qed.

Lemma request_fields_owner d v :
  request_fields (dict_set d (AStr "owner") v) = request_fields d.
Proof.
  unfold request_fields. rewrite !field_num_set_str by reflexivity. reflexivity.
Qed.

Lemma truthy_num q s : truthy (num q) s = (Ok (negb (Qeq_bool q 0)), s).
Proof. reflexivity. Qed.

Lemma and3_requests s l d m c t :
  s !! l = Some d -> request_fields d = Some (m, c, t) ->
  and3 (getitem (VRef l) (str "memreq")) (getitem (VRef l) (str "cpureq"))
       (getitem (VRef l) (str "timereq")) s
  = (Ok (negb (Qeq_bool m 0) && negb (Qeq_bool c 0) && negb (Qeq_bool t 0)), s).
Proof.
  intros Hl. unfold request_fields.
  destruct (field_num d "memreq") as [m'|] eqn:Hm; [|discriminate].
  destruct (field_num d "cpureq") as [c'|] eqn:Hc; [|discriminate].
  destruct (field_num d "timereq") as [t'|] eqn:Ht; [|discriminate].
  intros [= -> -> ->]. unfold and3.
  run_field Hl. rewrite (bind_ok _ _ _ _ _ (truthy_num m s)).
  destruct (Qeq_bool m 0); [reflexivity|]. cbn [negb andb].
  run_field Hl. rewrite (bind_ok _ _ _ _ _ (truthy_num c s)).
  destruct (Qeq_bool c 0); [reflexivity|]. cbn [negb].
  run_field Hl. apply truthy_num.
Qed.

Lemma store_set_new (s : store) d d' :
  <[List.length s := d']> (s ++ [d])%list = (s ++ [d'])%list.
Proof.
  rewrite insert_app_r_alt by lia. rewrite Nat.sub_diag. reflexivity.
Qed.

Section Filtering.

Variable db : Jobstats.
Variable today : Z.

Hypothesis numeric_requests :
  forall sc who since, request_fields (db_getStats db sc who since) <> None.

(** The gathering loop keeps the entities with nonzero requested amounts, in
    the order of the database, and no others. *)
Lemma gather_filters view time data_points job_data s :
  gather db today view time data_points job_data s
  = (Ok (job_data ++ gathered_refs db today view time (List.length s) data_points)%list,
     (s ++ map (gathered_record db today view time) data_points)%list).
Proof.
  revert job_data s. induction data_points as [|i rest IH]; intros job_data s.
  - cbn [gather gathered_refs map]. rewrite !app_nil_r. reflexivity.
  - cbn [gather gathered_refs map]. rewrite bind_alloc.
    set (d := db_getStats db _ _ _).
    assert (Hset : setitem (VRef (List.length s)) (str "owner") (VAtom i) (s ++ [d])%list
                   = (Ok tt, (s ++ [gathered_record db today view time i])%list)).
    { unfold setitem, str. rewrite lookup_new, store_set_new. reflexivity. }
    rewrite (bind_ok _ _ _ _ _ Hset).
    pose proof (lookup_new s (gathered_record db today view time i)) as Hl.
    unfold ineligible.
    destruct (request_fields (gathered_record db today view time i))
      as [[[m c] t]|] eqn:Hreq.
    2:{ unfold gathered_record in Hreq. rewrite request_fields_owner in Hreq.
        apply numeric_requests in Hreq. destruct Hreq. }
    rewrite (bind_ok _ _ _ _ _ (and3_requests _ _ _ _ _ _ Hl Hreq)).
    rewrite IH. rewrite length_app. cbn [List.length].
    replace (List.length s + 1) with (S (List.length s)) by lia.
    rewrite <- !app_assoc. cbn [app].
    destruct (Qeq_bool m 0), (Qeq_bool c 0), (Qeq_bool t 0);
      cbn [negb andb orb app]; rewrite <- ?app_assoc; reflexivity.
Qed.

Lemma gathered_refs_eligible view time next data_points l :
  In (VRef l) (gathered_refs db today view time next data_points) ->
  exists j i, l = next + j /\ data_points !! j = Some i /\
              ineligible (gathered_record db today view time i) = false.
Proof.
  revert next. induction data_points as [|i rest IH]; intros next; cbn [gathered_refs].
  - intros [].
  - rewrite in_app_iff. intros [H|H].
    + destruct (ineligible (gathered_record db today view time i)) eqn:Hi;
        [destruct H|].
      destruct H as [[= <-]|[]]. exists 0, i. split; [lia | auto].
    + destruct (IH _ H) as (j & i' & -> & Hj & Hi').
      exists (S j), i'. split; [lia | auto].
Qed.

(** The record of an entity with a zero requested amount is in the store and
    not in [job_data]. *)
Lemma gather_drops_ineligible view time data_points s j i :
  data_points !! j = Some i ->
  ineligible (gathered_record db today view time i) = true ->
  exists job_data s',
    gather db today view time data_points [] s = (Ok job_data, s') /\
    s' !! (List.length s + j) = Some (gathered_record db today view time i) /\
    ~ In (VRef (List.length s + j)) job_data.
Proof.
  intros Hj Hi. rewrite gather_filters. eexists _, _. split; [reflexivity|]. split.
  - rewrite lookup_app_r by lia.
    replace (List.length s + j - List.length s) with j by lia.
    rewrite list_lookup_fmap, Hj. reflexivity.
  - cbn [app]. intros Hin.
    apply gathered_refs_eligible in Hin as (j' & i' & Heq & Hj' & Hi').
    assert (j' = j) by lia. subst j'. congruence.
Qed.

End Filtering.

Section Gathering.

Variable cfg : Config.
Variable db : Jobstats.
Variable today : Z.

Hypothesis all_ineligible :
  forall sc who since, ineligible (db_getStats db sc who since) = true.

Lemma gather_none view time data_points job_data s :
  exists s', gather db today view time data_points job_data s = (Ok job_data, s').
Proof.
  revert job_data s. induction data_points as [|i rest IH]; intros job_data s.
  - exists s. reflexivity.
  - cbn [gather]. rewrite bind_alloc.
    set (d := db_getStats db _ _ _).
    assert (Hin : ineligible d = true) by apply all_ineligible.
    set (s1 := <[List.length s := dict_set d (AStr "owner") (VAtom i)]> (s ++ [d])%list).
    assert (Hset : setitem (VRef (List.length s)) (str "owner") (VAtom i) (s ++ [d])%list
                   = (Ok tt, s1)).
    { unfold setitem, str. rewrite lookup_new. reflexivity. }
    rewrite (bind_ok _ _ _ _ _ Hset).
    assert (Hl : s1 !! List.length s = Some (dict_set d (AStr "owner") (VAtom i))).
    { apply list_lookup_insert_eq. rewrite length_app. simpl. lia. }
    unfold ineligible in Hin. rewrite <- (request_fields_owner d (VAtom i)) in Hin.
    destruct (request_fields (dict_set d (AStr "owner") (VAtom i)))
      as [[[m c] t]|] eqn:Hreq; [|discriminate].
    rewrite (bind_ok _ _ _ _ _ (and3_requests _ _ _ _ _ _ Hl Hreq)).
    replace (negb (Qeq_bool m 0) && negb (Qeq_bool c 0) && negb (Qeq_bool t 0))
      with false.
    + apply IH.
    + destruct (Qeq_bool m 0), (Qeq_bool c 0), (Qeq_bool t 0);
        try reflexivity; discriminate.
Qed.

Lemma home_no_rows view time s :
  exists s', home cfg db today view time s = (Ok [], s').
Proof.
  unfold home.
  destruct (gather_none view (getTimeframe time)
              (if accounts_view view then db_getAccounts db None
               else db_getUsers db None) [] s) as [s' Hg].
  exists s'. rewrite (bind_ok _ _ _ _ _ Hg). reflexivity.
Qed.

End Gathering.

(** C8. [home] leaves an entity with a zero requested amount out before any
    scoring: its gathering loop puts the entity's record in the store and not
    in [job_data], and where every entity is such, [home] hands no row to its
    template.  [getTop] has no such test: it passes every entity the database
    lists to its key function, and raises. *)
Theorem ineligible_entities cfg db today view time n since s :
  (forall sc who when, request_fields (db_getStats db sc who when) <> None) ->
  (forall data_points j i,
     data_points !! j = Some i ->
     ineligible (gathered_record db today view (getTimeframe time) i) = true ->
     exists job_data s',
       gather db today view (getTimeframe time) data_points [] s = (Ok job_data, s') /\
       s' !! (List.length s + j)
       = Some (gathered_record db today view (getTimeframe time) i) /\
       ~ In (VRef (List.length s + j)) job_data) /\
  ((forall sc who when, ineligible (db_getStats db sc who when) = true) ->
   exists s', home cfg db today view time s = (Ok [], s')) /\
  (db_getUsers db (Some since) <> [] ->
   getTop cfg db "users" n since s = (Raise TypeError, s)) /\
  (db_getAccounts db (Some since) <> [] ->
   getTop cfg db "accounts" n since s = (Raise TypeError, s)).
Proof.
  intros Hnum. split; [|split; [|split]].
  - intros data_points j i Hj Hi. apply gather_drops_ineligible; assumption.
  - intros H. apply home_no_rows. exact H.
  - apply getTop_users_raises.
  - apply getTop_accounts_raises.
Qed.

Lemma ineligible_entities_witness :
  (exists job_data s',
     gather db_no_request 736695 (Some "users") 7 [AStr "bob"] [] []
     = (Ok job_data, s') /\
     s' !! 0 = Some (gathered_record db_no_request 736695 (Some "users") 7 (AStr "bob")) /\
     ~ In (VRef 0) job_data) /\
  (exists s', home cfg_on db_no_request 736695 (Some "users") None [] = (Ok [], s')) /\
  getTop cfg_on db_no_request "users" 10 (VAtom (ADate 736688)) []
  = (Raise TypeError, []) /\
  getTop cfg_on db_no_request "accounts" 10 (VAtom (ADate 736688)) []
  = (Raise TypeError, []).
Proof.
  assert (Hnum : forall sc who when,
             request_fields (db_getStats db_no_request sc who when) <> None)
    by (intros; discriminate).
  pose proof (ineligible_entities cfg_on db_no_request 736695 (Some "users") None 10
                (VAtom (ADate 736688)) [] Hnum) as (H1 & H2 & H3 & H4).
  split; [exact (H1 [AStr "bob"] 0 (AStr "bob") eq_refl eq_refl)|].
  split; [apply H2; reflexivity|].
  split; [apply H3; discriminate | apply H4; discriminate].
Defined.

(** ** Effects on the store *)

Section Frame.

Variable cfg : Config.
Variable s0 : store.

Lemma frame_alloc d : triple (extends s0) any_exn (alloc d) (fresh_ref s0).
Proof.
  intros s Hs. unfold alloc; simpl. split.
  - apply prefix_app_r. exact Hs.
  - exists (List.length s). split; [reflexivity|]. apply prefix_length. exact Hs.
Qed.

Lemma frame_setitem v k x :
  fresh_ref s0 v -> triple (extends s0) any_exn (setitem v k x) any.
Proof.
  intros (l & -> & Hl) s Hs. unfold setitem.
  destruct k as [a|?]; [|split; [exact Hs | exact Logic.I]].
  destruct (s !! l) as [d|]; simpl; [|split; [exact Hs | exact Logic.I]].
  split; [|exact Logic.I].
  destruct Hs as [k ->]. rewrite insert_app_r_alt by exact Hl.
  apply prefix_app_r. reflexivity.
Qed.

Lemma frame_pure {A} (m : M A) : pure_op m -> triple (extends s0) any_exn m any.
Proof. apply triple_pure. Qed.

Lemma frame_fails {A} (m : M A) post : fails m -> triple (extends s0) any_exn m post.
Proof. intros H. apply triple_fails; [exact H | intros; exact Logic.I]. Qed.

Lemma frame_sum_days data_total days :
  fresh_ref s0 data_total -> triple (extends s0) any_exn (sum_days data_total days) any.
Proof.
  intros Hf. unfold sum_days. apply triple_for_each. intros day.
  eapply triple_bind; [apply frame_pure; auto with pure | intros vals _].
  apply triple_for_each. intros val.
  eapply triple_bind; [apply frame_pure; auto with pure | intros old _].
  eapply triple_bind; [apply frame_pure; auto with pure | intros inc _].
  eapply triple_bind; [apply frame_pure; auto with pure | intros new _].
  apply frame_setitem. exact Hf.
Qed.

Lemma frame_normalize_fuel n data all_scores by_date :
  triple (extends s0) any_exn (normalize_fuel cfg n data all_scores by_date) any.
Proof.
  revert data all_scores by_date.
  induction n as [|n IH]; intros data all_scores by_date.
  - apply triple_raise. exact Logic.I.
  - cbn [normalize_fuel]. unfold normalize_body.
    eapply triple_bind; [apply frame_pure; auto with pure | intros single _].
    destruct single; [apply frame_fails, single_point_fails|].
    destruct by_date.
    + eapply triple_bind; [apply frame_alloc | intros scores Hscores].
      eapply triple_bind; [apply frame_pure; auto with pure | intros days _].
      eapply triple_bind; [| intros _ _; apply triple_ret; exact Logic.I].
      unfold score_days. apply triple_for_each. intros day.
      eapply triple_bind; [apply frame_pure; auto with pure | intros _ _].
      eapply triple_bind; [apply frame_pure; auto with pure | intros record _].
      eapply triple_bind; [apply IH | intros score _].
      apply frame_setitem. exact Hscores.
    + eapply triple_bind; [apply frame_alloc | intros data_total Htotal].
      eapply triple_bind; [apply frame_pure; auto with pure | intros days _].
      eapply triple_bind; [apply frame_sum_days; exact Htotal | intros _ _].
      apply IH.
Qed.

Lemma pure_insert_by_key kx l : pure_op (insert_by_key kx l).
Proof.
  induction l as [|ky l IH]; cbn [insert_by_key]; [auto with pure|].
  apply pure_bind; [auto with pure | intros []; [|auto with pure]].
  apply pure_bind; [exact IH | intros; auto with pure].
Qed.

Lemma pure_sort_by_key l : pure_op (sort_by_key l).
Proof.
  induction l as [|kx l IH]; cbn [sort_by_key]; [auto with pure|].
  apply pure_bind; [exact IH | intros; apply pure_insert_by_key].
Qed.

Lemma frame_sorted key xs :
  (forall f x, key = Some f -> triple (extends s0) any_exn (call f [x]) any) ->
  triple (extends s0) any_exn (sorted key xs) any.
Proof.
  intros Hkey. unfold sorted.
  eapply triple_bind with (mid := any).
  - apply triple_map_M. intros x. destruct key as [f|].
    + apply Hkey. reflexivity.
    + apply triple_ret. exact Logic.I.
  - intros keys _.
    eapply triple_bind; [apply frame_pure, pure_sort_by_key | intros r _].
    apply triple_ret. exact Logic.I.
Qed.

Lemma frame_home_key x : triple (extends s0) any_exn (call (home_key cfg) [x]) any.
Proof. apply frame_normalize_fuel. Qed.

Lemma pure_py_int x : pure_op (py_int x).
Proof. unfold py_int. pure_cases. Qed.

Lemma pure_or_dash i field : pure_op (or_dash i field).
Proof. unfold or_dash. pure_cases. Qed.

Lemma frame_build_ranks view job_data account_ranks :
  triple (extends s0) any_exn (build_ranks cfg view job_data account_ranks) any.
Proof.
  revert account_ranks. induction job_data as [|i rest IH]; intros account_ranks.
  - apply triple_ret. exact Logic.I.
  - cbn [build_ranks].
    eapply triple_bind; [apply frame_pure; auto with pure | intros name _].
    eapply triple_bind; [apply frame_pure, pure_or_dash | intros cores _].
    eapply triple_bind; [apply frame_pure, pure_or_dash | intros memory _].
    eapply triple_bind; [apply frame_pure, pure_or_dash | intros t_limit _].
    eapply triple_bind; [apply frame_normalize_fuel | intros score _].
    eapply triple_bind; [apply frame_pure, pure_py_int | intros total _].
    apply IH.
Qed.

Lemma frame_rank_job_data view job_data :
  triple (extends s0) any_exn (rank_job_data cfg view job_data) any.
Proof.
  unfold rank_job_data.
  eapply triple_bind with (mid := any); [|intros ordered _; apply frame_build_ranks].
  apply frame_sorted. intros f x [= <-]. apply frame_home_key.
Qed.

Lemma frame_getTop db account_type n since :
  triple (extends s0) any_exn (getTop cfg db account_type n since) any.
Proof.
  unfold getTop.
  destruct (String.eqb account_type "users"); [|destruct (String.eqb account_type "accounts")].
  all: eapply triple_bind with (mid := any);
    [|intros ranked _; apply triple_ret; exact Logic.I].
  all: apply frame_sorted; intros f x [= <-].
  all: apply triple_raise; exact Logic.I.
Qed.

Lemma pure_and3 a b c : pure_op a -> pure_op b -> pure_op c -> pure_op (and3 a b c).
Proof. intros Ha Hb Hc. unfold and3. pure_cases. Qed.

Lemma frame_gather db today view time data_points job_data :
  triple (extends s0) any_exn (gather db today view time data_points job_data) any.
Proof.
  revert job_data. induction data_points as [|i rest IH]; intros job_data.
  - apply triple_ret. exact Logic.I.
  - cbn [gather].
    eapply triple_bind; [apply frame_alloc | intros data Hdata].
    eapply triple_bind; [apply frame_setitem; exact Hdata | intros _ _].
    eapply triple_bind; [apply frame_pure, pure_and3; auto with pure | intros eligible _].
    apply IH.
Qed.

Lemma frame_home db today view time :
  triple (extends s0) any_exn (home cfg db today view time) any.
Proof.
  unfold home.
  eapply triple_bind; [apply frame_gather | intros job_data _].
  apply frame_rank_job_data.
Qed.

End Frame.

(** C10. Scoring and ranking change no object that exists when they are
    called: [getScore] leaves the store as it is, and [normalize] (with any
    flags), [getTop], the ranking of [home] and [home] as a whole end in a
    store that is the initial one followed by new objects only.  So the record
    or mapping passed, and every record it refers to, is afterwards what it
    was. *)
Theorem inputs_unchanged cfg db today data all_scores by_date account_type n since
  view time job_data (s : store) :
  (getScore cfg data all_scores s).2 = s /\
  s `prefix_of` (normalize cfg data all_scores by_date s).2 /\
  s `prefix_of` (getTop cfg db account_type n since s).2 /\
  s `prefix_of` (rank_job_data cfg view job_data s).2 /\
  s `prefix_of` (home cfg db today view time s).2.
Proof.
  split.
  - destruct (getScore_fails cfg data all_scores s) as [e ->]. reflexivity.
  - split; [|split; [|split]].
    + apply (frame_normalize_fuel cfg s 3 data all_scores by_date s). reflexivity.
    + apply (frame_getTop cfg s db account_type n since s). reflexivity.
    + apply (frame_rank_job_data cfg s view job_data s). reflexivity.
    + apply (frame_home cfg s db today view time s). reflexivity.
Qed.

(** In terms of single objects. *)
Lemma normalize_keeps_objects cfg data all_scores by_date (s : store) l d :
  s !! l = Some d -> (normalize cfg data all_scores by_date s).2 !! l = Some d.
Proof.
  intros H. eapply prefix_lookup_Some; [exact H|].
  apply (frame_normalize_fuel cfg s 3 data all_scores by_date s). reflexivity.
Qed.

(** ** Name resolver *)

Lemma py_max_spec x xs :
  exists m, py_max (x :: xs) = Ok m /\ In m (x :: xs) /\
            forall y, In y (x :: xs) -> (y <= m)%Q.
Proof.
  unfold py_max.
  set (step := fun m y : Q => match Qcompare y m with Gt => y | _ => m end).
  assert (H : forall l a, In (fold_left step l a) (a :: l) /\
                          (a <= fold_left step l a)%Q /\
                          forall y, In y l -> (y <= fold_left step l a)%Q).
  { induction l as [|b l IH]; intros a; simpl.
    - split; [auto|]. split; [apply Qle_refl | tauto].
    - destruct (IH (step a b)) as (Hin & Hle & Hall).
      assert (Hstep : (a <= step a b)%Q /\ (b <= step a b)%Q /\
                      (step a b = a \/ step a b = b)).
      { unfold step. destruct (Qcompare b a) eqn:Hc.
        - apply Qeq_alt in Hc. repeat split; [apply Qle_refl | | auto].
          rewrite Hc. apply Qle_refl.
        - apply Qlt_alt in Hc. repeat split; [apply Qle_refl | | auto].
          apply Qlt_le_weak. exact Hc.
        - apply Qgt_alt in Hc. repeat split; [| apply Qle_refl | auto].
          apply Qlt_le_weak. exact Hc. }
      destruct Hstep as (Ha & Hb & Hor). split; [|split].
      + destruct Hin as [Hin|Hin]; [|auto].
        rewrite <- Hin. destruct Hor as [-> | ->]; auto.
      + eapply Qle_trans; eassumption.
      + intros y [<-|Hy]; [eapply Qle_trans; eassumption | auto]. }
  destruct (H xs x) as (Hin & Hle & Hall).
  eexists. split; [reflexivity|]. split; [exact Hin|].
  intros y [<-|Hy]; auto.
Qed.

Lemma py_index_spec xs m :
  In m xs ->
  exists i y, py_index xs m = Ok i /\ xs !! i = Some y /\ (y == m)%Q /\
              forall j z, j < i -> xs !! j = Some z -> ~ (z == m)%Q.
Proof.
  induction xs as [|x xs IH]; intros Hin; [destruct Hin|].
  cbn [py_index]. destruct (Qeq_bool x m) eqn:Hx.
  - exists 0, x. split; [reflexivity|]. split; [reflexivity|].
    split; [apply Qeq_bool_iff; exact Hx | intros j z Hj; lia].
  - destruct Hin as [->|Hin].
    { rewrite Qeq_bool_refl in Hx. discriminate. }
    destruct (IH Hin) as (i & y & Hi & Hy & Heq & Hfirst).
    exists (S i), y. rewrite Hi. split; [reflexivity|]. split; [exact Hy|].
    split; [exact Heq|]. intros [|j] z Hj Hz.
    + injection Hz as <-. intros Hc. apply Qeq_bool_iff in Hc. congruence.
    + apply (Hfirst j z); [lia | exact Hz].
Qed.

Section ResolverProps.

Variable ratio : string -> string -> Q.

(** What the standard library promises of [ratio()]: a number between 0 and 1,
    which is 1 for identical strings and for no others. *)
Hypothesis ratio_range : forall a b, (0 <= ratio a b)%Q /\ (ratio a b <= 1)%Q.
Hypothesis ratio_identical : forall a b, (ratio a b == 1)%Q <-> a = b.

(** C9. For a non-empty list of candidates, name resolution returns a
    candidate whose similarity ratio to the search string is the largest, the
    first one in the list that reaches it; a candidate identical to the search
    string is the one returned. *)
Theorem best_match_is_first_maximum search candidates :
  candidates <> [] ->
  exists name i,
    best_match ratio search candidates = Ok name /\
    candidates !! i = Some name /\
    (forall c, In c candidates -> (ratio search c <= ratio search name)%Q) /\
    (forall j c, j < i -> candidates !! j = Some c ->
                 (ratio search c < ratio search name)%Q) /\
    (In search candidates -> name = search).
Proof.
  intros Hne. destruct candidates as [|c0 cs]; [contradiction|]. clear Hne.
  set (candidates := c0 :: cs). set (sims := map (fun i => ratio search i) candidates).
  destruct (py_max_spec (ratio search c0) (map (fun i => ratio search i) cs))
    as (m & Hmax & Hin & Hall).
  change (ratio search c0 :: map (fun i => ratio search i) cs) with sims in *.
  destruct (py_index_spec sims m Hin) as (i & y & Hidx & Hy & Heq & Hfirst).
  assert (Hname : exists name, candidates !! i = Some name /\ y = ratio search name).
  { unfold sims in Hy. rewrite list_lookup_fmap in Hy.
    destruct (candidates !! i) as [name|]; [|discriminate].
    injection Hy as <-. eauto. }
  destruct Hname as (name & Hi & ->).
  assert (Hle : forall c, In c candidates -> (ratio search c <= ratio search name)%Q).
  { intros c Hc. rewrite Heq. apply Hall. unfold sims. apply in_map_iff. eauto. }
  exists name, i. split; [|split; [exact Hi | split; [exact Hle | split]]].
  - unfold best_match. fold candidates. fold sims. rewrite Hmax, Hidx, Hi. reflexivity.
  - intros j c Hj Hc.
    assert (Hsj : sims !! j = Some (ratio search c)).
    { unfold sims. rewrite list_lookup_fmap, Hc. reflexivity. }
    assert (HcIn : In c candidates).
    { apply list_elem_of_In. eapply list_elem_of_lookup_2. exact Hc. }
    destruct (proj1 (Qle_lteq _ _) (Hle c HcIn)) as [Hlt|Hq].
    + exact Hlt.
    + exfalso. apply (Hfirst j _ Hj Hsj). rewrite Hq. exact Heq.
  - intros Hs. symmetry. apply (proj1 (ratio_identical search name)).
    apply Qle_antisym; [apply ratio_range|].
    assert (H1 : (ratio search search == 1)%Q) by (apply ratio_identical; reflexivity).
    rewrite <- H1. apply Hle. exact Hs.
Qed.

End ResolverProps.

Lemma common_prefix_le a b :
  common_prefix a b <= String.length a /\ common_prefix a b <= String.length b.
Proof.
  revert b. induction a as [|x a IH]; intros [|y b]; simpl; try lia.
  destruct (Ascii.eqb x y); [|lia]. destruct (IH b). lia.
Qed.

Lemma common_prefix_refl a : common_prefix a a = String.length a.
Proof.
  induction a as [|x a IH]; simpl; [reflexivity|].
  rewrite Ascii.eqb_refl, IH. reflexivity.
Qed.

Lemma common_prefix_full a b :
  common_prefix a b = String.length a -> String.length a = String.length b -> a = b.
Proof.
  revert b. induction a as [|x a IH]; intros [|y b]; simpl; try discriminate; auto.
  destruct (Ascii.eqb_spec x y) as [->|]; [|discriminate].
  intros H1 H2. f_equal. apply IH; lia.
Qed.

Lemma prefix_ratio_range a b : (0 <= prefix_ratio a b)%Q /\ (prefix_ratio a b <= 1)%Q.
Proof.
  unfold prefix_ratio. destruct (common_prefix_le a b) as [Ha Hb].
  destruct (String.length a + String.length b)%nat as [|t] eqn:Ht.
  - split; discriminate.
  - unfold Qle. cbn [Qnum Qden]. rewrite Zpos_P_of_succ_nat. split; lia.
Qed.

Lemma prefix_ratio_identical a b : (prefix_ratio a b == 1)%Q <-> a = b.
Proof.
  unfold prefix_ratio. destruct (common_prefix_le a b) as [Ha Hb].
  destruct (String.length a + String.length b)%nat as [|t] eqn:Ht.
  - split; [intros _ | reflexivity].
    destruct a, b; simpl in Ht; try discriminate. reflexivity.
  - unfold Qeq. cbn [Qnum Qden]. rewrite Zpos_P_of_succ_nat. split.
    + intros H. apply common_prefix_full; lia.
    + intros ->. rewrite common_prefix_refl in *. lia.
Qed.

Lemma best_match_is_first_maximum_witness :
  exists name i,
    best_match prefix_ratio "alice" ["bob"; "alice"; "alicia"; "alice"] = Ok name /\
    ["bob"; "alice"; "alicia"; "alice"] !! i = Some name /\
    (forall c, In c ["bob"; "alice"; "alicia"; "alice"] ->
               (prefix_ratio "alice" c <= prefix_ratio "alice" name)%Q) /\
    (forall j c, j < i -> ["bob"; "alice"; "alicia"; "alice"] !! j = Some c ->
                 (prefix_ratio "alice" c < prefix_ratio "alice" name)%Q) /\
    (In "alice" ["bob"; "alice"; "alicia"; "alice"] -> name = "alice").
Proof.
  apply (best_match_is_first_maximum prefix_ratio prefix_ratio_range
           prefix_ratio_identical "alice" ["bob"; "alice"; "alicia"; "alice"]).
  discriminate.
Defined.

(** The two resolutions the specification gives as examples, and the empty
    candidate list. *)
Example best_match_examples :
  best_match prefix_ratio "alice" ["alice"; "alicia"; "bob"] = Ok "alice" /\
  best_match prefix_ratio "alicee" ["alicia"; "bob"; "carol"] = Ok "alicia" /\
  best_match prefix_ratio "alice" [] = Raise ValueError.
Proof. repeat split. Qed.

(** * Further properties: scoring, ranking, views and charts *)

(** ** When [normalize] returns *)

Lemma normalize_empty_string cfg all_scores s :
  normalize cfg (str "") all_scores true s
  = (Ok (VRef (List.length s)), (s ++ [[]])%list).
Proof. reflexivity. Qed.

Lemma normalize_string_by_date_raised cfg c rest all_scores s :
  raised (normalize cfg (str (String c rest)) all_scores true s).1.
Proof.
  rewrite normalize_unfold. unfold normalize_body.
  erewrite bind_ok by reflexivity.
  destruct (is_substring "memuse" (String c rest)); [apply single_point_raised|].
  rewrite bind_alloc. erewrite bind_ok by reflexivity.
  unfold score_days. cbn [string_chars for_each].
  match goal with
  | |- raised (?m ?st).1 =>
      assert (Hm : m st = (Raise TypeError, st)); [|rewrite Hm; simpl; discriminate]
  end.
  erewrite bind_raise; [reflexivity|]. erewrite bind_raise; [reflexivity|].
  rewrite load_date. erewrite bind_ok by reflexivity.
  erewrite bind_raise; reflexivity.
Qed.

(** X1. On data that is a dictionary, a string, a number, a date or [None],
    [normalize] returns in one case only: called with [by_date] on an empty
    dictionary or on the empty string, it returns a new empty dictionary.
    Every other call on such data raises.  (Lists, tuples and sets are not
    among the data of the model.) *)
Theorem normalize_returns cfg data all_scores by_date s v s' :
  normalize cfg data all_scores by_date s = (Ok v, s') <->
  by_date = true /\
  (data = str "" \/ exists l, data = VRef l /\ s !! l = Some []) /\
  v = VRef (List.length s) /\ s' = (s ++ [[]])%list.
Proof.
  split.
  - intros H. destruct by_date.
    2:{ pose proof (normalize_total_raised cfg data all_scores s) as Hr.
        rewrite H in Hr. destruct Hr. }
    split; [reflexivity|].
    destruct data as [a|l].
    + destruct a as [|q|[|c rest]|d|]; try discriminate H.
      * pose proof (normalize_empty_string cfg all_scores s) as E.
        unfold str in E. rewrite E in H. injection H as <- <-.
        split; [left; reflexivity | split; reflexivity].
      * pose proof (normalize_string_by_date_raised cfg c rest all_scores s) as Hr.
        unfold str in Hr. rewrite H in Hr. destruct Hr.
    + destruct (s !! l) as [d|] eqn:Hl.
      2:{ rewrite normalize_unfold in H. unfold normalize_body, contains, bind, deref in H.
          rewrite Hl in H. discriminate H. }
      destruct d as [|kv d].
      * rewrite (normalize_empty_by_date cfg s l all_scores Hl) in H.
        injection H as <- <-. split; [right; eauto | split; reflexivity].
      * destruct (dict_has (kv :: d) (AStr "memuse")) eqn:Hm.
        -- rewrite (normalize_single cfg s l _ all_scores true Hl Hm) in H.
           pose proof (single_point_raised cfg (VRef l) all_scores s) as Hr.
           rewrite H in Hr. destruct Hr.
        -- pose proof (normalize_by_date_raised cfg s l _ all_scores Hl
                         ltac:(discriminate) Hm) as Hr.
           rewrite H in Hr. destruct Hr.
  - intros (-> & [-> | (l & -> & Hl)] & -> & ->).
    + apply normalize_empty_string.
    + apply normalize_empty_by_date. exact Hl.
Qed.

Lemma normalize_returns_witness :
  normalize cfg_on (VRef 0) true true [[]] = (Ok (VRef 1), [[]; []]).
Proof.
  apply (proj2 (normalize_returns cfg_on (VRef 0) true true [[]] (VRef 1) [[]; []])).
  split; [reflexivity|]. split; [right; exists 0; split; reflexivity|].
  split; reflexivity.
Defined.

(** ** When the rankers return *)

Lemma sorted_nil key s : sorted key [] s = (Ok [], s).
Proof. reflexivity. Qed.

Lemma slice_to_nil {A} n : @slice_to A n [] = [].
Proof. unfold slice_to. destruct (n <? 0)%Z; apply take_nil. Qed.

Lemma getTop_outcome cfg db account_type n since s :
  getTop cfg db account_type n since s
  = match listed_entities db account_type since with
    | [] => (Ok [], s)
    | _ :: _ => (Raise TypeError, s)
    end.
Proof.
  unfold listed_entities.
  destruct (String.eqb account_type "users") eqn:Hu;
    [|destruct (String.eqb account_type "accounts") eqn:Ha].
  - apply String.eqb_eq in Hu. subst.
    destruct (db_getUsers db (Some since)) as [|u us] eqn:Hl.
    + unfold getTop. cbn [String.eqb Ascii.eqb Bool.eqb]. rewrite Hl.
      cbn [map]. rewrite (bind_ok _ _ _ _ _ (sorted_nil _ s)).
      unfold ret. rewrite slice_to_nil. reflexivity.
    + apply getTop_users_raises. congruence.
  - apply String.eqb_eq in Ha. subst.
    destruct (db_getAccounts db (Some since)) as [|u us] eqn:Hl.
    + unfold getTop. cbn [String.eqb Ascii.eqb Bool.eqb]. rewrite Hl.
      cbn [map]. rewrite (bind_ok _ _ _ _ _ (sorted_nil _ s)).
      unfold ret. rewrite slice_to_nil. reflexivity.
    + apply getTop_accounts_raises. congruence.
  - unfold getTop. rewrite Hu, Ha. rewrite (bind_ok _ _ _ _ _ (sorted_nil _ s)).
    unfold ret. rewrite slice_to_nil. reflexivity.
Qed.

(** X2. [getTop] returns the empty list when the database lists no entity of
    the kind asked for, and when the kind is neither ['users'] nor
    ['accounts'], whatever the database lists; in every other case it raises
    [TypeError].  The number [num] of entities wanted plays no part, and the
    store is left as it was. *)
Theorem getTop_result cfg db account_type n since s :
  getTop cfg db account_type n since s
  = match listed_entities db account_type since with
    | [] => (Ok [], s)
    | _ :: _ => (Raise TypeError, s)
    end.
Proof.
  apply getTop_outcome.
Qed.

(** X3. [home] never hands a row to its template: when it returns, the
    gathering loop has kept no record and [account_ranks] is empty. *)
Theorem home_returns_no_row cfg db today view time s rows s' :
  home cfg db today view time s = (Ok rows, s') ->
  rows = [] /\
  gather db today view (getTimeframe time)
    (if accounts_view view then db_getAccounts db None else db_getUsers db None)
    [] s = (Ok [], s').
Proof.
  unfold home. unfold bind at 1.
  destruct (gather db today view (getTimeframe time) _ [] s) as [[[|x rest]|e] s1].
  - cbn. intros [= <- <-]. auto.
  - destruct (rank_job_data_raises cfg view x rest s1) as (e & s2 & -> & _).
    discriminate.
  - discriminate.
Qed.

Lemma home_returns_no_row_witness :
  ([] : list row) = [] /\
  gather db_no_request 736695 None 7 [AStr "idle"] [] []
  = (Ok [], [dict_set no_request (AStr "owner") (VAtom (AStr "idle"))]).
Proof.
  apply (home_returns_no_row cfg_on db_no_request 736695 None None []).
  reflexivity.
Defined.

(** ** The gathering loop of [home] *)

Lemma dict_get_set_same d k v : dict_get (dict_set d (AStr k) v) (AStr k) = Some v.
Proof.
  induction d as [|[k0 v0] d IH]; simpl.
  - rewrite String.eqb_refl. reflexivity.
  - destruct (atom_eqb k0 (AStr k)) eqn:E; simpl; rewrite E; [reflexivity | exact IH].
Qed.

Lemma gathered_refs_complete db today view time next data_points j i :
  data_points !! j = Some i ->
  ineligible (gathered_record db today view time i) = false ->
  In (VRef (next + j)) (gathered_refs db today view time next data_points).
Proof.
  revert next j. induction data_points as [|i0 rest IH]; intros next j Hj Hi;
    [discriminate|].
  cbn [gathered_refs]. apply in_app_iff. destruct j as [|j].
  - injection Hj as ->. rewrite Hi. left. left. f_equal. lia.
  - right. replace (next + S j) with (S next + j) by lia. apply IH; assumption.
Qed.

(** X4. Where the three requested amounts of every record are numbers, the
    gathering loop of [home] stores one new record per entity the database
    lists, in that order and with the entity under the key ['owner'], and
    keeps in [job_data] the records whose requested amounts are all nonzero,
    and no others. *)
Theorem gather_result db today view time data_points s :
  (forall sc who since, request_fields (db_getStats db sc who since) <> None) ->
  exists job_data,
    gather db today view time data_points [] s
    = (Ok job_data,
       (s ++ map (gathered_record db today view time) data_points)%list) /\
    job_data = gathered_refs db today view time (List.length s) data_points /\
    forall j i, data_points !! j = Some i ->
      dict_get (gathered_record db today view time i) (AStr "owner")
      = Some (VAtom i) /\
      (In (VRef (List.length s + j)) job_data <->
       ineligible (gathered_record db today view time i) = false).
Proof.
  intros Hnum. eexists. split; [apply gather_filters; exact Hnum|].
  cbn [app]. split; [reflexivity|]. intros j i Hj. split.
  - apply dict_get_set_same.
  - split.
    + intros Hin. apply gathered_refs_eligible in Hin as (j' & i' & Heq & Hj' & Hi').
      assert (j' = j) by lia. subst j'. congruence.
    + intros Hi. apply gathered_refs_complete with i; assumption.
Qed.

Lemma gather_result_witness :
  exists job_data,
    gather db_one 736695 None 7 [AStr "lab"; AStr "hub"] [] []
    = (Ok job_data,
       ([] ++ map (gathered_record db_one 736695 None 7) [AStr "lab"; AStr "hub"])%list) /\
    job_data = gathered_refs db_one 736695 None 7 0 [AStr "lab"; AStr "hub"] /\
    forall j i, [AStr "lab"; AStr "hub"] !! j = Some i ->
      dict_get (gathered_record db_one 736695 None 7 i) (AStr "owner")
      = Some (VAtom i) /\
      (In (VRef (0 + j)) job_data <->
       ineligible (gathered_record db_one 736695 None 7 i) = false).
Proof.
  apply (gather_result db_one 736695 None 7 [AStr "lab"; AStr "hub"] []).
  intros; discriminate.
Defined.

Lemma gather_step db today view time i rest job_data s :
  gather db today view time (i :: rest) job_data s
  = bind (and3 (getitem (VRef (List.length s)) (str "memreq"))
               (getitem (VRef (List.length s)) (str "cpureq"))
               (getitem (VRef (List.length s)) (str "timereq")))
         (fun eligible =>
            gather db today view time rest
              (if eligible then job_data ++ [VRef (List.length s)] else job_data)%list)
         (s ++ [gathered_record db today view time i])%list.
Proof.
  cbn [gather]. rewrite bind_alloc.
  set (d := db_getStats db _ _ _).
  assert (Hset : setitem (VRef (List.length s)) (str "owner") (VAtom i) (s ++ [d])%list
                 = (Ok tt, (s ++ [gathered_record db today view time i])%list)).
  { unfold setitem, str. rewrite lookup_new, store_set_new. reflexivity. }
  rewrite (bind_ok _ _ _ _ _ Hset). reflexivity.
Qed.

(** X5. The eligibility test of [home] reads the requested amounts left to
    right and stops at the first zero: a record whose ['memreq'] is zero is
    left out without its other fields being read, so they may be missing.  A
    record without ['memreq'], or with a nonzero ['memreq'] and without
    ['cpureq'], ends the request with [KeyError]; the record, with its owner
    added, is then in the store. *)
Theorem gather_first_entity db today view time i rest job_data s q :
  (field_num (gathered_record db today view time i) "memreq" = Some q ->
   Qeq_bool q 0 = true ->
   gather db today view time (i :: rest) job_data s
   = gather db today view time rest job_data
       (s ++ [gathered_record db today view time i])%list) /\
  (dict_get (gathered_record db today view time i) (AStr "memreq") = None ->
   gather db today view time (i :: rest) job_data s
   = (Raise KeyError, (s ++ [gathered_record db today view time i])%list)) /\
  (field_num (gathered_record db today view time i) "memreq" = Some q ->
   Qeq_bool q 0 = false ->
   dict_get (gathered_record db today view time i) (AStr "cpureq") = None ->
   gather db today view time (i :: rest) job_data s
   = (Raise KeyError, (s ++ [gathered_record db today view time i])%list)).
Proof.
  pose proof (lookup_new s (gathered_record db today view time i)) as Hl.
  set (st := (s ++ [gathered_record db today view time i])%list) in *.
  set (test := and3 (getitem (VRef (List.length s)) (str "memreq"))
                    (getitem (VRef (List.length s)) (str "cpureq"))
                    (getitem (VRef (List.length s)) (str "timereq"))).
  split; [|split].
  - intros Hm Hz. rewrite gather_step. fold st test.
    assert (Ht : test st = (Ok false, st)).
    { unfold test, and3. run_field Hl.
      rewrite (bind_ok _ _ _ _ _ (truthy_num q _)). rewrite Hz. reflexivity. }
    rewrite (bind_ok _ _ _ _ _ Ht). reflexivity.
  - intros Hm. rewrite gather_step. fold st test.
    assert (Ht : test st = (Raise KeyError, st)).
    { unfold test, and3. erewrite bind_raise; [reflexivity|].
      eapply getitem_ref_missing; eassumption. }
    rewrite (bind_raise _ _ _ _ _ Ht). reflexivity.
  - intros Hm Hz Hc. rewrite gather_step. fold st test.
    assert (Ht : test st = (Raise KeyError, st)).
    { unfold test, and3. run_field Hl.
      rewrite (bind_ok _ _ _ _ _ (truthy_num q _)). rewrite Hz. cbn [negb].
      erewrite bind_raise; [reflexivity|].
      eapply getitem_ref_missing; eassumption. }
    rewrite (bind_raise _ _ _ _ _ Ht). reflexivity.
Qed.

Lemma gather_first_entity_witness :
  gather db_only_memreq 736695 None 7 [AStr "idle"] [] []
  = gather db_only_memreq 736695 None 7 [] []
      [gathered_record db_only_memreq 736695 None 7 (AStr "idle")] /\
  gather db_blank 736695 None 7 [AStr "idle"] [] []
  = (Raise KeyError, [gathered_record db_blank 736695 None 7 (AStr "idle")]) /\
  gather db_no_cpureq 736695 None 7 [AStr "idle"] [] []
  = (Raise KeyError, [gathered_record db_no_cpureq 736695 None 7 (AStr "idle")]).
Proof.
  split; [|split].
  - apply (proj1 (gather_first_entity db_only_memreq 736695 None 7 (AStr "idle")
                    [] [] [] 0)); reflexivity.
  - apply (proj1 (proj2 (gather_first_entity db_blank 736695 None 7 (AStr "idle")
                           [] [] [] 0))); reflexivity.
  - apply (proj2 (proj2 (gather_first_entity db_no_cpureq 736695 None 7 (AStr "idle")
                           [] [] [] 4))); reflexivity.
Defined.

(** ** The normalization options *)

Lemma split_space_cons s : exists w ws, split_space s = w :: ws.
Proof.
  destruct s as [|c s]; cbn [split_space]; [eauto|].
  destruct (split_space s) as [|w ws]; [eauto|].
  destruct (Ascii.eqb c " "); eauto.
Qed.

Lemma prefix_empty s : String.prefix "" s = true.
Proof. destruct s; reflexivity. Qed.

Lemma prefix_first_word sub s :
  no_space sub = true ->
  String.prefix sub s = String.prefix sub (hd "" (split_space s)).
Proof.
  revert s. induction sub as [|a sub IH]; intros s Hsub;
    [rewrite !prefix_empty; reflexivity|].
  cbn [no_space] in Hsub. apply andb_true_iff in Hsub as [Ha Hsub].
  apply negb_true_iff in Ha.
  destruct s as [|c s]; [reflexivity|]. cbn [split_space].
  destruct (split_space_cons s) as (w & ws & Hw). rewrite Hw.
  destruct (Ascii.eqb_spec c " ") as [->|Hc]; cbn [hd String.prefix].
  - destruct (ascii_dec a " ") as [->|]; [discriminate Ha | reflexivity].
  - destruct (ascii_dec a c); [|reflexivity].
    rewrite (IH s Hsub), Hw. reflexivity.
Qed.

Lemma is_substring_split a sub s :
  no_space (String a sub) = true ->
  existsb (is_substring (String a sub)) (split_space s)
  = is_substring (String a sub) s.
Proof.
  intros Hsub. induction s as [|c s IH]; [apply orb_false_r|].
  pose proof (prefix_first_word _ (String c s) Hsub) as Hp.
  cbn [split_space] in *.
  destruct (split_space_cons s) as (w & ws & Hw). rewrite Hw in *.
  cbn [is_substring]. rewrite <- IH.
  destruct (Ascii.eqb c " "); cbn [hd existsb is_substring] in *.
  - rewrite Hp. reflexivity.
  - rewrite Hp, orb_assoc. reflexivity.
Qed.

Lemma startup_fold ideal words cfg :
  fold_left
    (fun cfg arg =>
       if is_substring "score" arg
       then {| normalize_by_score := true; ideal_score := ideal |}
       else cfg) words cfg
  = if existsb (is_substring "score") words
    then {| normalize_by_score := true; ideal_score := ideal |}
    else cfg.
Proof.
  revert cfg. induction words as [|w words IH]; intros cfg; [reflexivity|].
  cbn [fold_left existsb]. rewrite IH.
  destruct (is_substring "score" w), (existsb (is_substring "score") words); reflexivity.
Qed.

(** X6. Normalization by score is switched on exactly when the text of the
    [normalize] option contains ['score'], in any word and any place of it;
    [ideal_score] is then the configured number, and it is 0 when the
    normalization is off. *)
Theorem startup_config_enabled normalize_scores_options ideal :
  normalize_by_score (startup_config normalize_scores_options ideal)
  = is_substring "score" normalize_scores_options /\
  ideal_score (startup_config normalize_scores_options ideal)
  = if is_substring "score" normalize_scores_options then ideal else 0%Q.
Proof.
  unfold startup_config. rewrite startup_fold.
  rewrite (is_substring_split "s" "core") by reflexivity.
  destruct (is_substring "score" normalize_scores_options); split; reflexivity.
Qed.

(** ** Placeholders for zeros (account view) *)

Lemma atom_eqb_refl a : atom_eqb a a = true.
Proof.
  destruct a; simpl; auto using Qeq_bool_refl, String.eqb_refl, Z.eqb_refl.
Qed.

Lemma atom_eqb_sym a b : atom_eqb a b = atom_eqb b a.
Proof.
  destruct a, b; simpl; auto using Qeq_bool_comm, String.eqb_sym, Z.eqb_sym.
Qed.

Lemma atom_eqb_trans a b c :
  atom_eqb a b = true -> atom_eqb b c = true -> atom_eqb a c = true.
Proof.
  destruct a, b, c; simpl; try discriminate; auto.
  - apply Qeq_bool_trans.
  - intros H1 H2. apply String.eqb_eq in H1, H2. subst. apply String.eqb_refl.
  - intros H1 H2. apply Z.eqb_eq in H1, H2. subst. apply Z.eqb_refl.
Qed.

Lemma atom_eqb_congr a b c :
  atom_eqb a b = true -> atom_eqb a c = atom_eqb b c.
Proof.
  intros Hab. destruct (atom_eqb b c) eqn:Hbc.
  - eapply atom_eqb_trans; eassumption.
  - destruct (atom_eqb a c) eqn:Hac; [|reflexivity].
    rewrite <- Hbc. symmetry. eapply atom_eqb_trans; [|exact Hac].
    rewrite atom_eqb_sym. exact Hab.
Qed.

Lemma dict_get_set d k v k' :
  dict_has d k = true ->
  dict_get (dict_set d k v) k' = if atom_eqb k k' then Some v else dict_get d k'.
Proof.
  unfold dict_has. induction d as [|[k0 v0] d IH]; simpl; [discriminate|].
  destruct (atom_eqb k0 k) eqn:E; simpl.
  - intros _. rewrite (atom_eqb_congr k0 k k' E). destruct (atom_eqb k k'); reflexivity.
  - intros H. rewrite (IH H). destruct (atom_eqb k0 k') eqn:E'; [|reflexivity].
    destruct (atom_eqb k k') eqn:E''; [|reflexivity].
    rewrite atom_eqb_sym in E''. rewrite (atom_eqb_trans _ _ _ E' E'') in E.
    discriminate.
Qed.

Lemma dict_keys_set d k v :
  dict_has d k = true -> dict_keys (dict_set d k v) = dict_keys d.
Proof.
  unfold dict_has, dict_keys. induction d as [|[k0 v0] d IH]; simpl; [discriminate|].
  destruct (atom_eqb k0 k); simpl; [reflexivity|]. intros H. rewrite (IH H). reflexivity.
Qed.

Lemma dict_has_key d k : In k (dict_keys d) -> dict_has d k = true.
Proof.
  unfold dict_has, dict_keys. induction d as [|[k0 v0] d IH]; simpl; [tauto|].
  intros [->|H].
  - rewrite atom_eqb_refl. reflexivity.
  - destruct (atom_eqb k0 k); [reflexivity | auto].
Qed.

Lemma dict_has_eqb d k k' :
  atom_eqb k k' = true -> dict_get d k = dict_get d k'.
Proof.
  intros H. induction d as [|[k0 v0] d IH]; simpl; [reflexivity|].
  rewrite IH. replace (atom_eqb k0 k) with (atom_eqb k0 k'); [reflexivity|].
  rewrite !(atom_eqb_sym k0). symmetry. apply atom_eqb_congr. exact H.
Qed.

Lemma py_eq_zero_dash x : py_eq_zero (dash_value x) = false.
Proof.
  unfold dash_value. destruct (py_eq_zero x) eqn:E; [reflexivity | exact E].
Qed.

Lemma dash_value_idem x : dash_value (dash_value x) = dash_value x.
Proof. unfold dash_value at 1. rewrite py_eq_zero_dash. reflexivity. Qed.

(** One step of the loop keeps the keys, and puts the placeholder under the
    key it visits. *)
Lemma dash_step_spec d k :
  dict_keys (dash_step d k) = dict_keys d /\
  forall k', dict_get (dash_step d k) k'
             = if atom_eqb k k' then dash_value <$> dict_get d k' else dict_get d k'.
Proof.
  unfold dash_step. destruct (dict_get d k) as [x|] eqn:Hk.
  - assert (Hhas : dict_has d k = true) by (unfold dict_has; rewrite Hk; reflexivity).
    destruct (py_eq_zero x) eqn:Hz.
    + split; [apply dict_keys_set; exact Hhas|]. intros k'.
      rewrite dict_get_set by exact Hhas.
      destruct (atom_eqb k k') eqn:E; [|reflexivity].
      rewrite <- (dict_has_eqb d k k' E), Hk. simpl. unfold dash_value.
      rewrite Hz. reflexivity.
    + split; [reflexivity|]. intros k'.
      destruct (atom_eqb k k') eqn:E; [|reflexivity].
      rewrite <- (dict_has_eqb d k k' E), Hk. simpl. unfold dash_value.
      rewrite Hz. reflexivity.
  - split; [reflexivity|]. intros k'.
    destruct (atom_eqb k k') eqn:E; [|reflexivity].
    rewrite <- (dict_has_eqb d k k' E), Hk. reflexivity.
Qed.

Lemma dash_fold_spec ks d :
  dict_keys (fold_left dash_step ks d) = dict_keys d /\
  forall k', dict_get (fold_left dash_step ks d) k'
             = if existsb (fun k => atom_eqb k k') ks
               then dash_value <$> dict_get d k' else dict_get d k'.
Proof.
  revert d. induction ks as [|k ks IH]; intros d; [split; reflexivity|].
  cbn [fold_left existsb]. destruct (IH (dash_step d k)) as [Hkeys Hget].
  destruct (dash_step_spec d k) as [Hkeys1 Hget1].
  split; [congruence|]. intros k'. rewrite Hget, Hget1.
  destruct (atom_eqb k k'), (existsb (fun k0 => atom_eqb k0 k') ks); cbn [orb];
    try reflexivity.
  destruct (dict_get d k') as [x|]; [|reflexivity]. simpl.
  rewrite dash_value_idem. reflexivity.
Qed.

Lemma dash_zeros_loop l ks : forall d (s : store),
  s !! l = Some d ->
  (forall k, In k ks -> In k (dict_keys d)) ->
  for_each ks (fun i =>
    let! x := getitem (VRef l) (VAtom i) in
    if py_eq_zero x then setitem (VRef l) (VAtom i) (str "-") else ret tt) s
  = (Ok tt, <[l := fold_left dash_step ks d]> s).
Proof.
  induction ks as [|k ks IH]; intros d s Hl Hin.
  - cbn. rewrite list_insert_id' by (intros _; exact Hl). reflexivity.
  - cbn [for_each fold_left].
    assert (Hhas : dict_has d k = true) by (apply dict_has_key, Hin; left; reflexivity).
    unfold dict_has in Hhas. unfold dash_step at 2.
    destruct (dict_get d k) as [x|] eqn:Hk; [|discriminate].
    assert (Hlen : l < List.length s) by (eapply lookup_lt_Some; exact Hl).
    destruct (py_eq_zero x) eqn:Hz.
    + erewrite bind_ok.
      2:{ erewrite bind_ok by (eapply getitem_ref; eassumption).
          rewrite Hz. unfold setitem, str. rewrite Hl. reflexivity. }
      erewrite IH.
      * rewrite list_insert_insert_eq. reflexivity.
      * apply list_lookup_insert_eq. exact Hlen.
      * intros k' Hk'. rewrite dict_keys_set by (unfold dict_has; rewrite Hk; reflexivity).
        apply Hin. right. exact Hk'.
    + erewrite bind_ok.
      2:{ erewrite bind_ok by (eapply getitem_ref; eassumption).
          rewrite Hz. reflexivity. }
      apply IH; [exact Hl|]. intros k' Hk'. apply Hin. right. exact Hk'.
Qed.

Lemma existsb_key d k x :
  dict_get d k = Some x -> existsb (fun k0 => atom_eqb k0 k) (dict_keys d) = true.
Proof.
  unfold dict_keys. induction d as [|[k0 v0] d IH]; simpl; [discriminate|].
  destruct (atom_eqb k0 k); [reflexivity | exact IH].
Qed.

Lemma dash_dict_get d k : dict_get (dash_dict d) k = dash_value <$> dict_get d k.
Proof.
  destruct (dash_fold_spec (dict_keys d) d) as [_ Hget].
  unfold dash_dict. rewrite Hget.
  destruct (dict_get d k) as [x|] eqn:Hk.
  - rewrite (existsb_key d k x Hk). reflexivity.
  - destruct (existsb _ _); reflexivity.
Qed.

Lemma dash_dict_no_zero d k x :
  dict_get (dash_dict d) k = Some x -> py_eq_zero x = false.
Proof.
  rewrite dash_dict_get. destruct (dict_get d k) as [y|]; [|discriminate].
  intros [= <-]. apply py_eq_zero_dash.
Qed.

Lemma dash_zeros_run (s : store) l d :
  s !! l = Some d -> dash_zeros (VRef l) s = (Ok tt, <[l := dash_dict d]> s).
Proof.
  intros Hl. unfold dash_zeros. erewrite bind_ok by (apply iter_ref; exact Hl).
  apply dash_zeros_loop; [exact Hl | auto].
Qed.

(** X7. The placeholder loop of the account view rewrites the dictionary in
    place: it keeps the keys and their order, puts ['-'] under every key whose
    value equals 0 and leaves every other value as it is.  No key holds a zero
    afterwards, and no other object of the store changes. *)
Theorem dash_zeros_result (s : store) l d :
  s !! l = Some d ->
  dash_zeros (VRef l) s = (Ok tt, <[l := dash_dict d]> s) /\
  dict_keys (dash_dict d) = dict_keys d /\
  (forall k, dict_get (dash_dict d) k = dash_value <$> dict_get d k) /\
  (forall k x, dict_get (dash_dict d) k = Some x -> py_eq_zero x = false).
Proof.
  intros Hl. split; [apply dash_zeros_run; exact Hl|].
  split; [apply (dash_fold_spec (dict_keys d) d)|].
  split; [apply dash_dict_get | apply dash_dict_no_zero].
Qed.

Lemma dash_zeros_result_witness :
  dash_zeros (VRef 0) [idle_total]
  = (Ok tt, [[ (AStr "cores", str "-"); (AStr "memory", num (1 # 2));
               (AStr "tlimit", str "-"); (AStr "total", num (1 # 6)) ]]).
Proof.
  exact (proj1 (dash_zeros_result [idle_total] 0 idle_total eq_refl)).
Defined.

(** ** Name resolution in the views *)

Lemma best_match_member ratio search c cs :
  exists name, best_match ratio search (c :: cs) = Ok name /\ In name (c :: cs).
Proof.
  set (candidates := c :: cs).
  destruct (py_max_spec (ratio search c) (map (fun i => ratio search i) cs))
    as (m & Hmax & Hin & _).
  change (ratio search c :: map (fun i => ratio search i) cs)
    with (map (fun i => ratio search i) candidates) in *.
  destruct (py_index_spec _ m Hin) as (i & y & Hidx & Hy & _).
  rewrite list_lookup_fmap in Hy.
  destruct (candidates !! i) as [name|] eqn:Hi; [|discriminate].
  exists name. split.
  - unfold best_match. fold candidates. rewrite Hmax, Hidx, Hi. reflexivity.
  - apply list_elem_of_In. eapply list_elem_of_lookup_2. exact Hi.
Qed.

Lemma as_strings_all names :
  forallb atom_is_str names = true ->
  exists candidates, as_strings names = Ok candidates /\ map AStr candidates = names.
Proof.
  induction names as [|a names IH]; [exists []; split; reflexivity|].
  cbn [forallb]. intros H. apply andb_true_iff in H as [Ha Hn].
  destruct a; try discriminate Ha.
  destruct (IH Hn) as (cs & Hcs & Hmap). exists (s :: cs). cbn [as_strings].
  rewrite Hcs. split; [reflexivity|]. cbn [map]. rewrite Hmap. reflexivity.
Qed.

Lemma as_strings_some names :
  forallb atom_is_str names = false -> as_strings names = Raise TypeError.
Proof.
  induction names as [|a names IH]; [discriminate|].
  cbn [forallb]. intros H. destruct a; try reflexivity.
  cbn [atom_is_str andb] in H. cbn [as_strings]. rewrite (IH H). reflexivity.
Qed.

(** X8. On a listing of strings, numbers, dates and [None], resolving a
    searched name leaves the store as it is and raises in two cases only:
    [ValueError] when nothing is listed, [TypeError] when a number, a date or
    [None] is listed.  When strings only are listed it returns one of them,
    whatever the similarity measure. *)
Theorem resolve_result ratio search names s :
  (names = [] -> resolve ratio search names s = (Raise ValueError, s)) /\
  (forallb atom_is_str names = false ->
   resolve ratio search names s = (Raise TypeError, s)) /\
  (names <> [] -> forallb atom_is_str names = true ->
   exists name, resolve ratio search names s = (Ok name, s) /\ In (AStr name) names).
Proof.
  split; [|split].
  - intros ->. reflexivity.
  - intros H. unfold resolve. rewrite (as_strings_some names H). reflexivity.
  - intros Hne H. destruct (as_strings_all names H) as (cs & Hcs & Hmap).
    destruct cs as [|c cs]; [subst names; contradiction|].
    destruct (best_match_member ratio search c cs) as (name & Hb & Hin).
    exists name. unfold resolve. rewrite Hcs, Hb. split; [reflexivity|].
    rewrite <- Hmap. apply in_map. exact Hin.
Qed.

Lemma resolve_result_witness :
  resolve prefix_ratio "alice" [] [] = (Raise ValueError, []) /\
  resolve prefix_ratio "alice" [AStr "bob"; ANone] [] = (Raise TypeError, []) /\
  exists name,
    resolve prefix_ratio "alice" [AStr "bob"; AStr "alicia"] [] = (Ok name, []) /\
    In (AStr name) [AStr "bob"; AStr "alicia"].
Proof.
  split; [|split].
  - apply (proj1 (resolve_result prefix_ratio "alice" [] [])). reflexivity.
  - apply (proj1 (proj2 (resolve_result prefix_ratio "alice" [AStr "bob"; ANone] []))).
    reflexivity.
  - apply (proj2 (proj2 (resolve_result prefix_ratio "alice"
                           [AStr "bob"; AStr "alicia"] [])));
      [discriminate | reflexivity].
Defined.

(** X9. Without a name in the URL, a view redirects to the home page when no
    search term reaches it: [viewAccount] takes the term from the argument
    ['search'] and, when that is missing or empty, from ['account'];
    [viewUser] from ['search'] only.  With a term and a database that lists
    no name, the view raises [ValueError].  Nothing is stored in either
    case. *)
Theorem view_without_name db dbv today ratio search account time term s :
  (missing search = true -> missing account = true ->
   viewAccount db dbv today ratio None search account time s
   = (Ok (Redirect "home"), s)) /\
  (missing search = true ->
   viewUser db dbv today ratio None search time s = (Ok (Redirect "home"), s)) /\
  (missing search = true -> account = Some term -> missing account = false ->
   db_getAccounts db None = [] ->
   viewAccount db dbv today ratio None search account time s
   = (Raise ValueError, s)) /\
  (search = Some term -> missing search = false ->
   (db_getAccounts db None = [] ->
    viewAccount db dbv today ratio None search account time s
    = (Raise ValueError, s)) /\
   (db_getUsers db None = [] ->
    viewUser db dbv today ratio None search time s = (Raise ValueError, s))).
Proof.
  split; [|split; [|split]].
  - intros Hs Ha. unfold viewAccount. cbn [missing]. rewrite Hs.
    destruct account as [a|]; [rewrite Ha|]; reflexivity.
  - intros Hs. unfold viewUser. cbn [missing].
    destruct search as [t|]; [rewrite Hs|]; reflexivity.
  - intros Hs -> Ha Hdb. unfold viewAccount. cbn [missing]. rewrite Hs.
    cbv zeta iota. rewrite Ha, Hdb. reflexivity.
  - intros -> Hs. cbn [missing] in Hs. split; intros Hdb.
    + unfold viewAccount. cbn [missing]. rewrite Hs. cbv zeta iota.
      cbn [missing]. rewrite Hs, Hdb. reflexivity.
    + unfold viewUser. cbn [missing]. rewrite Hs, Hdb. reflexivity.
Qed.

Lemma view_without_name_witness :
  viewAccount db_unlisted dbv_lab 736695 prefix_ratio None (Some "") None (Some "M") []
  = (Ok (Redirect "home"), []) /\
  viewUser db_unlisted dbv_lab 736695 prefix_ratio None None (Some "M") []
  = (Ok (Redirect "home"), []) /\
  viewAccount db_unlisted dbv_lab 736695 prefix_ratio None None (Some "lab") None []
  = (Raise ValueError, []) /\
  viewAccount db_unlisted dbv_lab 736695 prefix_ratio None (Some "lab") None None []
  = (Raise ValueError, []) /\
  viewUser db_unlisted dbv_lab 736695 prefix_ratio None (Some "alice") None []
  = (Raise ValueError, []).
Proof.
  split; [|split; [|split; [|split]]].
  - apply (proj1 (view_without_name db_unlisted dbv_lab 736695 prefix_ratio
                    (Some "") None (Some "M") "" [])); reflexivity.
  - apply (proj1 (proj2 (view_without_name db_unlisted dbv_lab 736695 prefix_ratio
                           None None (Some "M") "" []))); reflexivity.
  - apply (proj1 (proj2 (proj2 (view_without_name db_unlisted dbv_lab 736695
                                  prefix_ratio None (Some "lab") None "lab" []))));
      reflexivity.
  - apply (proj2 (proj2 (proj2 (view_without_name db_unlisted dbv_lab 736695
                                  prefix_ratio (Some "lab") None None "lab" []))));
      reflexivity.
  - apply (proj2 (proj2 (proj2 (view_without_name db_unlisted dbv_lab 736695
                                  prefix_ratio (Some "alice") None None "alice" []))));
      reflexivity.
Defined.


(** ** The account page *)

Lemma dict_get_set_any d k v k' :
  dict_get (dict_set d k v) k' = if atom_eqb k k' then Some v else dict_get d k'.
Proof.
  induction d as [|[k0 v0] d IH]; simpl; [reflexivity|].
  destruct (atom_eqb k0 k) eqn:E; simpl.
  - rewrite (atom_eqb_congr k0 k k' E). destruct (atom_eqb k k'); reflexivity.
  - rewrite IH. destruct (atom_eqb k0 k') eqn:E'; [|reflexivity].
    destruct (atom_eqb k k') eqn:E''; [|reflexivity].
    rewrite atom_eqb_sym in E''. rewrite (atom_eqb_trans _ _ _ E' E'') in E.
    discriminate.
Qed.

Lemma lookup_second (s0 : store) T ud rs :
  (s0 ++ T :: ud :: rs)%list !! (List.length s0 + 1) = Some ud.
Proof.
  rewrite lookup_app_r by lia.
  replace (List.length s0 + 1 - List.length s0) with 1 by lia. reflexivity.
Qed.

Lemma insert_second (s0 : store) T ud ud' rs :
  <[List.length s0 + 1 := ud']> (s0 ++ T :: ud :: rs)%list
  = (s0 ++ T :: ud' :: rs)%list.
Proof.
  rewrite insert_app_r_alt by lia.
  replace (List.length s0 + 1 - List.length s0) with 1 by lia. reflexivity.
Qed.

Section AccountPage.

Variable dbv : JobstatsViews.

Lemma add_user_loop lu l user ud ks : forall d (s : store),
  s !! lu = Some ud -> dict_get ud user = Some (VRef l) -> lu <> l ->
  s !! l = Some d ->
  (forall k, In k ks -> In k (dict_keys d)) ->
  for_each ks (fun element =>
    let! u1 := getitem (VRef lu) (VAtom user) in
    let! x := getitem u1 (VAtom element) in
    if py_eq_zero x then
      let! u2 := getitem (VRef lu) (VAtom user) in
      setitem u2 (VAtom element) (str "-")
    else ret tt) s
  = (Ok tt, <[l := fold_left dash_step ks d]> s).
Proof.
  induction ks as [|k ks IH]; intros d s Hlu Hu Hne Hl Hin.
  - cbn. rewrite list_insert_id' by (intros _; exact Hl). reflexivity.
  - cbn [for_each fold_left].
    assert (Hhas : dict_has d k = true) by (apply dict_has_key, Hin; left; reflexivity).
    unfold dict_has in Hhas. unfold dash_step at 2.
    destruct (dict_get d k) as [x|] eqn:Hk; [|discriminate].
    assert (Hlen : l < List.length s) by (eapply lookup_lt_Some; exact Hl).
    destruct (py_eq_zero x) eqn:Hz.
    + erewrite bind_ok.
      2:{ erewrite bind_ok by (eapply getitem_ref; eassumption).
          erewrite bind_ok by (eapply getitem_ref; eassumption).
          rewrite Hz.
          erewrite bind_ok by (eapply getitem_ref; eassumption).
          unfold setitem, str. rewrite Hl. reflexivity. }
      erewrite IH.
      * rewrite list_insert_insert_eq. reflexivity.
      * rewrite list_lookup_insert_ne by auto. exact Hlu.
      * exact Hu.
      * exact Hne.
      * apply list_lookup_insert_eq. exact Hlen.
      * intros k' Hk'. rewrite dict_keys_set by (unfold dict_has; rewrite Hk; reflexivity).
        apply Hin. right. exact Hk'.
    + erewrite bind_ok.
      2:{ erewrite bind_ok by (eapply getitem_ref; eassumption).
          erewrite bind_ok by (eapply getitem_ref; eassumption).
          rewrite Hz. reflexivity. }
      eapply IH; eauto. intros k' Hk'. apply Hin. right. exact Hk'.
Qed.

Lemma add_user_spec (s0 : store) T ud rs account_name since user :
  add_user dbv (VRef (List.length s0 + 1)) account_name since user
    (s0 ++ T :: ud :: rs)%list
  = (Ok tt,
     (s0 ++ T :: dict_set ud user (VRef (List.length s0 + 2 + List.length rs))
         :: (rs ++ [dash_dict (db_getUserStats dbv (VAtom user) (str account_name)
                                 since)]))%list).
Proof.
  unfold add_user. rewrite bind_alloc.
  set (stats := db_getUserStats dbv _ _ _).
  set (l := List.length (s0 ++ T :: ud :: rs)%list).
  assert (El : l = List.length s0 + 2 + List.length rs).
  { unfold l. rewrite length_app. simpl. lia. }
  set (ud' := dict_set ud user (VRef l)).
  assert (Hset : setitem (VRef (List.length s0 + 1)) (VAtom user) (VRef l)
                   ((s0 ++ T :: ud :: rs) ++ [stats])%list
                 = (Ok tt, (s0 ++ T :: ud' :: rs ++ [stats])%list)).
  { unfold setitem. rewrite <- app_assoc. cbn [app].
    rewrite lookup_second, insert_second. reflexivity. }
  rewrite (bind_ok _ _ _ _ _ Hset).
  set (s1 := (s0 ++ T :: ud' :: rs ++ [stats])%list).
  assert (Hlu : s1 !! (List.length s0 + 1) = Some ud') by apply lookup_second.
  assert (Hu : dict_get ud' user = Some (VRef l)).
  { unfold ud'. rewrite dict_get_set_any, atom_eqb_refl. reflexivity. }
  assert (Es1 : s1 = ((s0 ++ T :: ud' :: rs) ++ [stats])%list).
  { unfold s1. rewrite <- app_assoc. reflexivity. }
  assert (El' : l = List.length (s0 ++ T :: ud' :: rs)%list).
  { rewrite El, length_app. simpl. lia. }
  assert (Hl : s1 !! l = Some stats).
  { rewrite Es1, El'. apply lookup_new. }
  erewrite bind_ok by (eapply getitem_ref; eassumption).
  erewrite bind_ok by (apply iter_ref; exact Hl).
  rewrite (add_user_loop _ l user ud' _ stats s1 Hlu Hu ltac:(lia) Hl (fun k H => H)).
  f_equal. fold (dash_dict stats). rewrite Es1, El', store_set_new.
  rewrite <- app_assoc. unfold ud'. rewrite El. reflexivity.
Qed.

Lemma add_users_spec account_name since user_list : forall (s0 : store) T ud rs,
  for_each user_list (add_user dbv (VRef (List.length s0 + 1)) account_name since)
    (s0 ++ T :: ud :: rs)%list
  = (Ok tt,
     (s0 ++ T :: users_dict (List.length s0 + 2 + List.length rs) user_list ud
         :: (rs ++ map (fun user =>
                          dash_dict (db_getUserStats dbv (VAtom user)
                                       (str account_name) since)) user_list))%list).
Proof.
  induction user_list as [|user rest IH]; intros s0 T ud rs.
  - cbn. rewrite app_nil_r. reflexivity.
  - cbn [for_each users_dict map]. rewrite (bind_ok _ _ _ _ _ (add_user_spec _ _ _ _ _ _ _)).
    rewrite IH. rewrite length_app. cbn [List.length].
    replace (List.length s0 + 2 + (List.length rs + 1))
      with (S (List.length s0 + 2 + List.length rs)) by lia.
    rewrite <- app_assoc. reflexivity.
Qed.

End AccountPage.

Lemma users_dict_get next user_list : forall users k x,
  dict_get (users_dict next user_list users) k = Some x ->
  (exists l, x = VRef l) \/ dict_get users k = Some x.
Proof.
  revert next. induction user_list as [|u rest IH]; intros next users k x H;
    [right; exact H|].
  cbn [users_dict] in H. apply IH in H as [H|H]; [left; exact H|].
  rewrite dict_get_set_any in H. destruct (atom_eqb u k); [|right; exact H].
  injection H as <-. left. eauto.
Qed.

Lemma users_dict_has next user_list : forall users k,
  dict_has (users_dict next user_list users) k
  = dict_has users k || existsb (fun u => atom_eqb u k) user_list.
Proof.
  revert next. induction user_list as [|u rest IH]; intros next users k;
    [cbn; rewrite orb_false_r; reflexivity|].
  cbn [users_dict existsb]. rewrite IH. unfold dict_has at 1.
  rewrite dict_get_set_any. unfold dict_has.
  destruct (atom_eqb u k), (dict_get users k); reflexivity.
Qed.

(** X10. With a name in the URL, the account view stores three kinds of new
    objects and changes no other: the totals of the account, the [users]
    dictionary, and the statistics of each user of the account in the order
    the database lists them, every zero of the totals and of the statistics
    replaced by ['-'].  [users] has a key for the users of the account and no
    others, and no new object holds a zero. *)
Theorem viewAccount_page db dbv today ratio name search account time (s : store) :
  missing (Some name) = false ->
  exists s',
    viewAccount db dbv today ratio (Some name) search account time s
    = (Ok (Render {| ap_account_name := name;
                     ap_users := VRef (List.length s + 1);
                     ap_total := VRef (List.length s);
                     ap_time := time;
                     ap_timeframe := getTimeframe time |}), s') /\
    s' = (s ++ dash_dict (db_getAccountTotalScore dbv (str name) (since_of today time))
            :: users_dict (List.length s + 2)
                 (db_getAccountUsers dbv (str name)) []
            :: map (fun user =>
                      dash_dict (db_getUserStats dbv (VAtom user) (str name)
                                   (since_of today time)))
                 (db_getAccountUsers dbv (str name)))%list /\
    (forall user,
       dict_has (users_dict (List.length s + 2)
                   (db_getAccountUsers dbv (str name)) []) user
       = existsb (fun u => atom_eqb u user) (db_getAccountUsers dbv (str name))) /\
    (forall l d k x,
       List.length s <= l -> s' !! l = Some d -> dict_get d k = Some x ->
       py_eq_zero x = false).
Proof.
  intros Hname. eexists. split; [|split; [reflexivity|split]].
  - unfold viewAccount. rewrite Hname.
    erewrite bind_ok by reflexivity. cbv beta iota zeta. rewrite bind_alloc.
    erewrite bind_ok by (apply dash_zeros_run, lookup_new).
    rewrite store_set_new, bind_alloc, <- app_assoc. cbn [app].
    pose proof (add_users_spec dbv name (since_of today time)
                  (db_getAccountUsers dbv (str name)) s
                  (dash_dict (db_getAccountTotalScore dbv (str name)
                                (since_of today time))) [] []) as Hloop.
    replace (List.length (s ++ [dash_dict (db_getAccountTotalScore dbv (str name)
                                            (VAtom (ADate (today - getTimeframe time))))]))
      with (List.length s + 1) by (rewrite length_app; reflexivity).
    unfold since_of in *. rewrite (bind_ok _ _ _ _ _ Hloop).
    cbn [List.length app]. rewrite Nat.add_0_r. reflexivity.
  - intros user. rewrite users_dict_has. reflexivity.
  - intros l d k x Hl Hd Hk.
    rewrite lookup_app_r in Hd by exact Hl.
    destruct (l - List.length s) as [|[|n]].
    + injection Hd as <-. eapply dash_dict_no_zero. exact Hk.
    + injection Hd as <-. apply users_dict_get in Hk as [(l' & ->)|Hk];
        [reflexivity | discriminate].
    + lazymatch type of Hd with
      | (_ :: _ :: ?zs) !! S (S n) = _ => change (zs !! n = Some d) in Hd
      end.
      rewrite list_lookup_fmap in Hd.
      destruct (db_getAccountUsers dbv (str name) !! n); [|discriminate].
      injection Hd as <-. eapply dash_dict_no_zero. exact Hk.
Qed.

Lemma viewAccount_page_witness :
  exists s',
    viewAccount db_unlisted dbv_lab 736695 prefix_ratio (Some "lab") None None
      (Some "M") []
    = (Ok (Render {| ap_account_name := "lab"; ap_users := VRef 1;
                     ap_total := VRef 0; ap_time := Some "M";
                     ap_timeframe := 31 |}), s') /\
    s' = [ [ (AStr "cores", str "-"); (AStr "memory", num (1 # 2));
             (AStr "tlimit", str "-"); (AStr "total", num (1 # 6)) ];
           [ (AStr "alice", VRef 2); (AStr "bob", VRef 3) ];
           [ (AStr "total", num (1 # 2)) ];
           [ (AStr "cores", str "-"); (AStr "memory", num (1 # 2));
             (AStr "tlimit", str "-"); (AStr "total", num (1 # 6)) ] ].
Proof.
  destruct (viewAccount_page db_unlisted dbv_lab 736695 prefix_ratio "lab" None None
              (Some "M") [] eq_refl) as (s' & Hrun & Hs' & _).
  exists s'. split; [exact Hrun | exact Hs'].
Defined.

(** ** The charts of the home page *)






Lemma alloc_records_run m s :
  alloc_records m s
  = (Ok (mapping_entries (List.length s) m), (s ++ map snd m)%list).
Proof.
  revert s. induction m as [|[k d] m IH]; intros s.
  - cbn. unfold ret. rewrite app_nil_r. reflexivity.
  - cbn [alloc_records]. rewrite bind_alloc.
    rewrite (bind_ok _ _ _ _ _ (IH _)). unfold ret.
    rewrite length_app. cbn [List.length map snd mapping_entries].
    rewrite Nat.add_1_r, <- app_assoc. reflexivity.
Qed.

Lemma alloc_mapping_run m s :
  alloc_mapping m s
  = (Ok (VRef (List.length s + List.length m)),
     (s ++ map snd m ++ [mapping_entries (List.length s) m])%list).
Proof.
  unfold alloc_mapping. rewrite (bind_ok _ _ _ _ _ (alloc_records_run m s)).
  unfold alloc. rewrite length_app, length_map, <- app_assoc. reflexivity.
Qed.

Lemma add_data_points_empty g (s : store) l :
  s !! l = Some [] -> add_data_points g (VRef l) s = (Ok g, s).
Proof.
  intros Hl. unfold add_data_points.
  rewrite (bind_ok _ _ _ _ _ (iter_ref _ _ _ Hl)). cbn [dict_keys map].
  rewrite (bind_ok _ _ _ _ _ (sorted_nil _ _)). reflexivity.
Qed.

Lemma renderGraph_cluster_run cfg db dbc today global_object kind data_set days_arg s :
  lower data_set = "cluster" ->
  let m := db_getStats_cluster dbc (VAtom (ADate (today - getTimeframe days_arg))) in
  renderGraph cfg db dbc today global_object kind data_set days_arg s
  = (Raise (NameError "cores"),
     (s ++ [] :: map snd m ++ [mapping_entries (S (List.length s)) m])%list).
Proof.
  intros Hl m. unfold renderGraph. rewrite Hl. cbv zeta.
  rewrite bind_alloc. cbn [String.eqb Ascii.eqb Bool.eqb andb].
  unfold bind at 1. unfold ret at 1.
  rewrite (bind_ok _ _ _ _ _ (alloc_mapping_run _ _)).
  unfold read_global, load_name. cbn [existsb module_names].
  rewrite length_app, Nat.add_1_r. cbn [List.length].
  rewrite <- app_assoc. reflexivity.
Qed.

(** X12. The chart of the cluster is never rendered: once the statistics by
    date have been fetched, the series are read from the name [cores], which
    nothing binds, and the request ends in [NameError]. *)
Theorem renderGraph_cluster cfg db dbc today global_object kind data_set days_arg s :
  lower data_set = "cluster" ->
  let m := db_getStats_cluster dbc (VAtom (ADate (today - getTimeframe days_arg))) in
  renderGraph cfg db dbc today global_object kind data_set days_arg s
  = (Raise (NameError "cores"),
     (s ++ [] :: map snd m ++ [mapping_entries (S (List.length s)) m])%list).
Proof.
  exact (renderGraph_cluster_run cfg db dbc today global_object kind data_set days_arg s).
Qed.

Lemma renderGraph_cluster_witness :
  renderGraph cfg_off db_one
    dbc_day
    100 (fun _ => VAtom ANone) Line "cluster" (Some "M") []
  = (Raise (NameError "cores"), [[]; half_used; [(ADate 0, VRef 1)]]).
Proof.
  exact (renderGraph_cluster cfg_off db_one _ 100 (fun _ => VAtom ANone) Line
           "cluster" (Some "M") [] eq_refl).
Defined.

Lemma renderGraph_entities_run cfg db dbc today global_object kind data_set days_arg s :
  lower data_set = "account" \/ lower data_set = "user" ->
  let days := getTimeframe days_arg in
  renderGraph cfg db dbc today global_object kind data_set days_arg s
  = match listed_entities db (lower data_set +:+ "s") (VAtom (ADate (today - days))) with
    | [] =>
        (Ok {| chart_kind_of := kind;
               chart_title := Some (graph_title data_set days);
               chart_x_labels := graph_x_labels today data_set days;
               chart_series := [] |},
         (s ++ [[]])%list)
    | _ :: _ => (Raise TypeError, (s ++ [[]])%list)
    end.
Proof.
  intros Hl days. unfold renderGraph. fold days.
  set (since := VAtom (ADate (today - days))).
  set (g := {| chart_kind_of := kind; chart_title := _; chart_x_labels := _;
               chart_series := [] |}).
  rewrite bind_alloc. set (s1 := (s ++ [[]])%list).
  assert (Hdp : s1 !! List.length s = Some []) by apply lookup_new.
  destruct Hl as [Hl|Hl]; rewrite Hl; cbn [String.eqb Ascii.eqb Bool.eqb andb append].
  - pose proof (getTop_outcome cfg db "accounts" 10 since s1) as HT.
    unfold listed_entities in *. cbn [String.eqb Ascii.eqb Bool.eqb andb] in *.
    destruct (db_getAccounts db (Some since)) as [|a rest].
    + assert (E : bind (getTop cfg db "accounts" 10 since)
                    (fun top_accounts =>
                       for_each top_accounts (fun account =>
                         let! data := alloc_mapping
                                        (db_getStats_by_date dbc ByAccount account since) in
                         setitem (VRef (List.length s)) account data)) s1
                  = (Ok tt, s1))
        by (rewrite (bind_ok _ _ _ _ _ HT); reflexivity).
      rewrite (bind_ok _ _ _ _ _ E). apply add_data_points_empty, Hdp.
    + rewrite (bind_raise _ _ _ _ _ (bind_raise _ _ _ _ _ HT)). reflexivity.
  - unfold bind at 1. unfold ret at 1.
    pose proof (getTop_outcome cfg db "users" 10 since s1) as HT.
    unfold listed_entities in *. cbn [String.eqb Ascii.eqb Bool.eqb andb] in *.
    destruct (db_getUsers db (Some since)) as [|a rest].
    + rewrite (bind_ok _ _ _ _ _ HT). cbn [for_each].
      unfold bind at 1. unfold ret at 1. apply add_data_points_empty, Hdp.
    + rewrite (bind_raise _ _ _ _ _ HT). reflexivity.
Qed.

(** X13. The charts of the accounts and of the users never show a series.
    When the database lists no entity since the start of the timeframe, the
    chart is rendered with its title and labels alone; when it lists one,
    the ranking raises [TypeError] and no chart is rendered.  Either way the
    only new object is the empty dictionary of the data points. *)
Theorem renderGraph_entities cfg db dbc today global_object kind data_set days_arg s :
  lower data_set = "account" \/ lower data_set = "user" ->
  let days := getTimeframe days_arg in
  renderGraph cfg db dbc today global_object kind data_set days_arg s
  = match listed_entities db (lower data_set +:+ "s") (VAtom (ADate (today - days))) with
    | [] =>
        (Ok {| chart_kind_of := kind;
               chart_title := Some (graph_title data_set days);
               chart_x_labels := graph_x_labels today data_set days;
               chart_series := [] |},
         (s ++ [[]])%list)
    | _ :: _ => (Raise TypeError, (s ++ [[]])%list)
    end.
Proof.
  exact (renderGraph_entities_run cfg db dbc today global_object kind data_set days_arg s).
Qed.

Lemma renderGraph_entities_witness :
  renderGraph cfg_off db_one
    dbc_day
    100 (fun _ => VAtom ANone) Box "Account" (Some "Q") []
  = (Raise TypeError, [[]]).
Proof.
  exact (renderGraph_entities cfg_off db_one _ 100 (fun _ => VAtom ANone) Box
           "Account" (Some "Q") [] (or_introl eq_refl)).
Defined.

(** X20. None of the five chart endpoints of the home page plots anything:
    the four charts of the accounts and of the users are rendered without a
    series if they are rendered at all, and the chart of the cluster always
    ends in [NameError]. *)
Theorem home_charts_plot_nothing cfg db dbc today global_object days_arg s :
  (forall render,
     In render [ renderAccountsBoxPlot cfg db dbc today global_object;
                 renderUsersBoxPlot cfg db dbc today global_object;
                 renderUsersLineGraph cfg db dbc today global_object;
                 renderAccountsLineGraph cfg db dbc today global_object ] ->
     forall g s',
       render days_arg s = (Ok g, s') ->
       chart_series g = [] /\ s' = (s ++ [[]])%list) /\
  (renderClusterLineGraph cfg db dbc today global_object days_arg s).1
  = Raise (NameError "cores").
Proof.
  split.
  - intros render Hin g s' Hrun.
    assert (Hcases :
      exists kind data_set,
        (lower data_set = "account" \/ lower data_set = "user") /\
        renderGraph cfg db dbc today global_object kind data_set days_arg s
        = (Ok g, s')).
    { cbn [In] in Hin. destruct Hin as [<-|[<-|[<-|[<-|[]]]]].
      - exists Box, "Account". split; [left; reflexivity | exact Hrun].
      - exists Box, "User". split; [right; reflexivity | exact Hrun].
      - exists Line, "User". split; [right; reflexivity | exact Hrun].
      - exists Line, "Account". split; [left; reflexivity | exact Hrun]. }
    destruct Hcases as (kind & data_set & Hl & Hrun').
    rewrite (renderGraph_entities_run cfg db dbc today global_object kind data_set
               days_arg s Hl) in Hrun'.
    destruct (listed_entities db _ _); [|discriminate Hrun'].
    injection Hrun' as <- <-. split; reflexivity.
  - unfold renderClusterLineGraph.
    rewrite (renderGraph_cluster_run cfg db dbc today global_object Line "cluster"
               days_arg s eq_refl).
    reflexivity.
Qed.

(** ** Running the steps of a chart *)

Lemma pure_run {A} (m : M A) s r s' : pure_op m -> m s = (r, s') -> s' = s.
Proof. intros H E. specialize (H s). rewrite E in H. exact H. Qed.

Lemma bind_Ok_inv {A B} (m : M A) (f : A -> M B) s b s' :
  bind m f s = (Ok b, s') ->
  exists a s1, m s = (Ok a, s1) /\ f a s1 = (Ok b, s').
Proof. unfold bind. destruct (m s) as [[a|e] s1]; [eauto | discriminate]. Qed.

Lemma bind_pure_inv {A B} (m : M A) (f : A -> M B) s b s' :
  pure_op m -> bind m f s = (Ok b, s') ->
  exists a, m s = (Ok a, s) /\ f a s = (Ok b, s').
Proof.
  intros Hp H. apply bind_Ok_inv in H as (a & s1 & H1 & H2).
  assert (s1 = s) as -> by exact (pure_run _ _ _ _ Hp H1). eauto.
Qed.

Lemma pure_map_M {A B} (f : A -> M B) xs :
  (forall x, pure_op (f x)) -> pure_op (map_M f xs).
Proof.
  intros H. induction xs as [|x xs IH]; cbn [map_M]; [apply pure_ret|].
  apply pure_bind; [apply H | intros y].
  apply pure_bind; [exact IH | intros ys; apply pure_ret].
Qed.

Lemma pure_sorted_plain xs : pure_op (sorted None xs).
Proof.
  unfold sorted. apply pure_bind; [apply pure_map_M; intros; apply pure_ret|].
  intros keys. apply pure_bind; [apply pure_sort_by_key | intros; apply pure_ret].
Qed.

Lemma pure_int_arg parse_int arg : pure_op (int_arg parse_int arg).
Proof.
  unfold int_arg. destruct arg as [a|]; [destruct (parse_int a)|]; auto with pure.
Qed.

Lemma pure_row_get row n : pure_op (row_get row n).
Proof. unfold row_get. destruct (row !! n); auto with pure. Qed.

Lemma pure_column data field : pure_op (column data field).
Proof.
  unfold column. apply pure_bind; [apply pure_iter | intros keys].
  apply pure_map_M. intros i.
  apply pure_bind; [apply pure_getitem | intros; apply pure_getitem].
Qed.

(** The loop over the totals returns only when it finds no total to
    normalise, and then it has changed nothing. *)
Lemma normalize_totals_returns cfg total : forall s r s',
  normalize_totals cfg total s = (Ok r, s') ->
  r = total /\ s' = s /\ Forall (fun t => truthy t s = (Ok false, s)) total.
Proof.
  induction total as [|i rest IH]; intros s r s' H.
  - injection H as <- <-. auto.
  - cbn [normalize_totals] in H.
    apply bind_pure_inv in H as (b & Hb & H); [|apply pure_truthy].
    destruct b.
    + apply bind_Ok_inv in H as (i' & s1 & Hn & _).
      pose proof (normalize_total_raised cfg i false s) as Hr.
      rewrite Hn in Hr. destruct Hr.
    + apply bind_Ok_inv in H as (i' & s1 & Hi & H). injection Hi as <- <-.
      apply bind_Ok_inv in H as (rest' & s1 & Hrest & H). injection H as <- <-.
      apply IH in Hrest as (-> & -> & Hall). auto.
Qed.

Lemma truthy_false s v : truthy v s = (Ok false, s) -> falsy_in s v = true.
Proof.
  destruct v as [[|q|x| |]|l]; cbn; unfold ret.
  - reflexivity.
  - intros H. injection H as H. apply negb_false_iff. exact H.
  - intros H. injection H as H. apply negb_false_iff. exact H.
  - discriminate.
  - discriminate.
  - unfold bind, deref. destruct (s !! l) as [[|kv d]|]; [reflexivity | |];
      discriminate.
Qed.

(** A comprehension that returns has evaluated each of its items. *)
Lemma map_M_returns_each {A B} (f : A -> M B) :
  (forall x, pure_op (f x)) ->
  forall xs ys s s', map_M f xs s = (Ok ys, s') ->
    Forall (fun x => exists y, f x s = (Ok y, s)) xs.
Proof.
  intros Hp. induction xs as [|x xs IH]; intros ys s s' H; [constructor|].
  cbn [map_M] in H.
  apply bind_pure_inv in H as (y & Hy & H); [|apply Hp].
  apply bind_Ok_inv in H as (ys' & s1 & Hys & _).
  constructor; [exists y; exact Hy | eapply IH; exact Hys].
Qed.



(** ** Sorting keys of one kind *)

Section SortedKind.

Variable K : value -> Prop.
Variable lt : value -> value -> bool.
Hypothesis K_lt : forall a b s, K a -> K b -> py_lt a b s = (Ok (lt a b), s).
Hypothesis lt_asym : forall a b, K a -> K b -> lt a b = true -> lt b a = false.

Lemma insert_by_key_kind kx l s :
  K (fst kx) -> Forall (fun p => K (fst p)) l ->
  Sorted (fun x y => lt (fst y) (fst x) = false) l ->
  exists r,
    insert_by_key kx l s = (Ok r, s) /\ Permutation r (kx :: l) /\
    Sorted (fun x y => lt (fst y) (fst x) = false) r /\
    forall z, HdRel (fun x y => lt (fst y) (fst x) = false) z l ->
              lt (fst kx) (fst z) = false ->
              HdRel (fun x y => lt (fst y) (fst x) = false) z r.
Proof.
  intros Hk. induction l as [|ky l IH]; intros Hl Hs.
  - exists [kx]. cbn [insert_by_key]. repeat split; auto.
  - cbn [insert_by_key].
    apply Forall_cons_iff in Hl as [Hky Hl].
    rewrite (bind_ok _ _ _ _ _ (K_lt _ _ s Hky Hk)).
    destruct (lt (fst ky) (fst kx)) eqn:E.
    + apply Sorted_inv in Hs as [Hs Hhd].
      destruct (IH Hl Hs) as (r & Hr & Hp & Hsr & Hrel).
      rewrite (bind_ok _ _ _ _ _ Hr). exists (ky :: r).
      split; [reflexivity|]. split.
      { rewrite Hp. apply perm_swap. }
      split.
      { constructor; [exact Hsr|]. apply Hrel; [exact Hhd|].
        apply lt_asym; assumption. }
      intros z Hz _. constructor. apply HdRel_inv in Hz. exact Hz.
    + exists (kx :: ky :: l). split; [reflexivity|]. split; [reflexivity|].
      split; [constructor; [exact Hs | constructor; exact E]|].
      intros z _ Hz. constructor. exact Hz.
Qed.

Lemma sort_by_key_kind l s :
  Forall (fun p => K (fst p)) l ->
  exists r,
    sort_by_key l s = (Ok r, s) /\ Permutation r l /\
    Sorted (fun x y => lt (fst y) (fst x) = false) r.
Proof.
  induction l as [|kx l IH]; intros Hl.
  - exists []. repeat split; auto.
  - apply Forall_cons_iff in Hl as [Hk Hl].
    destruct (IH Hl) as (r & Hr & Hp & Hs).
    assert (Hkr : Forall (fun p => K (fst p)) r)
      by (eapply Permutation_Forall; [symmetry; exact Hp | exact Hl]).
    destruct (insert_by_key_kind kx r s Hk Hkr Hs) as (r' & Hr' & Hp' & Hs' & _).
    exists r'. cbn [sort_by_key]. rewrite (bind_ok _ _ _ _ _ Hr).
    split; [exact Hr'|]. split; [|exact Hs'].
    rewrite Hp'. constructor. exact Hp.
Qed.

Lemma map_M_ret {A} (xs : list A) s : map_M (fun x => ret x) xs s = (Ok xs, s).
Proof.
  induction xs as [|x xs IH]; [reflexivity|].
  cbn [map_M]. unfold bind at 1. unfold ret at 1.
  rewrite (bind_ok _ _ _ _ _ IH). reflexivity.
Qed.

Lemma combine_diag {A} (xs : list A) :
  map snd (combine xs xs) = xs /\ Forall (fun p => fst p = snd p) (combine xs xs).
Proof.
  induction xs as [|x xs [IH1 IH2]]; [split; [reflexivity | constructor]|].
  cbn. rewrite IH1. split; [reflexivity | constructor; [reflexivity | exact IH2]].
Qed.

Lemma Sorted_diag (r : list (value * value)) :
  Forall (fun p => fst p = snd p) r ->
  Sorted (fun x y => lt (fst y) (fst x) = false) r ->
  Sorted (fun x y => lt y x = false) (map snd r).
Proof.
  induction r as [|p r IH]; intros Hd Hs; [constructor|].
  apply Forall_cons_iff in Hd as [Hp Hd]. apply Sorted_inv in Hs as [Hs Hhd].
  cbn [map]. constructor; [apply IH; assumption|].
  destruct r as [|q r]; [constructor|].
  apply Forall_cons_iff in Hd as [Hq _]. apply HdRel_inv in Hhd.
  cbn [map]. constructor. rewrite <- Hp, <- Hq. exact Hhd.
Qed.

(** [sorted(xs)] on keys of one kind returns them in ascending order and
    leaves the store as it is. *)
Lemma sorted_plain_kind xs s :
  Forall K xs ->
  exists r,
    sorted None xs s = (Ok r, s) /\ Permutation r xs /\
    Sorted (fun x y => lt y x = false) r.
Proof.
  intros Hk. destruct (combine_diag xs) as [Hsnd Hdiag].
  assert (Hkc : Forall (fun p => K (fst p)) (combine xs xs)).
  { clear Hsnd Hdiag. induction Hk; cbn; constructor; assumption. }
  destruct (sort_by_key_kind _ s Hkc) as (r & Hr & Hp & Hs).
  exists (map snd r). unfold sorted.
  rewrite (bind_ok _ _ _ _ _ (map_M_ret xs s)), (bind_ok _ _ _ _ _ Hr).
  split; [reflexivity|]. split.
  - transitivity (map snd (combine xs xs));
      [apply Permutation_map; exact Hp | rewrite Hsnd; reflexivity].
  - apply Sorted_diag; [|exact Hs].
    eapply Permutation_Forall; [symmetry; exact Hp | exact Hdiag].
Qed.

End SortedKind.

(** ** Scores by date *)

Lemma py_lt_dates a b s :
  is_date a -> is_date b -> py_lt a b s = (Ok (date_lt a b), s).
Proof. intros [x ->] [y ->]. reflexivity. Qed.

Lemma date_lt_asym a b :
  is_date a -> is_date b -> date_lt a b = true -> date_lt b a = false.
Proof. intros [x ->] [y ->]. cbn. lia. Qed.

Lemma dict_keys_mapping l m : dict_keys (mapping_entries l m) = map fst m.
Proof.
  revert l. induction m as [|[k d] m IH]; intros l; [reflexivity|].
  cbn [mapping_entries]. unfold dict_keys in *. cbn [map fst]. rewrite IH.
  reflexivity.
Qed.

Lemma mapping_entries_get m : forall l j k d,
  distinct_keys (map fst m) = true -> m !! j = Some (k, d) ->
  dict_get (mapping_entries l m) k = Some (VRef (l + j)).
Proof.
  induction m as [|[k0 d0] m IH]; intros l j k d Hd Hj; [discriminate|].
  cbn [map fst distinct_keys] in Hd. apply andb_true_iff in Hd as [Hk0 Hd].
  cbn [mapping_entries dict_get]. destruct j as [|j].
  - injection Hj as -> ->. rewrite atom_eqb_refl, Nat.add_0_r. reflexivity.
  - change (m !! j = Some (k, d)) in Hj.
    destruct (atom_eqb k0 k) eqn:E.
    + apply negb_true_iff in Hk0.
      assert (existsb (atom_eqb k0) (map fst m) = true); [|congruence].
      apply existsb_exists. exists k. split; [|exact E].
      apply in_map_iff. exists (k, d). split; [reflexivity|].
      apply list_elem_of_In. eapply list_elem_of_lookup_2. exact Hj.
    + rewrite (IH (S l) j k d Hd Hj). do 2 f_equal. lia.
Qed.

Lemma map_M_run {A B C} (f : B -> M C) (g : A -> B) (h : A -> C) xs s :
  (forall x, In x xs -> f (g x) s = (Ok (h x), s)) ->
  map_M f (map g xs) s = (Ok (map h xs), s).
Proof.
  induction xs as [|x xs IH]; intros H; [reflexivity|].
  cbn [map map_M]. rewrite (bind_ok _ _ _ _ _ (H x (or_introl eq_refl))).
  rewrite (bind_ok _ _ _ _ _ (IH (fun y Hy => H y (or_intror Hy)))).
  reflexivity.
Qed.

Lemma mapping_lookup (s : store) m :
  (s ++ map snd m ++ [mapping_entries (List.length s) m])%list
    !! (List.length s + List.length m)
  = Some (mapping_entries (List.length s) m).
Proof.
  rewrite lookup_app_r by lia. rewrite lookup_app_r by (rewrite length_map; lia).
  rewrite length_map.
  replace (List.length s + List.length m - List.length s - List.length m) with 0 by lia.
  reflexivity.
Qed.

Lemma mapping_record_lookup (s : store) m j k d :
  m !! j = Some (k, d) ->
  (s ++ map snd m ++ [mapping_entries (List.length s) m])%list
    !! (List.length s + j) = Some d.
Proof.
  intros Hj. rewrite lookup_app_r by lia.
  replace (List.length s + j - List.length s) with j by lia.
  apply lookup_app_l_Some. change (map snd m) with (snd <$> m).
  rewrite list_lookup_fmap, Hj. reflexivity.
Qed.

(** A column of a mapping the database returned: the field of each record,
    in the order of the mapping. *)
Lemma column_run (s : store) m field :
  distinct_keys (map fst m) = true ->
  (forall kd, In kd m -> dict_get (snd kd) (AStr field) <> None) ->
  column (VRef (List.length s + List.length m)) field
    (s ++ map snd m ++ [mapping_entries (List.length s) m])%list
  = (Ok (map (fun kd => field_of field (snd kd)) m),
     (s ++ map snd m ++ [mapping_entries (List.length s) m])%list).
Proof.
  intros Hd Hf. unfold column.
  rewrite (bind_ok _ _ _ _ _ (iter_ref _ _ _ (mapping_lookup s m))).
  rewrite dict_keys_mapping. apply map_M_run. intros [k d] Hin.
  destruct (list_elem_of_lookup_1 _ _ (proj2 (list_elem_of_In _ _) Hin)) as [j Hj].
  cbn [fst snd].
  rewrite (bind_ok _ _ _ _ _
             (getitem_ref _ _ _ _ _ (mapping_lookup s m)
                (mapping_entries_get m _ j k d Hd Hj))).
  specialize (Hf (k, d) Hin). cbn [snd] in Hf. unfold field_of.
  destruct (dict_get d (AStr field)) as [v|] eqn:Ev; [|contradiction].
  apply (getitem_ref _ _ d); [eapply mapping_record_lookup; exact Hj | exact Ev].
Qed.

(** On numbers, the loop over the totals raises [TypeError] at the first
    one that is not zero. *)
Lemma normalize_totals_numbers cfg {A} (f : A -> value) xs s :
  (forall x, In x xs -> is_num (f x) = true) ->
  normalize_totals cfg (map f xs) s
  = if existsb (fun x => py_ne_zero (f x)) xs then (Raise TypeError, s)
    else (Ok (map f xs), s).
Proof.
  induction xs as [|x xs IH]; intros H; [reflexivity|].
  cbn [map normalize_totals existsb].
  pose proof (H x (or_introl eq_refl)) as Hx.
  destruct (f x) as [[|q| | |]|]; try discriminate Hx.
  unfold py_ne_zero at 1. cbn [py_eq_zero truthy].
  unfold bind at 1. unfold ret at 1.
  destruct (Qeq_bool q 0); cbn [negb orb].
  - unfold bind at 1. unfold ret at 1. unfold bind at 1.
    rewrite (IH (fun y Hy => H y (or_intror Hy))).
    destruct (existsb _ xs); reflexivity.
  - reflexivity.
Qed.

(** A column that is returned is the field of each record, and each record
    has the field. *)
Lemma column_returns (s : store) m field xs s' :
  distinct_keys (map fst m) = true ->
  column (VRef (List.length s + List.length m)) field
    (s ++ map snd m ++ [mapping_entries (List.length s) m])%list
  = (Ok xs, s') ->
  (forall kd, In kd m -> dict_get (snd kd) (AStr field) <> None) /\
  xs = map (fun kd => field_of field (snd kd)) m.
Proof.
  intros Hd H.
  assert (Hf : forall kd, In kd m -> dict_get (snd kd) (AStr field) <> None).
  { unfold column in H.
    rewrite (bind_ok _ _ _ _ _ (iter_ref _ _ _ (mapping_lookup s m))) in H.
    rewrite dict_keys_mapping in H.
    apply map_M_returns_each in H.
    2:{ intros i. apply pure_bind; [apply pure_getitem | intros; apply pure_getitem]. }
    rewrite List.Forall_forall in H.
    intros [k d] Hin.
    destruct (list_elem_of_lookup_1 _ _ (proj2 (list_elem_of_In _ _) Hin)) as [j Hj].
    destruct (H k) as [y Hy]; [apply in_map_iff; exists (k, d); auto|].
    rewrite (bind_ok _ _ _ _ _
               (getitem_ref _ _ _ _ _ (mapping_lookup s m)
                  (mapping_entries_get m _ j k d Hd Hj))) in Hy.
    unfold getitem, bind, deref, str in Hy.
    rewrite (mapping_record_lookup s m j k d Hj) in Hy.
    cbn [snd]. destruct (dict_get d (AStr field)); [discriminate | discriminate Hy]. }
  split; [exact Hf|].
  rewrite (column_run s m field Hd Hf) in H. injection H as <- _. reflexivity.
Qed.

(** X14. For a day count within the calendar and a mapping with distinct
    keys, the line chart of an account is rendered only with the columns of
    the database as its four series, in the order of the mapping, and only
    when every total of the database is falsy (zero, [None], an empty string
    or an empty dictionary): the series ['total'] shows the totals as they
    are, and no score.  Every record then has the four fields, and the only
    new objects are the ones the database returned. *)
Theorem renderAccountLineGraph_returns cfg dbc today parse_int account_name
  days_arg days (s : store) g s' :
  int_arg parse_int days_arg s = (Ok days, s) ->
  in_calendar today days = true ->
  let m := db_getStats_of_by_date dbc (str account_name)
             (VAtom (ADate (today - days))) in
  distinct_keys (map fst m) = true ->
  renderAccountLineGraph cfg dbc today parse_int account_name days_arg s = (Ok g, s') ->
  s' = (s ++ map snd m ++ [mapping_entries (List.length s) m])%list /\
  (forall kd field,
     In kd m -> In field ["cores"; "memory"; "tlimit"; "total"] ->
     dict_get (snd kd) (AStr field) <> None) /\
  forallb (fun kd => falsy_in s' (field_of "total" (snd kd))) m = true /\
  exists labels,
    sorted None (map (fun kd => VAtom (fst kd)) m) s' = (Ok labels, s') /\
    g = {| chart_kind_of := Line;
           chart_title := Some (graph_title account_name days);
           chart_x_labels := labels;
           chart_series :=
             [ (str "cores", SList (map (fun kd => field_of "cores" (snd kd)) m));
               (str "memory", SList (map (fun kd => field_of "memory" (snd kd)) m));
               (str "time limit",
                SList (map (fun kd => field_of "tlimit" (snd kd)) m));
               (str "total", SList (map (fun kd => field_of "total" (snd kd)) m)) ] |}.
Proof.
  intros Hdays _ m Hd H. unfold renderAccountLineGraph in H.
  rewrite (bind_ok _ _ _ _ _ Hdays) in H. fold m in H.
  rewrite (bind_ok _ _ _ _ _ (alloc_mapping_run m s)) in H.
  set (s1 := (s ++ map snd m ++ [mapping_entries (List.length s) m])%list) in *.
  rewrite (bind_ok _ _ _ _ _ (iter_ref _ _ _ (mapping_lookup s m))) in H.
  rewrite dict_keys_mapping, map_map in H.
  apply bind_pure_inv in H as (labels & Hsort & H); [|apply pure_sorted_plain].
  apply bind_pure_inv in H as (cores & Hc & H); [|apply pure_column].
  apply bind_pure_inv in H as (memory & Hm & H); [|apply pure_column].
  apply bind_pure_inv in H as (tLimit & Ht & H); [|apply pure_column].
  apply bind_pure_inv in H as (total & Htot & H); [|apply pure_column].
  apply (column_returns s m) in Hc as [Hfc ->]; [|exact Hd].
  apply (column_returns s m) in Hm as [Hfm ->]; [|exact Hd].
  apply (column_returns s m) in Ht as [Hft ->]; [|exact Hd].
  apply (column_returns s m) in Htot as [Hftot ->]; [|exact Hd].
  apply bind_Ok_inv in H as (total' & s2 & Hn & H). injection H as <- <-.
  apply normalize_totals_returns in Hn as (-> & -> & Hall).
  split; [reflexivity|]. split; [|split].
  - intros kd field Hin Hfield. cbn [In] in Hfield.
    destruct Hfield as [<-|[<-|[<-|[<-|[]]]]]; auto.
  - apply forallb_forall. intros kd Hin. apply truthy_false.
    rewrite List.Forall_forall in Hall. apply Hall.
    apply in_map_iff. exists kd. auto.
  - exists labels. split; [exact Hsort | reflexivity].
Qed.

Lemma renderAccountLineGraph_returns_witness :
  [day_scores 0; day_scores 0; [(ADate 99, VRef 0); (ADate 98, VRef 1)]]
  = ([] ++ map snd [(ADate 99, day_scores 0); (ADate 98, day_scores 0)]
        ++ [mapping_entries 0 [(ADate 99, day_scores 0); (ADate 98, day_scores 0)]])%list /\
  forallb (fun kd =>
             falsy_in [day_scores 0; day_scores 0;
                       [(ADate 99, VRef 0); (ADate 98, VRef 1)]]
               (field_of "total" (snd kd)))
    [(ADate 99, day_scores 0); (ADate 98, day_scores 0)] = true.
Proof.
  destruct (renderAccountLineGraph_returns cfg_off dbc_idle 100 parse_days "lab"
              (Some "7") 7 [] _ _ eq_refl eq_refl eq_refl eq_refl)
    as (Hs & _ & Hfalsy & _).
  split; [exact Hs | exact Hfalsy].
Defined.

Lemma scores_by_date_inv m :
  scores_by_date m = true ->
  distinct_keys (map fst m) = true /\
  Forall is_date (map (fun kd => VAtom (fst kd)) m) /\
  forall field, In field ["cores"; "memory"; "tlimit"; "total"] ->
    forall kd, In kd m ->
      dict_get (snd kd) (AStr field) <> None /\ is_num (field_of field (snd kd)) = true.
Proof.
  unfold scores_by_date. intros H. apply andb_true_iff in H as [H Hd].
  rewrite forallb_forall in H. split; [exact Hd|]. split.
  - apply List.Forall_forall. intros v Hv.
    apply in_map_iff in Hv as ([k d] & <- & Hin).
    apply H, andb_true_iff in Hin as [Hk _]. cbn [fst] in *.
    destruct k; try discriminate Hk. eexists. reflexivity.
  - intros field Hfield kd Hin. apply H, andb_true_iff in Hin as [_ Hs].
    rewrite forallb_forall in Hs. specialize (Hs field Hfield).
    split; [|exact Hs]. unfold field_of in Hs.
    destruct (dict_get (snd kd) (AStr field)); [discriminate | discriminate Hs].
Qed.

(** X15. For a day count within the calendar and a mapping from distinct
    dates to records with numeric scores, the line chart of an account is
    rendered only when every total is zero:
    its labels are then the dates in ascending order and its series the four
    columns in the order of the mapping.  A total that is not zero ends the
    request in [TypeError]. *)
Theorem renderAccountLineGraph_scores cfg dbc today parse_int account_name
  days_arg days (s : store) :
  int_arg parse_int days_arg s = (Ok days, s) ->
  in_calendar today days = true ->
  let m := db_getStats_of_by_date dbc (str account_name)
             (VAtom (ADate (today - days))) in
  let s1 := (s ++ map snd m ++ [mapping_entries (List.length s) m])%list in
  scores_by_date m = true ->
  if existsb (fun kd => py_ne_zero (field_of "total" (snd kd))) m then
    renderAccountLineGraph cfg dbc today parse_int account_name days_arg s
    = (Raise TypeError, s1)
  else
    exists labels,
      renderAccountLineGraph cfg dbc today parse_int account_name days_arg s
      = (Ok {| chart_kind_of := Line;
               chart_title := Some (graph_title account_name days);
               chart_x_labels := labels;
               chart_series :=
                 [ (str "cores", SList (map (fun kd => field_of "cores" (snd kd)) m));
                   (str "memory", SList (map (fun kd => field_of "memory" (snd kd)) m));
                   (str "time limit",
                    SList (map (fun kd => field_of "tlimit" (snd kd)) m));
                   (str "total", SList (map (fun kd => field_of "total" (snd kd)) m)) ] |},
         s1) /\
      Permutation labels (map (fun kd => VAtom (fst kd)) m) /\
      Sorted (fun x y => date_lt y x = false) labels.
Proof.
  intros Hdays _ m s1 Hm.
  destruct (scores_by_date_inv m Hm) as (Hd & Hdates & Hfields).
  destruct (sorted_plain_kind is_date date_lt py_lt_dates date_lt_asym _ s1 Hdates)
    as (labels & Hsort & Hperm & Hsorted).
  assert (Hrun : renderAccountLineGraph cfg dbc today parse_int account_name days_arg s
                 = bind (normalize_totals cfg (map (fun kd => field_of "total" (snd kd)) m))
                     (fun total =>
                        ret {| chart_kind_of := Line;
                               chart_title := Some (graph_title account_name days);
                               chart_x_labels := labels;
                               chart_series :=
                                 [ (str "cores",
                                    SList (map (fun kd => field_of "cores" (snd kd)) m));
                                   (str "memory",
                                    SList (map (fun kd => field_of "memory" (snd kd)) m));
                                   (str "time limit",
                                    SList (map (fun kd => field_of "tlimit" (snd kd)) m));
                                   (str "total", SList total) ] |}) s1).
  { unfold renderAccountLineGraph. rewrite (bind_ok _ _ _ _ _ Hdays).
    fold m. rewrite (bind_ok _ _ _ _ _ (alloc_mapping_run m s)). fold s1.
    rewrite (bind_ok _ _ _ _ _ (iter_ref _ _ _ (mapping_lookup s m))).
    rewrite dict_keys_mapping, map_map.
    rewrite (bind_ok _ _ _ _ _ Hsort).
    rewrite (bind_ok _ _ _ _ _ (column_run s m "cores" Hd
               (fun kd Hin => proj1 (Hfields "cores" ltac:(cbn; auto) kd Hin)))).
    rewrite (bind_ok _ _ _ _ _ (column_run s m "memory" Hd
               (fun kd Hin => proj1 (Hfields "memory" ltac:(cbn; auto) kd Hin)))).
    rewrite (bind_ok _ _ _ _ _ (column_run s m "tlimit" Hd
               (fun kd Hin => proj1 (Hfields "tlimit" ltac:(cbn; auto) kd Hin)))).
    rewrite (bind_ok _ _ _ _ _ (column_run s m "total" Hd
               (fun kd Hin => proj1 (Hfields "total" ltac:(cbn; auto 6) kd Hin)))).
    reflexivity. }
  rewrite Hrun. unfold bind.
  rewrite (normalize_totals_numbers cfg (fun kd => field_of "total" (snd kd)) m s1
             (fun kd Hin => proj2 (Hfields "total" ltac:(cbn; auto 6) kd Hin))).
  destruct (existsb _ m); [reflexivity|].
  exists labels. split; [reflexivity|]. split; assumption.
Qed.

Lemma renderAccountLineGraph_scores_witness :
  renderAccountLineGraph cfg_off dbc_day 100 parse_days "lab" (Some "7") []
  = (Raise TypeError,
     [day_scores 0; day_scores (1 # 2); [(ADate 99, VRef 0); (ADate 98, VRef 1)]]).
Proof.
  exact (renderAccountLineGraph_scores cfg_off dbc_day 100 parse_days "lab"
           (Some "7") 7 [] eq_refl eq_refl eq_refl).
Defined.


(** ** Rows of scores *)

Lemma map_M_ok {A B} (f : A -> M B) (h : A -> B) xs s :
  (forall x, In x xs -> f x s = (Ok (h x), s)) ->
  map_M f xs s = (Ok (map h xs), s).
Proof.
  induction xs as [|x xs IH]; intros H; [reflexivity|].
  cbn [map map_M]. rewrite (bind_ok _ _ _ _ _ (H x (or_introl eq_refl))).
  rewrite (bind_ok _ _ _ _ _ (IH (fun y Hy => H y (or_intror Hy)))).
  reflexivity.
Qed.

Lemma row_get_col row n s :
  (n < List.length row)%nat -> row_get row n s = (Ok (col n row), s).
Proof.
  intros Hn. unfold row_get, col.
  destruct (row !! n) eqn:E; [reflexivity|].
  apply lookup_ge_None in E. lia.
Qed.

Lemma row_get_returns row n v s s' :
  row_get row n s = (Ok v, s') -> (n < List.length row)%nat.
Proof.
  unfold row_get. destruct (row !! n) eqn:E; [|discriminate].
  intros _. eapply lookup_lt_Some. exact E.
Qed.

(** X16. For a day count within the calendar, the line chart of a user is
    rendered only when every row the database returned has seven columns or
    more and a seventh column that is falsy (zero, [None], an empty string or
    an empty dictionary).  Its series are then the fourth to seventh columns
    in the order of the rows: the series ['total'] shows the totals as they
    are, and no score.  The store is as it was. *)
Theorem renderUserAccountLineGraph_returns cfg dbc today parse_int user_name
  days_arg account_arg days (s : store) g s' :
  int_arg parse_int days_arg s = (Ok days, s) ->
  in_calendar today days = true ->
  let rows := db_getStats_as_list dbc (str user_name)
                (match account_arg with Some a => str a | None => VAtom ANone end)
                (VAtom (ADate (today - days))) in
  renderUserAccountLineGraph cfg dbc today parse_int user_name days_arg account_arg s
  = (Ok g, s') ->
  s' = s /\
  Forall (fun row => (6 < List.length row)%nat) rows /\
  forallb (fun row => falsy_in s (col 6 row)) rows = true /\
  exists labels,
    sorted None (map (col 2) rows) s = (Ok labels, s) /\
    g = {| chart_kind_of := Line;
           chart_title := Some (graph_title user_name days);
           chart_x_labels := labels;
           chart_series := [ (str "cores", SList (map (col 3) rows));
                             (str "memory", SList (map (col 4) rows));
                             (str "time limit", SList (map (col 5) rows));
                             (str "total", SList (map (col 6) rows)) ] |}.
Proof.
  intros Hdays _ rows H. unfold renderUserAccountLineGraph in H.
  rewrite (bind_ok _ _ _ _ _ Hdays) in H. fold rows in H.
  assert (Hquad : forall row, pure_op (let! c := row_get row 3 in
                                       let! m := row_get row 4 in
                                       let! t := row_get row 5 in
                                       let! e := row_get row 6 in
                                       ret (c, m, t, e))).
  { intros row. repeat (apply pure_bind; [apply pure_row_get | intros ?]).
    apply pure_ret. }
  apply bind_pure_inv in H as (dates & Hdates & H);
    [|apply pure_map_M; intros; apply pure_row_get].
  apply bind_pure_inv in H as (labels & Hsort & H); [|apply pure_sorted_plain].
  apply bind_pure_inv in H as (columns & Hcols & H); [|apply pure_map_M, Hquad].
  assert (Hlen : Forall (fun row => (6 < List.length row)%nat) rows).
  { apply map_M_returns_each in Hcols; [|exact Hquad].
    eapply Forall_impl; [exact Hcols|]. intros row [y Hrow].
    apply bind_pure_inv in Hrow as (c & _ & Hrow); [|apply pure_row_get].
    apply bind_pure_inv in Hrow as (m & _ & Hrow); [|apply pure_row_get].
    apply bind_pure_inv in Hrow as (t0 & _ & Hrow); [|apply pure_row_get].
    apply bind_pure_inv in Hrow as (e & He & _); [|apply pure_row_get].
    eapply row_get_returns. exact He. }
  rewrite List.Forall_forall in Hlen.
  rewrite (map_M_ok (fun i => row_get i 2) (col 2) rows s) in Hdates.
  2:{ intros row Hin. apply row_get_col. specialize (Hlen row Hin). lia. }
  injection Hdates as <-.
  rewrite (map_M_ok _ (fun row => (col 3 row, col 4 row, col 5 row, col 6 row))
             rows s) in Hcols.
  2:{ intros row Hin. specialize (Hlen row Hin).
      rewrite (bind_ok _ _ _ _ _ (row_get_col row 3 s ltac:(lia))).
      rewrite (bind_ok _ _ _ _ _ (row_get_col row 4 s ltac:(lia))).
      rewrite (bind_ok _ _ _ _ _ (row_get_col row 5 s ltac:(lia))).
      rewrite (bind_ok _ _ _ _ _ (row_get_col row 6 s ltac:(lia))).
      reflexivity. }
  injection Hcols as <-.
  rewrite !map_map in H. cbv beta iota in H.
  apply bind_Ok_inv in H as (total' & s2 & Hn & H). injection H as <- <-.
  apply normalize_totals_returns in Hn as (-> & -> & Hall).
  split; [reflexivity|]. split; [apply List.Forall_forall; exact Hlen|]. split.
  - apply forallb_forall. intros row Hin. apply truthy_false.
    rewrite List.Forall_forall in Hall. apply Hall.
    apply in_map_iff. exists row. auto.
  - exists labels. split; [exact Hsort | reflexivity].
Qed.

Lemma renderUserAccountLineGraph_returns_witness :
  @nil dict = [] /\
  Forall (fun row => (6 < List.length row)%nat)
    (db_getStats_as_list dbc_idle (str "alice") (VAtom ANone) (VAtom (ADate 93))) /\
  forallb (fun row => falsy_in [] (col 6 row))
    (db_getStats_as_list dbc_idle (str "alice") (VAtom ANone) (VAtom (ADate 93)))
  = true.
Proof.
  destruct (renderUserAccountLineGraph_returns cfg_off dbc_idle 100 parse_days "alice"
              (Some "7") None 7 [] _ _ eq_refl eq_refl eq_refl)
    as (Hs & Hlen & Hfalsy & _).
  split; [exact Hs | split; [exact Hlen | exact Hfalsy]].
Defined.

(** X17. For a day count within the calendar and rows of seven columns or
    more with a date in the third and a number in the seventh, the line chart
    of a user is rendered only when every total is zero: its labels are then the dates in ascending order
    and its series the fourth to seventh columns in the order of the rows.  A
    total that is not zero ends the request in [TypeError].  The store is
    left as it was. *)
Theorem renderUserAccountLineGraph_scores cfg dbc today parse_int user_name
  days_arg account_arg days (s : store) :
  int_arg parse_int days_arg s = (Ok days, s) ->
  in_calendar today days = true ->
  let rows := db_getStats_as_list dbc (str user_name)
                (match account_arg with Some a => str a | None => VAtom ANone end)
                (VAtom (ADate (today - days))) in
  score_rows rows = true ->
  if existsb (fun row => py_ne_zero (col 6 row)) rows then
    renderUserAccountLineGraph cfg dbc today parse_int user_name days_arg account_arg s
    = (Raise TypeError, s)
  else
    exists labels,
      renderUserAccountLineGraph cfg dbc today parse_int user_name days_arg
        account_arg s
      = (Ok {| chart_kind_of := Line;
               chart_title := Some (graph_title user_name days);
               chart_x_labels := labels;
               chart_series := [ (str "cores", SList (map (col 3) rows));
                                 (str "memory", SList (map (col 4) rows));
                                 (str "time limit", SList (map (col 5) rows));
                                 (str "total", SList (map (col 6) rows)) ] |},
         s) /\
      Permutation labels (map (col 2) rows) /\
      Sorted (fun x y => date_lt y x = false) labels.
Proof.
  intros Hdays _ rows Hrows. unfold score_rows in Hrows.
  rewrite forallb_forall in Hrows.
  assert (Hlen : forall row, In row rows -> (6 < List.length row)%nat).
  { intros row Hin. apply Hrows in Hin.
    apply andb_true_iff in Hin as [Hin _]. apply andb_true_iff in Hin as [Hin _].
    apply Nat.ltb_lt. exact Hin. }
  assert (Hdates : Forall is_date (map (col 2) rows)).
  { apply List.Forall_forall. intros v Hv. apply in_map_iff in Hv as (row & <- & Hin).
    apply Hrows in Hin.
    apply andb_true_iff in Hin as [Hin _]. apply andb_true_iff in Hin as [_ Hin].
    destruct (col 2 row) as [[]|]; try discriminate Hin. eexists. reflexivity. }
  assert (Hnum : forall row, In row rows -> is_num (col 6 row) = true).
  { intros row Hin. apply Hrows in Hin. apply andb_true_iff in Hin as [_ Hin].
    exact Hin. }
  destruct (sorted_plain_kind is_date date_lt py_lt_dates date_lt_asym _ s Hdates)
    as (labels & Hsort & Hperm & Hsorted).
  assert (Hcols : map_M (fun i =>
                           let! c := row_get i 3 in
                           let! m := row_get i 4 in
                           let! t := row_get i 5 in
                           let! e := row_get i 6 in
                           ret (c, m, t, e)) rows s
                  = (Ok (map (fun row => (col 3 row, col 4 row, col 5 row, col 6 row))
                           rows), s)).
  { apply map_M_ok. intros row Hin. specialize (Hlen row Hin).
    rewrite (bind_ok _ _ _ _ _ (row_get_col row 3 s ltac:(lia))).
    rewrite (bind_ok _ _ _ _ _ (row_get_col row 4 s ltac:(lia))).
    rewrite (bind_ok _ _ _ _ _ (row_get_col row 5 s ltac:(lia))).
    rewrite (bind_ok _ _ _ _ _ (row_get_col row 6 s ltac:(lia))).
    reflexivity. }
  assert (Hrun : renderUserAccountLineGraph cfg dbc today parse_int user_name days_arg
                   account_arg s
                 = bind (normalize_totals cfg (map (col 6) rows))
                     (fun total =>
                        ret {| chart_kind_of := Line;
                               chart_title := Some (graph_title user_name days);
                               chart_x_labels := labels;
                               chart_series :=
                                 [ (str "cores", SList (map (col 3) rows));
                                   (str "memory", SList (map (col 4) rows));
                                   (str "time limit", SList (map (col 5) rows));
                                   (str "total", SList total) ] |}) s).
  { unfold renderUserAccountLineGraph. rewrite (bind_ok _ _ _ _ _ Hdays).
    fold rows.
    rewrite (bind_ok _ _ _ _ _
               (map_M_ok (fun i => row_get i 2) (col 2) rows s
                  (fun row Hin => row_get_col row 2 s ltac:(specialize (Hlen row Hin); lia)))).
    rewrite (bind_ok _ _ _ _ _ Hsort).
    rewrite (bind_ok _ _ _ _ _ Hcols).
    rewrite !map_map. reflexivity. }
  rewrite Hrun. unfold bind.
  rewrite (normalize_totals_numbers cfg (col 6) rows s Hnum).
  destruct (existsb _ rows); [reflexivity|].
  exists labels. split; [reflexivity|]. split; assumption.
Qed.

Lemma renderUserAccountLineGraph_scores_witness :
  renderUserAccountLineGraph cfg_off dbc_day 100 parse_days "alice" (Some "7")
    (Some "lab") []
  = (Raise TypeError, []).
Proof.
  exact (renderUserAccountLineGraph_scores cfg_off dbc_day 100 parse_days "alice"
           (Some "7") (Some "lab") 7 [] eq_refl eq_refl eq_refl).
Defined.

(** ** The pie chart of an account *)

Lemma py_lt_strings a b s :
  is_str a -> is_str b -> py_lt a b s = (Ok (str_lt a b), s).
Proof. intros [x ->] [y ->]. reflexivity. Qed.

Lemma str_lt_asym a b :
  is_str a -> is_str b -> str_lt a b = true -> str_lt b a = false.
Proof.
  intros [x ->] [y ->]. cbn. unfold String.ltb.
  rewrite (String.compare_antisym x y).
  destruct (String.compare y x); cbn; congruence.
Qed.

Lemma dict_keys_set_in d u v k :
  In k (dict_keys (dict_set d u v)) -> k = u \/ In k (dict_keys d).
Proof.
  unfold dict_keys. induction d as [|[k0 v0] d IH]; cbn.
  - intros [<-|[]]. left. reflexivity.
  - destruct (atom_eqb k0 u); cbn.
    + intros [<-|H]; auto.
    + intros [<-|H]; [auto|]. destruct (IH H); auto.
Qed.

Lemma counts_dict_keys users count : forall d k,
  In k (dict_keys (counts_dict users count d)) -> In k users \/ In k (dict_keys d).
Proof.
  induction users as [|u users IH]; intros d k H; [right; exact H|].
  cbn [counts_dict] in H. apply IH in H as [H|H]; [left; right; exact H|].
  apply dict_keys_set_in in H as [->|H]; [left; left; reflexivity | right; exact H].
Qed.

Lemma counts_dict_get users count : forall d k x,
  dict_get (counts_dict users count d) k = Some x ->
  x = count \/ dict_get d k = Some x.
Proof.
  induction users as [|u users IH]; intros d k x H; [right; exact H|].
  cbn [counts_dict] in H. apply IH in H as [H|H]; [left; exact H|].
  rewrite dict_get_set_any in H. destruct (atom_eqb u k); [|right; exact H].
  injection H as <-. left. reflexivity.
Qed.

Lemma counts_dict_has users count : forall d k,
  dict_has (counts_dict users count d) k
  = dict_has d k || existsb (fun u => atom_eqb u k) users.
Proof.
  induction users as [|u users IH]; intros d k;
    [cbn; rewrite orb_false_r; reflexivity|].
  cbn [counts_dict existsb]. rewrite IH. unfold dict_has at 1.
  rewrite dict_get_set_any. unfold dict_has.
  destruct (atom_eqb u k), (dict_get d k); reflexivity.
Qed.

Lemma for_each_setitem_counts users count : forall (s : store) l d,
  s !! l = Some d ->
  for_each users (fun user => setitem (VRef l) (VAtom user) count) s
  = (Ok tt, <[l := counts_dict users count d]> s).
Proof.
  induction users as [|u users IH]; intros s l d Hl.
  - cbn. unfold ret. rewrite list_insert_id' by (intros _; exact Hl). reflexivity.
  - cbn [for_each counts_dict].
    assert (E : setitem (VRef l) (VAtom u) count s
                = (Ok tt, <[l := dict_set d u count]> s))
      by (unfold setitem; rewrite Hl; reflexivity).
    rewrite (bind_ok _ _ _ _ _ E).
    rewrite (IH _ l (dict_set d u count)).
    + rewrite list_insert_insert_eq. reflexivity.
    + apply list_lookup_insert_eq. eapply lookup_lt_Some. exact Hl.
Qed.

Lemma slices_run url_for l d count : forall ordered (s : store),
  s !! l = Some d ->
  (forall i, In i ordered -> exists a, i = VAtom a /\ dict_get d a = Some count) ->
  map_M (fun i =>
           let! count := getitem (VRef l) i in
           let! slice :=
             alloc [ (AStr "value", count); (AStr "xlink", url_for "viewUser" i) ] in
           ret (i, SList [slice])) ordered s
  = (Ok (slices_of (List.length s) ordered),
     (s ++ map (slice_object url_for count) ordered)%list).
Proof.
  induction ordered as [|i ordered IH]; intros s Hl Hin.
  - cbn. unfold ret. rewrite app_nil_r. reflexivity.
  - cbn [map_M map slices_of].
    destruct (Hin i (or_introl eq_refl)) as (a & -> & Ha).
    assert (E : bind (getitem (VRef l) (VAtom a))
                  (fun count =>
                     let! slice :=
                       alloc [ (AStr "value", count);
                               (AStr "xlink", url_for "viewUser" (VAtom a)) ] in
                     ret (VAtom a, SList [slice])) s
                = (Ok (VAtom a, SList [VRef (List.length s)]),
                   (s ++ [slice_object url_for count (VAtom a)])%list)).
    { rewrite (bind_ok _ _ _ _ _ (getitem_ref _ _ _ _ _ Hl Ha)).
      rewrite bind_alloc. reflexivity. }
    rewrite (bind_ok _ _ _ _ _ E).
    rewrite (bind_ok _ _ _ _ _
               (IH _ (lookup_extended _ _ _ _ Hl) (fun j Hj => Hin j (or_intror Hj)))).
    unfold ret. rewrite length_app, Nat.add_1_r, <- app_assoc. reflexivity.
Qed.

Lemma chart_add_all slices : forall g,
  fold_left (fun g '(i, values) => chart_add g i values) slices g
  = {| chart_kind_of := chart_kind_of g; chart_title := chart_title g;
       chart_x_labels := chart_x_labels g;
       chart_series := (chart_series g ++ slices)%list |}.
Proof.
  induction slices as [|[i values] slices IH]; intros g.
  - cbn. rewrite app_nil_r. destruct g; reflexivity.
  - cbn [fold_left]. rewrite IH. cbn. rewrite <- app_assoc. reflexivity.
Qed.

(** X18. For a day count within the calendar, and when the database lists
    the users of the account as strings, the pie chart is rendered with one
    slice for each distinct user, in ascending order of the names.  Every slice is a new object with the same value: the
    number of jobs the database counts since the date, which does not depend
    on the user. *)
Theorem renderAccountUsersGraph_slices dbc today parse_int url_for account_name
  days_arg days (s : store) :
  int_arg parse_int days_arg s = (Ok days, s) ->
  in_calendar today days = true ->
  let users := db_getUsersOf dbc (str account_name) in
  let count := db_getUserJobCount dbc (VAtom (ADate (today - days))) in
  forallb atom_is_str users = true ->
  exists ordered,
    renderAccountUsersGraph dbc today parse_int url_for account_name days_arg s
    = (Ok {| chart_kind_of := Pie; chart_title := Some "Jobs Per User";
             chart_x_labels := [];
             chart_series := slices_of (List.length s + 1) ordered |},
       (s ++ counts_dict users count []
          :: map (slice_object url_for count) ordered)%list) /\
    Permutation ordered (map VAtom (dict_keys (counts_dict users count []))) /\
    Sorted (fun x y => str_lt y x = false) ordered /\
    forall user,
      dict_has (counts_dict users count []) user
      = existsb (fun u => atom_eqb u user) users.
Proof.
  intros Hdays _ users count Hstr.
  set (data := counts_dict users count []).
  set (s1 := (s ++ [data])%list).
  assert (Hdata : s1 !! List.length s = Some data) by apply lookup_new.
  assert (Hkeys : Forall is_str (map VAtom (dict_keys data))).
  { apply List.Forall_forall. intros v Hv. apply in_map_iff in Hv as (k & <- & Hk).
    apply counts_dict_keys in Hk as [Hk|[]].
    rewrite forallb_forall in Hstr. apply Hstr in Hk.
    destruct k; try discriminate Hk. eexists. reflexivity. }
  destruct (sorted_plain_kind is_str str_lt py_lt_strings str_lt_asym _ s1 Hkeys)
    as (ordered & Hsort & Hperm & Hsorted).
  exists ordered. split; [|split; [exact Hperm | split; [exact Hsorted|]]].
  - unfold renderAccountUsersGraph. rewrite (bind_ok _ _ _ _ _ Hdays).
    rewrite bind_alloc. fold users count.
    rewrite (bind_ok _ _ _ _ _
               (for_each_setitem_counts users count _ _ [] (lookup_new s []))).
    rewrite store_set_new. fold data s1.
    rewrite (bind_ok _ _ _ _ _ (iter_ref _ _ _ Hdata)).
    rewrite (bind_ok _ _ _ _ _ Hsort).
    assert (Hin : forall i, In i ordered ->
                    exists a, i = VAtom a /\ dict_get data a = Some count).
    { intros i Hi.
      apply (Permutation_in _ Hperm), in_map_iff in Hi as (a & <- & Ha).
      exists a. split; [reflexivity|].
      apply dict_has_key in Ha. unfold dict_has in Ha.
      destruct (dict_get data a) as [x|] eqn:Ex; [|discriminate].
      destruct (counts_dict_get users count [] a x Ex) as [->|Hx];
        [reflexivity | discriminate Hx]. }
    rewrite (bind_ok _ _ _ _ _ (slices_run url_for _ data count ordered s1 Hdata Hin)).
    unfold ret. rewrite chart_add_all. cbn [chart_kind_of chart_title chart_x_labels
                                              chart_series app].
    unfold s1. rewrite length_app, <- app_assoc. reflexivity.
  - intros user. unfold data. rewrite counts_dict_has. reflexivity.
Qed.

Lemma renderAccountUsersGraph_slices_witness :
  exists ordered,
    renderAccountUsersGraph dbc_day 100 parse_days (fun _ user => user) "lab"
      (Some "7") []
    = (Ok {| chart_kind_of := Pie; chart_title := Some "Jobs Per User";
             chart_x_labels := [];
             chart_series := slices_of 1 ordered |},
       [(AStr "bob", num 3); (AStr "alice", num 3)]
         :: map (slice_object (fun _ user => user) (num 3)) ordered) /\
    Permutation ordered [str "bob"; str "alice"] /\
    Sorted (fun x y => str_lt y x = false) ordered.
Proof.
  destruct (renderAccountUsersGraph_slices dbc_day 100 parse_days (fun _ user => user)
              "lab" (Some "7") 7 [] eq_refl eq_refl eq_refl)
    as (ordered & Hrun & Hperm & Hsorted & _).
  exists ordered. split; [exact Hrun | split; [exact Hperm | exact Hsorted]].
Defined.

(** ** The user page *)

Lemma viewUser_loop dbv user_name since rows : forall (s0 : store) ud rs,
  forallb has_key rows = true ->
  for_each rows (fun account =>
    let! name := first_column account in
    let! stats := alloc (db_getStatsOf dbv (str user_name) name since) in
    let! key := first_column account in
    setitem (VRef (List.length s0)) key stats) (s0 ++ ud :: rs)%list
  = (Ok tt,
     (s0 ++ users_dict (List.length s0 + 1 + List.length rs) (map key_of rows) ud
         :: (rs ++ map (fun row => db_getStatsOf dbv (str user_name) (col 0 row) since)
                     rows))%list).
Proof.
  induction rows as [|row rows IH]; intros s0 ud rs Hk.
  - cbn. rewrite app_nil_r. reflexivity.
  - cbn [forallb] in Hk. apply andb_true_iff in Hk as [Hrow Hk].
    destruct row as [|[a|] row]; try discriminate Hrow.
    cbn [for_each map users_dict key_of].
    change (col 0 (VAtom a :: row)) with (VAtom a).
    set (stats := db_getStatsOf dbv (str user_name) (VAtom a) since).
    assert (E : bind (first_column (VAtom a :: row))
                  (fun name =>
                     let! stats := alloc (db_getStatsOf dbv (str user_name) name since) in
                     let! key := first_column (VAtom a :: row) in
                     setitem (VRef (List.length s0)) key stats) (s0 ++ ud :: rs)%list
                = (Ok tt,
                   (s0 ++ dict_set ud a (VRef (List.length s0 + 1 + List.length rs))
                       :: (rs ++ [stats]))%list)).
    { cbn [first_column]. unfold bind at 1. unfold ret at 1.
      rewrite bind_alloc. unfold bind at 1. unfold ret at 1.
      unfold setitem. rewrite <- app_assoc. cbn [app].
      rewrite list_lookup_middle by reflexivity.
      rewrite insert_app_r_alt by lia. rewrite Nat.sub_diag. cbn [insert list_insert].
      rewrite length_app. cbn [List.length].
      replace (List.length s0 + S (List.length rs))
        with (List.length s0 + 1 + List.length rs) by lia.
      reflexivity. }
    rewrite (bind_ok _ _ _ _ _ E). rewrite (IH _ _ _ Hk).
    rewrite length_app. cbn [List.length].
    replace (List.length s0 + 1 + (List.length rs + 1))
      with (S (List.length s0 + 1 + List.length rs)) by lia.
    rewrite <- app_assoc. reflexivity.
Qed.

(** X19. With a name in the URL and rows whose first column is hashable, the
    user view stores the dictionary [accounts] and, after it, the statistics
    of each row in the order the database lists them, as the database
    returned them: no zero is replaced here.  [accounts] has a key for the
    first column of each row and no others. *)
Theorem viewUser_page db dbv today ratio name search time (s : store) :
  missing (Some name) = false ->
  let rows := db_getAccountsOf dbv (str name) in
  forallb has_key rows = true ->
  viewUser db dbv today ratio (Some name) search time s
  = (Ok (Render {| up_user_name := name;
                   up_accounts := VRef (List.length s);
                   up_time := time;
                   up_timeframe := getTimeframe time |}),
     (s ++ users_dict (List.length s + 1) (map key_of rows) []
        :: map (fun row => db_getStatsOf dbv (str name) (col 0 row)
                             (since_of today time)) rows)%list) /\
  forall key,
    dict_has (users_dict (List.length s + 1) (map key_of rows) []) key
    = existsb (fun row => atom_eqb (key_of row) key) rows.
Proof.
  intros Hname rows Hrows. split.
  - unfold viewUser. rewrite Hname.
    unfold bind at 1. unfold ret at 1. cbv beta iota zeta.
    rewrite bind_alloc. fold rows.
    rewrite (bind_ok _ _ _ _ _
               (viewUser_loop dbv name (since_of today time) rows s [] [] Hrows)).
    cbn [List.length app]. rewrite Nat.add_0_r. reflexivity.
  - intros key. rewrite users_dict_has. cbn [dict_has dict_get orb].
    induction rows as [|row rows' IH]; [reflexivity|].
    cbn [map existsb]. f_equal.
    apply IH. cbn [forallb] in Hrows. apply andb_true_iff in Hrows as [_ H]. exact H.
Qed.

Lemma viewUser_page_witness :
  viewUser db_unlisted dbv_lab 736695 prefix_ratio (Some "alice") None (Some "Q") []
  = (Ok (Render {| up_user_name := "alice"; up_accounts := VRef 0;
                   up_time := Some "Q"; up_timeframe := 100 |}),
     [ [(AStr "lab", VRef 1)]; idle_total ]).
Proof.
  exact (proj1 (viewUser_page db_unlisted dbv_lab 736695 prefix_ratio "alice" None
                  (Some "Q") [] eq_refl eq_refl)).
Defined.

(** ** The argument ['days'] of the charts of an account and of a user *)

(** X21. Unlike the charts of the home page, which fall back to a week, the
    three charts of an account and of a user need the argument ['days']:
    when it is missing they end in [TypeError], when it is no number in
    [ValueError], whatever the database holds and with the store as it
    was. *)
Theorem entity_charts_need_days cfg dbc today parse_int url_for name days_arg
  account_arg s e :
  days_error parse_int days_arg = Some e ->
  renderAccountLineGraph cfg dbc today parse_int name days_arg s = (Raise e, s) /\
  renderAccountUsersGraph dbc today parse_int url_for name days_arg s = (Raise e, s) /\
  renderUserAccountLineGraph cfg dbc today parse_int name days_arg account_arg s
  = (Raise e, s).
Proof.
  intros He.
  assert (Hint : int_arg parse_int days_arg s = (Raise e, s)).
  { unfold days_error in He. unfold int_arg.
    destruct days_arg as [d|]; [destruct (parse_int d)|]; try discriminate He;
      injection He as <-; reflexivity. }
  unfold renderAccountLineGraph, renderAccountUsersGraph, renderUserAccountLineGraph.
  rewrite !(bind_raise _ _ _ _ _ Hint). auto.
Qed.

Lemma entity_charts_need_days_witness :
  renderAccountLineGraph cfg_off dbc_day 100 parse_days "lab" (Some "week") []
  = (Raise ValueError, []) /\
  renderAccountUsersGraph dbc_day 100 parse_days (fun _ user => user) "lab"
    (Some "week") []
  = (Raise ValueError, []) /\
  renderUserAccountLineGraph cfg_off dbc_day 100 parse_days "lab" (Some "week") None []
  = (Raise ValueError, []).
Proof.
  exact (entity_charts_need_days cfg_off dbc_day 100 parse_days (fun _ user => user)
           "lab" (Some "week") None [] ValueError eq_refl).
Defined.
